(** * ESPHome Component Manager: configuration model, validation,
      YAML document assembly and crawl loop

    A shallow embedding of
      - [src/models/config_variable.py]  (ConfigVariable)
      - [src/models/component.py]        (ESPHomeComponent)
      - [src/utils/validation.py]        (ConfigValidator)
      - [src/utils/yaml_generator.py]    (YAMLGenerator)
      - [src/scraper.py]                 (ESPHomeScraper)
    followed by the properties established about them.

    Conventions.  A Python [str] is a Rocq [string] holding ASCII text; the
    case mappings and character classes below are the ASCII ones.  A Python
    [dict] is an association list in insertion order whose keys are strings;
    assignment to an existing key keeps the key's position.  A Python object is
    a [value].  Python builtins whose exact behaviour is outside this
    repository ([int(str)], [float(str)], [repr] of floats and containers) are
    fields of the class [Builtins]. *)

From Stdlib Require Import List String Ascii ZArith Bool Lia Arith.
From Stdlib Require Import SpecFloat DecimalString.
Import ListNotations.
Set Warnings "-register-all".
Local Open Scope string_scope.
Local Open Scope Z_scope.

(* ===================================================================== *)
(** * Python strings *)
(* ===================================================================== *)

Module PyStr.

Definition code (c : ascii) : N := N_of_ascii c.

Definition between (lo hi : N) (c : ascii) : bool :=
  (lo <=? code c)%N && (code c <=? hi)%N.

Definition is_digit (c : ascii) : bool := between 48 57 c.
Definition is_upper (c : ascii) : bool := between 65 90 c.
Definition is_lower (c : ascii) : bool := between 97 122 c.
Definition is_alpha (c : ascii) : bool := is_upper c || is_lower c.
Definition is_alnum_ (c : ascii) : bool :=
  is_alpha c || is_digit c || Ascii.eqb c "_".
Definition is_hex (c : ascii) : bool :=
  is_digit c || between 65 70 c || between 97 102 c.

(** Characters removed by [str.strip()] with no argument. *)
Definition is_space (c : ascii) : bool :=
  between 9 13 c || between 28 32 c.

Definition lower_ascii (c : ascii) : ascii :=
  if is_upper c then ascii_of_N (code c + 32) else c.
Definition upper_ascii (c : ascii) : ascii :=
  if is_lower c then ascii_of_N (code c - 32) else c.

Fixpoint map_chars (f : ascii -> ascii) (s : string) : string :=
  match s with
  | EmptyString => EmptyString
  | String c r => String (f c) (map_chars f r)
  end.

(** [s.lower()], [s.upper()] *)
Definition lower : string -> string := map_chars lower_ascii.
Definition upper : string -> string := map_chars upper_ascii.

(** [s.replace(a, b)] for one-character [a] and [b]. *)
Definition replace (a b : ascii) : string -> string :=
  map_chars (fun c => if Ascii.eqb c a then b else c).

Fixpoint all_chars (p : ascii -> bool) (s : string) : bool :=
  match s with
  | EmptyString => true
  | String c r => p c && all_chars p r
  end.

Fixpoint any_chars (p : ascii -> bool) (s : string) : bool :=
  match s with
  | EmptyString => false
  | String c r => p c || any_chars p r
  end.

(** [s[:n]] *)
Fixpoint take (n : nat) (s : string) : string :=
  match n, s with
  | O, _ => EmptyString
  | S _, EmptyString => EmptyString
  | S n', String c r => String c (take n' r)
  end.

(** [s.startswith(p)] *)
Definition startswith (p s : string) : bool := String.prefix p s.

(** [p in s] for strings. *)
Fixpoint contains (p s : string) : bool :=
  String.prefix p s ||
  match s with
  | EmptyString => false
  | String _ r => contains p r
  end.

(** [x in [..]] for a list or tuple of strings. *)
Definition mem (x : string) (l : list string) : bool :=
  existsb (String.eqb x) l.

Fixpoint lstrip (s : string) : string :=
  match s with
  | EmptyString => EmptyString
  | String c r => if is_space c then lstrip r else s
  end.

Fixpoint rstrip (s : string) : string :=
  match s with
  | EmptyString => EmptyString
  | String c r =>
      match rstrip r with
      | EmptyString => if is_space c then EmptyString else String c EmptyString
      | r' => String c r'
      end
  end.

(** [s.strip()] *)
Definition strip (s : string) : string := rstrip (lstrip s).

(** [s.split(sep)] for a one-character separator. *)
Fixpoint split (sep : ascii) (s : string) : list string :=
  match s with
  | EmptyString => [EmptyString]
  | String c r =>
      if Ascii.eqb c sep then EmptyString :: split sep r
      else match split sep r with
           | [] => [String c EmptyString]
           | w :: ws => String c w :: ws
           end
  end.

(** Value of a run of decimal digits, most significant first. *)
Fixpoint digits_value (acc : Z) (s : string) : Z :=
  match s with
  | EmptyString => acc
  | String c r => digits_value (10 * acc + (Z.of_N (code c) - 48)) r
  end.

(** [str(z)] for an integer. *)
Definition of_Z (z : Z) : string := NilZero.string_of_int (Z.to_int z).

End PyStr.

(* ===================================================================== *)
(** * Python objects *)
(* ===================================================================== *)

(** The objects that reach the modelled code: [None], [bool], [int],
    [float] (IEEE binary64, as a [spec_float]), [str], [list] and [dict]. *)
Inductive value : Type :=
| VNone
| VBool (b : bool)
| VInt (z : Z)
| VFloat (f : spec_float)
| VStr (s : string)
| VList (l : list value)
| VDict (d : list (string * value)).

Definition pydict : Type := list (string * value).

(** The exceptions the modelled builtins raise. *)
Inductive exn : Type :=
  ValueError | TypeError | OverflowError | AttributeError.

(** Result of evaluating an expression that may raise. *)
Inductive outcome (A : Type) : Type :=
| Return (a : A)
| Raise (e : exn).
Arguments Return {A} a.
Arguments Raise {A} e.

(** Builtins of the Python runtime used by the code and not part of it. *)
Class Builtins : Type := {
  (** [int(s)] for a [str]; [None] stands for [ValueError]. *)
  int_of_str : string -> option Z;
  (** [float(s)] for a [str]; [None] stands for [ValueError]. *)
  float_of_str : string -> option spec_float;
  (** [str(f)] for a [float]. *)
  str_of_float : spec_float -> string;
  (** [str(v)] for a [list] or a [dict]. *)
  str_of_container : value -> string
}.

Module Py.

Definition is_none (v : value) : bool :=
  match v with VNone => true | _ => false end.

(** [isinstance(v, bool)] *)
Definition isinstance_bool (v : value) : bool :=
  match v with VBool _ => true | _ => false end.

(** [isinstance(v, int)]: [bool] is a subclass of [int]. *)
Definition isinstance_int (v : value) : bool :=
  match v with VBool _ | VInt _ => true | _ => false end.

(** [isinstance(v, (int, float))] *)
Definition isinstance_int_float (v : value) : bool :=
  match v with VBool _ | VInt _ | VFloat _ => true | _ => false end.

Definition isinstance_str (v : value) : bool :=
  match v with VStr _ => true | _ => false end.

Definition isinstance_list (v : value) : bool :=
  match v with VList _ => true | _ => false end.

Definition isinstance_dict (v : value) : bool :=
  match v with VDict _ => true | _ => false end.

(** [bool(v)] *)
Definition truthy (v : value) : bool :=
  match v with
  | VNone => false
  | VBool b => b
  | VInt z => negb (z =? 0)
  | VFloat (S754_zero _) => false
  | VFloat _ => true
  | VStr s => match s with EmptyString => false | _ => true end
  | VList l => match l with [] => false | _ => true end
  | VDict d => match d with [] => false | _ => true end
  end.

(** The integer an [int] object (a [bool] included) stands for. *)
Definition int_value (v : value) : option Z :=
  match v with
  | VBool b => Some (if b then 1 else 0)
  | VInt z => Some z
  | _ => None
  end.

(** [int(f)] for a float: truncation toward zero. *)
Definition int_of_float (f : spec_float) : outcome Z :=
  match f with
  | S754_zero _ => Return 0
  | S754_infinity _ => Raise OverflowError
  | S754_nan => Raise ValueError
  | S754_finite s m e =>
      let a := match e with
               | Z0 => Zpos m
               | Zpos p => Zpos m * 2 ^ Zpos p
               | Zneg p => Zpos m / 2 ^ Zpos p
               end in
      Return (if s then - a else a)
  end.

(** [float(z)] for an integer: round to nearest even, [OverflowError]
    beyond the binary64 range. *)
Definition float_of_int (z : Z) : outcome spec_float :=
  match binary_normalize 53 1024 z 0 false with
  | S754_infinity _ => Raise OverflowError
  | f => Return f
  end.

Section WithBuiltins.
Context {B : Builtins}.

(** [int(v)] *)
Definition int (v : value) : outcome Z :=
  match v with
  | VNone => Raise TypeError
  | VBool b => Return (if b then 1 else 0)
  | VInt z => Return z
  | VFloat f => int_of_float f
  | VStr s => match int_of_str s with
              | Some z => Return z
              | None => Raise ValueError
              end
  | VList _ | VDict _ => Raise TypeError
  end.

(** [float(v)] *)
Definition float (v : value) : outcome spec_float :=
  match v with
  | VNone => Raise TypeError
  | VBool b => Return (binary_normalize 53 1024 (if b then 1 else 0) 0 false)
  | VInt z => float_of_int z
  | VFloat f => Return f
  | VStr s => match float_of_str s with
              | Some f => Return f
              | None => Raise ValueError
              end
  | VList _ | VDict _ => Raise TypeError
  end.

(** [str(v)] *)
Definition str (v : value) : string :=
  match v with
  | VNone => "None"
  | VBool true => "True"
  | VBool false => "False"
  | VInt z => PyStr.of_Z z
  | VFloat f => str_of_float f
  | VStr s => s
  | VList _ | VDict _ => str_of_container v
  end.

End WithBuiltins.

(** ** Dictionaries *)

(** [d.get(k)] / [d[k]] *)
Fixpoint dict_get {A : Type} (k : string) (d : list (string * A))
    : option A :=
  match d with
  | [] => None
  | (k', v) :: r => if String.eqb k k' then Some v else dict_get k r
  end.

(** [k in d] *)
Definition dict_mem {A : Type} (k : string) (d : list (string * A)) : bool :=
  match dict_get k d with Some _ => true | None => false end.

(** [d[k] = v]: overwrite in place, or append a new key at the end. *)
Fixpoint dict_set {A : Type} (k : string) (v : A) (d : list (string * A))
    : list (string * A) :=
  match d with
  | [] => [(k, v)]
  | (k', v') :: r =>
      if String.eqb k k' then (k', v) :: r else (k', v') :: dict_set k v r
  end.

(** [list(d.keys())] *)
Definition dict_keys {A : Type} (d : list (string * A)) : list string :=
  map fst d.

(** [bool(d)] for a dict or a list. *)
Definition nonempty {A : Type} (l : list A) : bool :=
  match l with [] => false | _ => true end.

End Py.

(* ===================================================================== *)
(** * models/config_variable.py *)
(* ===================================================================== *)

Module ConfigVariable.

Record t : Type := mk {
  name : string;
  description : string;
  data_type : string;
  is_required : bool;
  default_value : value;
  current_value : value
}.

(** [ConfigVariable.__init__] *)
Definition init (name description data_type : string)
    (is_required : bool) (default_value : value) : t :=
  mk name description data_type is_required default_value VNone.

Definition with_current (self : t) (v : value) : t :=
  mk (name self) (description self) (data_type self) (is_required self)
     (default_value self) v.

(** Control flow of the coercion block of [set_value]: fall through with
    the (possibly converted) value, [return False] from an inner handler,
    or an exception that escapes to the outer handler. *)
Inductive coerced : Type :=
| Next (v : value)
| ReturnFalse
| Escapes (e : exn).

Section WithBuiltins.
Context {B : Builtins}.

Definition coerce (self : t) (v : value) : coerced :=
  if String.eqb (data_type self) "int" && negb (Py.isinstance_int v) then
    match Py.int v with
    | Return z => Next (VInt z)
    | Raise ValueError | Raise TypeError => ReturnFalse
    | Raise e => Escapes e
    end
  else if String.eqb (data_type self) "float"
          && negb (Py.isinstance_int_float v) then
    match Py.float v with
    | Return f => Next (VFloat f)
    | Raise ValueError | Raise TypeError => ReturnFalse
    | Raise e => Escapes e
    end
  else if String.eqb (data_type self) "bool"
          && negb (Py.isinstance_bool v) then
    match v with
    | VStr s => Next (VBool (PyStr.mem (PyStr.lower s)
                               ["true"; "1"; "yes"; "on"]))
    | _ => Next (VBool (Py.truthy v))
    end
  else Next v.

(** [set_value]: the returned flag and the variable after the call. *)
Definition set_value (self : t) (v : value) : bool * t :=
  if Py.is_none v && is_required self then (false, self)
  else
    match (if negb (Py.is_none v) then coerce self v else Next v) with
    | Next v' => (true, with_current self v')
    | ReturnFalse => (false, self)
    | Escapes _ => (false, self)
    end.

End WithBuiltins.

(** [get_effective_value] *)
Definition get_effective_value (self : t) : value :=
  if negb (Py.is_none (current_value self)) then current_value self
  else default_value self.

(** [is_valid] *)
Definition is_valid (self : t) : bool :=
  negb (is_required self && Py.is_none (get_effective_value self)).

(** Characters that make [to_yaml_value] quote a string. *)
Definition quoting_chars : list ascii :=
  [":"; "["; "]"; "{"; "}"; "|"; ">"; "#"]%char.

Definition needs_quoting (s : string) : bool :=
  existsb (fun ch => PyStr.any_chars (Ascii.eqb ch) s) quoting_chars.

Definition dquote : string := String (ascii_of_N 34) EmptyString.

(** [to_yaml_value] *)
Definition to_yaml_value (self : t) : value :=
  let v := get_effective_value self in
  match v with
  | VNone => VNone
  | VStr s =>
      if String.eqb (data_type self) "string" && needs_quoting s
      then VStr (dquote ++ s ++ dquote)
      else v
  | _ => v
  end.

End ConfigVariable.

(* ===================================================================== *)
(** * models/component.py *)
(* ===================================================================== *)

Module Component.

Record t : Type := mk {
  name : string;
  component_type : string;
  description : string;
  platforms : list string;
  config_vars : list ConfigVariable.t;
  url : option string;
  instance_id : string;
  x_position : Z;
  y_position : Z;
  width : Z;
  height : Z
}.

(** [ESPHomeComponent.__init__]; the fresh [uuid4] string is an input. *)
Definition init (fresh_id name component_type description : string)
    (platforms : list string) (config_vars : list ConfigVariable.t)
    (url : option string) : t :=
  mk name component_type description platforms config_vars url fresh_id
     0 0 200 150.

(** [get_config_var] *)
Definition get_config_var (self : t) (var_name : string)
    : option ConfigVariable.t :=
  find (fun var => String.eqb (ConfigVariable.name var) var_name)
       (config_vars self).

End Component.

(* ===================================================================== *)
(** * database.py: the catalog key *)
(* ===================================================================== *)

Module Database.

(** The normalised name inside the catalog key:
    [name.lower().replace(' ', '_').replace('.', '_')]. *)
Definition normalized (name : string) : string :=
  PyStr.replace "." "_" (PyStr.replace " " "_" (PyStr.lower name)).

(** [_generate_component_key] *)
Definition _generate_component_key (c : Component.t) : string :=
  Component.component_type c ++ "." ++ normalized (Component.name c).

End Database.

(* ===================================================================== *)
(** * utils/yaml_generator.py *)
(* ===================================================================== *)

Module YAMLGenerator.

(** The [safe_name] computed inside [_generate_component_config]. *)
Definition safe_name (c : Component.t) : string :=
  PyStr.replace "-" "_" (PyStr.replace " " "_" (PyStr.lower (Component.name c))).

(** The default id, [f"{safe_name}_{component.instance_id[:8]}"]. *)
Definition default_id (c : Component.t) : string :=
  safe_name c ++ "_" ++ PyStr.take 8 (Component.instance_id c).

(** One turn of the loop over [component.config_vars]. *)
Definition add_var (config : pydict) (var : ConfigVariable.t) : pydict :=
  let v := ConfigVariable.get_effective_value var in
  if negb (Py.is_none v) then Py.dict_set (ConfigVariable.name var) v config
  else config.

(** [config] when the loop over [component.config_vars] ends. *)
Definition entry_before_id (c : Component.t) : pydict :=
  let config : pydict := [] in
  let config :=
    if negb (String.eqb (Component.name c) (Component.component_type c))
    then Py.dict_set "platform" (VStr (Component.name c)) config
    else config in
  fold_left add_var (Component.config_vars c) config.

(** [config] when [_generate_component_config] reaches its last line. *)
Definition component_entry (c : Component.t) : pydict :=
  let config := entry_before_id c in
  if negb (Py.dict_mem "id" config)
  then Py.dict_set "id" (VStr (default_id c)) config
  else config.

(** [_generate_component_config]: [return config if config else None] *)
Definition _generate_component_config (c : Component.t) : option pydict :=
  let config := component_entry c in
  if Py.nonempty config then Some config else None.

(** The sections every generated document starts with. *)
Definition seed_config (device_name platform board : string) : pydict :=
  [ ("esphome", VDict [ ("name", VStr device_name);
                        ("platform", VStr platform);
                        ("board", VStr board) ]);
    ("wifi", VDict [ ("ssid", VStr "!secret wifi_ssid");
                     ("password", VStr "!secret wifi_password") ]);
    ("logger", VDict []);
    ("api", VDict [ ("password", VStr "!secret api_password") ]);
    ("ota", VDict [ ("password", VStr "!secret ota_password") ]) ].

Definition seeded_sections : list string :=
  ["esphome"; "wifi"; "logger"; "api"; "ota"].

(** One turn of the grouping loop. *)
Definition add_to_group (groups : list (string * list Component.t))
    (c : Component.t) : list (string * list Component.t) :=
  let ty := Component.component_type c in
  let groups :=
    if negb (Py.dict_mem ty groups) then Py.dict_set ty [] groups
    else groups in
  match Py.dict_get ty groups with
  | Some comps => Py.dict_set ty (comps ++ [c])%list groups
  | None => groups
  end.

(** [component_groups] after the grouping loop. *)
Definition group_components (components : list Component.t)
    : list (string * list Component.t) :=
  fold_left add_to_group components [].

(** The body of [for component in comps]. *)
Definition add_component (component_type : string) (config : pydict)
    (c : Component.t) : pydict :=
  match _generate_component_config c with
  | Some comp_config =>
      match Py.dict_get component_type config with
      | Some (VList l) =>
          Py.dict_set component_type (VList (l ++ [VDict comp_config])%list) config
      | Some _ => Py.dict_set component_type (VDict comp_config) config
      | None => config
      end
  | None => config
  end.

(** The body of [for component_type, comps in component_groups.items()]. *)
Definition add_group (config : pydict)
    (group : string * list Component.t) : pydict :=
  let '(component_type, comps) := group in
  let config :=
    if negb (Py.dict_mem component_type config)
    then Py.dict_set component_type (VList []) config
    else config in
  fold_left (add_component component_type) comps config.

(** The dict [generate_esphome_config] hands to [_dict_to_yaml]; the
    serialisation itself is PyYAML's [yaml.dump] with [sort_keys=False]. *)
Definition generate_esphome_config (components : list Component.t)
    (device_name platform board : string) : pydict :=
  fold_left add_group (group_components components)
            (seed_config device_name platform board).

(** What [_deep_merge] leaves under a key that both dicts have. *)
Fixpoint merge_value (old new : value) {struct new} : value :=
  match old, new with
  | VDict base_dict, VDict merge_dict =>
      VDict
        ((fix items (m base : pydict) {struct m} : pydict :=
            match m with
            | [] => base
            | (key, v) :: rest =>
                items rest
                  (match Py.dict_get key base with
                   | Some old' => Py.dict_set key (merge_value old' v) base
                   | None => Py.dict_set key v base
                   end)
            end) merge_dict base_dict)
  | VList l, VList l' => VList (l ++ l')%list
  | _, _ => new
  end.

(** The body of [for key, value in merge_dict.items()]. *)
Definition merge_item (base_dict : pydict) (kv : string * value) : pydict :=
  let '(key, v) := kv in
  match Py.dict_get key base_dict with
  | Some old => Py.dict_set key (merge_value old v) base_dict
  | None => Py.dict_set key v base_dict
  end.

(** [_deep_merge(base_dict, merge_dict)]: the contents of [base_dict]
    after the call. *)
Definition _deep_merge (base_dict merge_dict : pydict) : pydict :=
  fold_left merge_item merge_dict base_dict.

End YAMLGenerator.

(* ===================================================================== *)
(** * utils/validation.py *)
(* ===================================================================== *)

Module ConfigValidator.

(** A validator's answer, [(is_valid, error_message)]. *)
Definition verdict : Type := (bool * option string)%type.

Definition valid : verdict := (true, None).
Definition invalid (msg : string) : verdict := (false, Some msg).

(** ** The compiled patterns of [self.patterns], matched with [re.match] *)

Definition newline : ascii := ascii_of_N 10.

(** [$]: the end of the string, or just before a final newline. *)
Definition at_end (s : string) : bool :=
  match s with
  | EmptyString => true
  | String c EmptyString => Ascii.eqb c newline
  | _ => false
  end.

(** Longest prefix of characters in a class, and what follows it. *)
Fixpoint span (p : ascii -> bool) (s : string) : string * string :=
  match s with
  | EmptyString => (EmptyString, EmptyString)
  | String c r =>
      if p c then let '(a, b) := span p r in (String c a, b)
      else (EmptyString, s)
  end.

Fixpoint drop (n : nat) (s : string) : string :=
  match n, s with
  | O, _ => s
  | S _, EmptyString => EmptyString
  | S n', String _ r => drop n' r
  end.

(** [^[a-zA-Z][a-zA-Z0-9_]*$] *)
Definition match_identifier (s : string) : bool :=
  match s with
  | EmptyString => false
  | String c r => PyStr.is_alpha c && at_end (snd (span PyStr.is_alnum_ r))
  end.

(** [^(GPIO)?(\d+)$] with [re.IGNORECASE]; the answer is group 2. *)
Definition match_pin_number (s : string) : option string :=
  let body :=
    if String.eqb (PyStr.lower (PyStr.take 4 s)) "gpio" then drop 4 s
    else s in
  let '(digits, rest) := span PyStr.is_digit body in
  match digits with
  | EmptyString => None
  | _ => if at_end rest then Some digits else None
  end.

(** [^0x[0-9A-Fa-f]{2}$] *)
Definition match_i2c_address (s : string) : bool :=
  match s with
  | String "0" (String "x" (String h1 (String h2 rest))) =>
      PyStr.is_hex h1 && PyStr.is_hex h2 && at_end rest
  | _ => false
  end.

(** [\d+(\.\d+)?] at the start of [s]: the text matched and the rest. *)
Definition span_number (s : string) : option (string * string) :=
  let '(int_part, rest) := span PyStr.is_digit s in
  match int_part with
  | EmptyString => None
  | _ =>
      match rest with
      | String "." rest' =>
          let '(frac, rest'') := span PyStr.is_digit rest' in
          match frac with
          | EmptyString => Some (int_part, rest)
          | _ => Some (int_part ++ "." ++ frac, rest'')
          end
      | _ => Some (int_part, rest)
      end
  end.

(** The text before [$]: the string without one final newline. *)
Definition before_end (s : string) : option string :=
  let '(body, rest) := span (fun c => negb (Ascii.eqb c newline)) s in
  if at_end rest then Some body else None.

(** [^\d+(\.\d+)?(u1|u2|..)$] with [re.IGNORECASE], for lower-case units. *)
Definition match_number_unit (units : list string) (s : string) : bool :=
  match span_number s with
  | Some (_, rest) =>
      match before_end rest with
      | Some u => PyStr.mem (PyStr.lower u) units
      | None => false
      end
  | None => false
  end.

(** [^(\d+(?:\.\d+)?)([A-Za-z]+)$]: groups 1 and 2. *)
Definition match_number_letters (s : string) : option (string * string) :=
  match span_number s with
  | Some (num, rest) =>
      let '(letters, rest') := span PyStr.is_alpha rest in
      match letters with
      | EmptyString => None
      | _ => if at_end rest' then Some (num, letters) else None
      end
  | None => None
  end.

(** [^(\d{1,3}\.){3}\d{1,3}$] *)
Definition octet_text (s : string) : bool :=
  let n := String.length s in
  (1 <=? n)%nat && (n <=? 3)%nat && PyStr.all_chars PyStr.is_digit s.

Definition match_ip_address (s : string) : bool :=
  match before_end s with
  | Some body =>
      match PyStr.split "." body with
      | [a; b; c; d] => octet_text a && octet_text b && octet_text c
                        && octet_text d
      | _ => false
      end
  | None => false
  end.

(** ** validate_identifier *)

Definition reserved_keywords : list string :=
  ["true"; "false"; "null"; "yes"; "no"; "on"; "off";
   "esphome"; "wifi"; "api"; "ota"; "logger"; "web_server"].

Definition validate_identifier (v : string) : verdict :=
  match v with
  | EmptyString => invalid "Identifier cannot be empty"
  | _ =>
    if negb (match_identifier v) then
      invalid "Identifier must start with a letter and contain only letters, numbers, and underscores"
    else if (63 <? String.length v)%nat then
      invalid "Identifier must be 63 characters or less"
    else if PyStr.mem (PyStr.lower v) reserved_keywords then
      invalid ("'" ++ v ++ "' is a reserved keyword")
    else valid
  end.

(** ** validate_pin_number *)

(** [list(range(0, n))] *)
Definition range (n : nat) : list Z := map Z.of_nat (seq 0 n).

(** [x in l] for a list of integers. *)
Definition mem_int (x : Z) (l : list Z) : bool := existsb (Z.eqb x) l.

(** The list [valid_pins] chosen for a platform name. *)
Definition valid_pins (platform : string) : list Z :=
  if String.eqb (PyStr.upper platform) "ESP32" then
    let valid_pins := range 40 in
    let invalid_pins := [6; 7; 8; 9; 10; 11] in
    filter (fun p => negb (mem_int p invalid_pins)) valid_pins
  else if String.eqb (PyStr.upper platform) "ESP8266" then
    [0; 1; 2; 3; 4; 5; 12; 13; 14; 15; 16]
  else range 50.

(** The part of [validate_pin_number] after [pin_num] is known; [shown] is
    [str(pin_num)].  [platform] is whatever object the caller passed:
    [platform.upper()] exists for a [str] only. *)
Definition check_pin (pin_num : Z) (shown : string) (platform : value)
    : outcome verdict :=
  match platform with
  | VStr p =>
      if negb (mem_int pin_num (valid_pins p)) then
        Return (invalid ("Pin " ++ shown ++ " is not valid for " ++ p))
      else Return valid
  | _ => Raise AttributeError
  end.

(** [validate_pin_number(value, platform)].  The digits matched by the
    pattern are converted by [int(match.group(2))]; the interpreter's cap on
    the length of a decimal literal is not modelled. *)
Definition validate_pin_number (v : value) (platform : value)
    : outcome verdict :=
  match v with
  | VStr s =>
      match match_pin_number s with
      | Some digits =>
          let pin_num := PyStr.digits_value 0 digits in
          check_pin pin_num (PyStr.of_Z pin_num) platform
      | None =>
          Return (invalid "Invalid pin format. Use 'GPIO<number>' or just '<number>'")
      end
  | VBool b => check_pin (if b then 1 else 0) (if b then "True" else "False")
                         platform
  | VInt z => check_pin z (PyStr.of_Z z) platform
  | _ => Return (invalid "Pin must be a number or GPIO string")
  end.

(** ** validate_i2c_address *)

Definition hex_value (c : ascii) : Z :=
  let n := Z.of_N (PyStr.code c) in
  if PyStr.is_digit c then n - 48
  else if PyStr.between 65 70 c then n - 55
  else n - 87.

Definition hex_digit (n : Z) : string :=
  String (ascii_of_N (Z.to_N (if n <? 10 then n + 48 else n + 55)))
         EmptyString.

(** [f"{addr:02X}"] for [0 <= addr < 256]. *)
Definition hex2 (addr : Z) : string :=
  hex_digit (addr / 16) ++ hex_digit (addr mod 16).

Definition reserved_addresses : list Z :=
  [0; 1; 2; 3; 4; 5; 6; 7; 120; 121; 122; 123; 124; 125; 126; 127].

Definition check_i2c (addr : Z) : verdict :=
  if mem_int addr reserved_addresses then
    invalid ("Address 0x" ++ hex2 addr ++ " is reserved")
  else valid.

Definition validate_i2c_address (v : value) : verdict :=
  match v with
  | VStr s =>
      if negb (match_i2c_address s) then
        invalid "I2C address must be in format '0xNN' (e.g., '0x48')"
      else
        match s with
        | String _ (String _ (String h1 (String h2 _))) =>
            check_i2c (16 * hex_value h1 + hex_value h2)
        | _ => valid
        end
  | VBool _ | VInt _ =>
      let n := match v with
               | VInt z => z
               | VBool true => 1
               | _ => 0
               end in
      if negb ((0 <=? n) && (n <=? 255)) then
        invalid "I2C address must be between 0x00 and 0xFF"
      else check_i2c n
  | _ => invalid "I2C address must be a hex string or integer"
  end.

(** ** Floats *)

(** The binary64 float nearest to an integer (exact for those used here). *)
Definition f64 (z : Z) : spec_float := binary_normalize 53 1024 z 0 false.
Definition fmul : spec_float -> spec_float -> spec_float := SFmul 53 1024.
Definition fle : spec_float -> spec_float -> bool := SFleb.
Definition flt : spec_float -> spec_float -> bool := SFltb.

Section WithBuiltins.
Context {B : Builtins}.

(** ** validate_frequency and validate_time_duration *)

(** The common shape of the two: check the pattern, split number and unit,
    scale by the unit's multiplier, compare with the bounds. *)
Definition validate_scaled (units : list (string * Z)) (limit : Z)
    (bad_format not_positive too_large bad_unit : string) (v : string)
    : outcome verdict :=
  if negb (match_number_unit (map fst units) v) then
    Return (invalid bad_format)
  else
    match match_number_letters v with
    | Some (num, letters) =>
        match float_of_str num with
        | None => Raise ValueError
        | Some num_part =>
            let unit := PyStr.lower letters in
            match Py.dict_get unit units with
            | Some multiplier =>
                let scaled := fmul num_part (f64 multiplier) in
                if fle scaled (f64 0) then Return (invalid not_positive)
                else if flt (f64 limit) scaled then Return (invalid too_large)
                else Return valid
            | None => Return (invalid bad_unit)
            end
        end
    | None => Return valid
    end.

Definition validate_frequency : string -> outcome verdict :=
  validate_scaled [("hz", 1); ("khz", 1000); ("mhz", 1000000)] 1000000000
    "Frequency must include units (Hz, KHz, MHz)"
    "Frequency must be positive"
    "Frequency is too high (max 1 GHz)"
    "Unit must be Hz, KHz, or MHz".

Definition validate_time_duration : string -> outcome verdict :=
  validate_scaled [("ms", 1); ("s", 1000); ("min", 60000); ("h", 3600000)]
    86400000
    "Time duration must include units (ms, s, min, h)"
    "Duration must be positive"
    "Duration is too long (max 24 hours)"
    "Unit must be ms, s, min, or h".

(** ** validate_percentage *)

(** [s[:-1]] *)
Fixpoint drop_last (s : string) : string :=
  match s with
  | EmptyString => EmptyString
  | String _ EmptyString => EmptyString
  | String c r => String c (drop_last r)
  end.

(** [s.endswith(c)] for one character. *)
Fixpoint ends_with (c : ascii) (s : string) : bool :=
  match s with
  | EmptyString => false
  | String c' EmptyString => Ascii.eqb c' c
  | String _ r => ends_with c r
  end.

Definition check_percentage (num_value : spec_float) : verdict :=
  if negb (fle (f64 0) num_value && fle num_value (f64 100)) then
    invalid "Percentage must be between 0 and 100"
  else valid.

Definition validate_percentage (v : value) : outcome verdict :=
  match v with
  | VStr s =>
      if ends_with "%" s then
        match float_of_str (drop_last s) with
        | Some num_value => Return (check_percentage num_value)
        | None => Return (invalid "Invalid percentage format")
        end
      else Return (invalid "Percentage must end with '%'")
  | VBool _ | VInt _ | VFloat _ =>
      match Py.float v with
      | Return num_value => Return (check_percentage num_value)
      | Raise e => Raise e
      end
  | _ => Return (invalid "Percentage must be a number or string with '%'")
  end.

(** ** validate_ip_address *)

(** [int(octet)] for a piece of a string that matched the pattern. *)
Definition int_of_octet (octet : string) : option Z :=
  let t := PyStr.strip octet in
  match t with
  | EmptyString => None
  | _ => if PyStr.all_chars PyStr.is_digit t
         then Some (PyStr.digits_value 0 t) else None
  end.

Fixpoint check_octets (octets : list string) : verdict :=
  match octets with
  | [] => valid
  | octet :: rest =>
      match int_of_octet octet with
      | Some num =>
          if negb ((0 <=? num) && (num <=? 255)) then
            invalid "IP address octets must be between 0 and 255"
          else check_octets rest
      | None => invalid "IP address octets must be numbers"
      end
  end.

Definition validate_ip_address (v : string) : verdict :=
  if negb (match_ip_address v) then invalid "Invalid IP address format"
  else check_octets (PyStr.split "." v).

(** ** validate_by_type *)

(** [context.get('platform', 'ESP32')] *)
Definition context_platform (context : pydict) : value :=
  match Py.dict_get "platform" context with
  | Some p => p
  | None => VStr "ESP32"
  end.

(** [validate_by_type(value, data_type, context)]; a [context] of [None]
    is the empty dict. *)
Definition validate_by_type (v : value) (data_type : string)
    (context : pydict) : outcome verdict :=
  if Py.is_none v then Return valid
  else
    let str_value := Py.str v in
    if String.eqb data_type "identifier" then
      Return (validate_identifier str_value)
    else if String.eqb data_type "pin" then
      validate_pin_number v (context_platform context)
    else if String.eqb data_type "i2c_address" then
      Return (validate_i2c_address v)
    else if String.eqb data_type "frequency" then
      validate_frequency str_value
    else if String.eqb data_type "time" then
      validate_time_duration str_value
    else if String.eqb data_type "percentage" then
      validate_percentage v
    else if String.eqb data_type "ip_address" then
      Return (validate_ip_address str_value)
    else if String.eqb data_type "int" then
      match Py.int v with
      | Return _ => Return valid
      | Raise ValueError | Raise TypeError =>
          Return (invalid "Value must be an integer")
      | Raise e => Raise e
      end
    else if String.eqb data_type "float" then
      match Py.float v with
      | Return _ => Return valid
      | Raise ValueError | Raise TypeError =>
          Return (invalid "Value must be a number")
      | Raise e => Raise e
      end
    else if String.eqb data_type "bool" then
      match v with
      | VBool _ => Return valid
      | VStr s =>
          if PyStr.mem (PyStr.lower s)
               ["true"; "false"; "1"; "0"; "yes"; "no"; "on"; "off"]
          then Return valid
          else Return (invalid "Value must be a boolean (true/false)")
      | _ => Return (invalid "Value must be a boolean (true/false)")
      end
    else if String.eqb data_type "string" then
      if (1000 <? String.length str_value)%nat then
        Return (invalid "String is too long (max 1000 characters)")
      else Return valid
    else Return valid.

End WithBuiltins.

End ConfigValidator.

(* ===================================================================== *)
(** * scraper.py: extraction of configuration variables *)
(* ===================================================================== *)

Module Scraper.

Import ConfigValidator.

(** [any(word in text for word in words)] *)
Definition any_in (words : list string) (text : string) : bool :=
  existsb (fun word => PyStr.contains word text) words.

(** [_infer_data_type] *)
Definition _infer_data_type (var_name description : string) : string :=
  let var_name_lower := PyStr.lower var_name in
  let desc_lower := PyStr.lower description in
  if PyStr.contains "pin" var_name_lower
     || PyStr.contains "gpio" var_name_lower then "pin"
  else if any_in ["interval"; "timeout"; "delay"; "duration"] var_name_lower
  then "time"
  else if PyStr.contains "frequency" var_name_lower
          || PyStr.contains "freq" var_name_lower then "frequency"
  else if any_in ["enable"; "invert"; "inverted"] var_name_lower then "bool"
  else if any_in ["count"; "number"; "decimals"; "threshold"] var_name_lower
  then "int"
  else if any_in ["temperature"; "voltage"; "current"; "power"] var_name_lower
  then "float"
  else if PyStr.mem var_name_lower ["id"; "name"] then "identifier"
  else if any_in ["integer"; "number"] desc_lower then "int"
  else if any_in ["float"; "decimal"] desc_lower then "float"
  else if any_in ["boolean"; "bool"; "true"; "false"] desc_lower then "bool"
  else if any_in ["time"; "duration"; "ms"; "seconds"] desc_lower then "time"
  else if any_in ["frequency"; "hz"] desc_lower then "frequency"
  else if any_in ["percentage"; "%"] desc_lower then "percentage"
  else "string".

(** [s.strip(chars)] *)
Fixpoint lstrip_chars (p : ascii -> bool) (s : string) : string :=
  match s with
  | EmptyString => EmptyString
  | String c r => if p c then lstrip_chars p r else s
  end.

Fixpoint rstrip_chars (p : ascii -> bool) (s : string) : string :=
  match s with
  | EmptyString => EmptyString
  | String c r =>
      match rstrip_chars p r with
      | EmptyString => if p c then EmptyString else String c EmptyString
      | r' => String c r'
      end
  end.

Definition is_quote (c : ascii) : bool :=
  Ascii.eqb c (ascii_of_N 34) || Ascii.eqb c (ascii_of_N 39).

(** [^\d+(\.\d+)?(u1|u2|..)$], case-sensitive. *)
Definition match_number_unit_exact (units : list string) (s : string) : bool :=
  match span_number s with
  | Some (_, rest) =>
      match before_end rest with
      | Some u => PyStr.mem u units
      | None => false
      end
  | None => false
  end.

(** [^\d+$] *)
Definition match_digits (s : string) : bool :=
  let '(digits, rest) := span PyStr.is_digit s in
  match digits with
  | EmptyString => false
  | _ => at_end rest
  end.

(** [^GPIO\d+$] *)
Definition match_gpio (s : string) : bool :=
  String.eqb (PyStr.take 4 s) "GPIO" && match_digits (drop 4 s).

(** [^[a-zA-Z_][a-zA-Z0-9_]*$] *)
Definition match_var_name (s : string) : bool :=
  match s with
  | EmptyString => false
  | String c r =>
      (PyStr.is_alpha c || Ascii.eqb c "_")
      && at_end (snd (span PyStr.is_alnum_ r))
  end.

(** [s.split(':')[0]] and [s.split(':', 1)[1]] for [s] containing [':']. *)
Fixpoint before_colon (s : string) : string :=
  match s with
  | EmptyString => EmptyString
  | String c r => if Ascii.eqb c ":" then EmptyString
                  else String c (before_colon r)
  end.

Fixpoint after_colon (s : string) : string :=
  match s with
  | EmptyString => EmptyString
  | String c r => if Ascii.eqb c ":" then r else after_colon r
  end.

Definition yaml_keywords : list string :=
  ["esphome"; "wifi"; "api"; "ota"; "logger"; "web_server"].

Section WithBuiltins.
Context {B : Builtins}.

(** [_infer_type_from_value] *)
Definition _infer_type_from_value (v : string) : string :=
  let v := rstrip_chars is_quote (lstrip_chars is_quote (PyStr.strip v)) in
  match v with
  | EmptyString => "string"
  | _ =>
    if PyStr.mem v ["null"; "~"] then "string"
    else if PyStr.mem (PyStr.lower v)
              ["true"; "false"; "yes"; "no"; "on"; "off"] then "bool"
    else
      let numeric :=
        if PyStr.contains "." v then
          match float_of_str v with Some _ => Some "float" | None => None end
        else
          match int_of_str v with Some _ => Some "int" | None => None end in
      match numeric with
      | Some ty => ty
      | None =>
          if match_number_unit_exact ["ms"; "s"; "min"; "h"] v then "time"
          else if match_number_unit_exact ["Hz"; "KHz"; "MHz"] v
          then "frequency"
          else if match_gpio v || match_digits v then "pin"
          else "string"
      end
  end.

(** The body of [for line in lines] in [_extract_vars_from_yaml]: the
    variable the line yields, if any. *)
Definition yaml_line_var (line : string) : option ConfigVariable.t :=
  let line := PyStr.strip line in
  if PyStr.contains ":" line && negb (PyStr.startswith "#" line) then
    let var_name := PyStr.strip (before_colon line) in
    if negb (match_var_name var_name) then None
    else if PyStr.mem var_name yaml_keywords then None
    else
      let value_part := PyStr.strip (after_colon line) in
      let data_type := _infer_type_from_value value_part in
      Some (ConfigVariable.init var_name
              ("Configuration parameter for " ++ var_name) data_type false
              VNone)
  else None.

(** [_extract_vars_from_yaml] *)
Definition _extract_vars_from_yaml (yaml_text : string)
    : list ConfigVariable.t :=
  flat_map (fun line => match yaml_line_var line with
                        | Some var => [var]
                        | None => []
                        end)
           (PyStr.split newline yaml_text).

End WithBuiltins.

(** ** The parsed page, as [_parse_config_variables] reads it *)

(** A table: its rows ([find_all('tr')]); a row: the stripped texts of its
    cells ([find_all(['td', 'th'])], [get_text(strip=True)]). *)
Definition table : Type := list (list string).

(** A definition list: the stripped texts of its [dt] and of its [dd]
    elements. *)
Definition dlist : Type := (list string * list string)%type.

(** The parent of an element found by
    [find_all(['div', 'section'], text=re.compile('configuration|config'))]:
    its tables and its definition lists. *)
Record section : Type := mk_section {
  tables : list table;
  dl_elements : list dlist
}.

(** The parsed page: the parents of its configuration sections, in document
    order, and the texts of its [pre] and [code] elements. *)
Record soup : Type := mk_soup {
  config_sections : list section;
  code_blocks : list string
}.

(** [config_vars.append(var)] guarded by
    [if not any(cv.name == var.name for cv in config_vars)]. *)
Definition has_name (config_vars : list ConfigVariable.t) (n : string) : bool :=
  existsb (fun cv => String.eqb (ConfigVariable.name cv) n) config_vars.

Definition append_if_new (config_vars : list ConfigVariable.t)
    (var : ConfigVariable.t) : list ConfigVariable.t :=
  if negb (has_name config_vars (ConfigVariable.name var))
  then config_vars ++ [var] else config_vars.

(** The body of [for row in rows[1:]]. *)
Definition row_var (cells : list string) : option ConfigVariable.t :=
  match cells with
  | var_name :: description :: more =>
      let type_cell := match more with
                       | type_cell :: _ => Some (PyStr.lower type_cell)
                       | [] => None
                       end in
      let data_type :=
        match type_cell with
        | Some tc => if PyStr.contains "int" tc then "int"
                     else if PyStr.contains "float" tc then "float"
                     else if PyStr.contains "bool" tc then "bool"
                     else "string"
        | None => "string"
        end in
      let is_required :=
        match type_cell with
        | Some tc => PyStr.contains "required" tc
        | None => false
        end in
      match var_name with
      | EmptyString => None
      | _ => if negb (PyStr.startswith "*" var_name)
             then Some (ConfigVariable.init var_name description data_type
                          is_required VNone)
             else None
      end
  | _ => None
  end.

(** The body of [for dt, dd in zip(dt_elements, dd_elements)]. *)
Definition dl_var (pair : string * string) : option ConfigVariable.t :=
  let '(var_name, description) := pair in
  let data_type := _infer_data_type var_name description in
  let is_required := PyStr.contains "required" (PyStr.lower description) in
  match var_name with
  | EmptyString => None
  | _ => if match_var_name var_name
         then Some (ConfigVariable.init var_name description data_type
                      is_required VNone)
         else None
  end.

Definition keep {A : Type} (o : option A) : list A :=
  match o with Some a => [a] | None => [] end.

(** Method 1 for one section: every table row after the header, then every
    [dt]/[dd] pair, each appended to [config_vars] as it is found. *)
Definition section_vars (s : section) : list ConfigVariable.t :=
  flat_map (fun t : table => flat_map (fun row => keep (row_var row)) (tl t))
           (tables s)
  ++ flat_map (fun d : dlist =>
                 flat_map (fun p => keep (dl_var p)) (combine (fst d) (snd d)))
              (dl_elements s).

Section WithBuiltins.
Context {B : Builtins}.

(** [_parse_config_variables] *)
Definition _parse_config_variables (page : soup) : list ConfigVariable.t :=
  let config_vars := flat_map section_vars (config_sections page) in
  fold_left
    (fun config_vars block =>
       fold_left append_if_new (_extract_vars_from_yaml block) config_vars)
    (code_blocks page) config_vars.

End WithBuiltins.

(** ** _parse_config_variables_from_content *)

(** [re.search(r'configuration|config|options|parameters', line, re.I)] *)
Definition is_section_line (line : string) : bool :=
  any_in ["configuration"; "config"; "options"; "parameters"]
         (PyStr.lower line).

(** [^(NAME)\s*[:]\s*(.+)], where NAME is the pattern of [match_var_name]
    without its anchors, on a stripped line without a newline: groups 1
    and 2. *)
Definition match_var_line (line : string) : option (string * string) :=
  match line with
  | EmptyString => None
  | String c r =>
      if PyStr.is_alpha c || Ascii.eqb c "_" then
        let '(more, rest) := span PyStr.is_alnum_ r in
        match PyStr.lstrip rest with
        | String ":" rest' =>
            match PyStr.lstrip rest' with
            | EmptyString => None
            | description => Some (String c more, description)
            end
        | _ => None
        end
      else None
  end.

Definition known_keys : list string :=
  ["id"; "name"; "pin"; "platform"; "update_interval"; "accuracy_decimals"].

(** [^(id|name|pin|platform|update_interval|accuracy_decimals):] *)
Definition match_known_key (line : string) : bool :=
  existsb (fun k => PyStr.startswith (k ++ ":") line) known_keys.

(** The variable built in the [var_match and in_config_section] branch. *)
Definition described_var (var_name description : string) : ConfigVariable.t :=
  let desc_lower := PyStr.lower description in
  let is_required := any_in ["required"; "must"; "mandatory"] desc_lower in
  let data_type :=
    if any_in ["integer"; "number"; "pin"; "gpio"] desc_lower then "int"
    else if any_in ["float"; "decimal"; "temperature"; "voltage"] desc_lower
    then "float"
    else if any_in ["boolean"; "bool"; "true"; "false"; "enable"] desc_lower
    then "bool"
    else if any_in ["time"; "duration"; "interval"] desc_lower then "time"
    else if any_in ["frequency"; "hz"] desc_lower then "frequency"
    else if any_in ["percentage"; "%"] desc_lower then "percentage"
    else "string" in
  ConfigVariable.init var_name description data_type is_required VNone.

(** The variable built in the known-key branch. *)
Definition known_key_var (line : string) : ConfigVariable.t :=
  let var_name := PyStr.strip (before_colon line) in
  let description := "Configuration for " ++ var_name in
  let is_required := PyStr.mem var_name ["name"; "platform"] in
  let data_type :=
    if PyStr.mem var_name ["pin"; "accuracy_decimals"] then "int"
    else if String.eqb var_name "update_interval" then "time"
    else if PyStr.mem var_name ["id"; "name"] then "identifier"
    else "string" in
  ConfigVariable.init var_name description data_type is_required VNone.

(** The body of [for line in lines]; the state is
    [(in_config_section, config_vars)]. *)
Definition content_line (st : bool * list ConfigVariable.t) (line : string)
    : bool * list ConfigVariable.t :=
  let '(in_config_section, config_vars) := st in
  let line := PyStr.strip line in
  if is_section_line line then (true, config_vars)
  else
    match match_var_line line, in_config_section with
    | Some (var_name, description), true =>
        (in_config_section,
         (config_vars ++ [described_var var_name description])%list)
    | _, _ =>
        if match_known_key line then
          (in_config_section, append_if_new config_vars (known_key_var line))
        else st
    end.

Definition _parse_config_variables_from_content (content : string)
    : list ConfigVariable.t :=
  match content with
  | EmptyString => []
  | _ => snd (fold_left content_line (PyStr.split newline content) (false, []))
  end.

Section WithBuiltins.
Context {B : Builtins}.

(** The [config_vars] that [scrape_component_page] gives the component it
    builds: [soup] is the fetched page, [clean_content] the text
    [_extract_clean_content] returned ([None] when it failed). *)
Definition scraped_config_vars (page : soup) (clean_content : option string)
    : list ConfigVariable.t :=
  let config_vars := _parse_config_variables page in
  match clean_content with
  | Some content =>
      match content with
      | EmptyString => config_vars
      | _ => fold_left append_if_new
               (_parse_config_variables_from_content content) config_vars
      end
  | None => config_vars
  end.

End WithBuiltins.

End Scraper.

(* ===================================================================== *)
(** * scraper.py: the crawl loop *)
(* ===================================================================== *)

Module Crawl.

(** The Qt signals of [ESPHomeScraper]. *)
Inductive signal : Type :=
| log_message (text : string)
| status_update (text : string)
| progress_update (current total : Z) (label : string)
| component_found (name : string) (c : Component.t)
| scraping_finished
| scraping_error (text : string).

(** What a run does that can be seen from outside it, in order. *)
Inductive event : Type :=
| Emit (s : signal)
| FetchListing                 (** [_fetch_page(COMPONENTS_URL)] *)
| ScrapePage (url : string)    (** [scrape_component_page(url)] *)
| Sleep.                       (** [time.sleep(2)] *)

(** A link, [(link_text, full_url)]. *)
Definition link : Type := (string * string)%type.

(** What the world answers during one turn of the loop: the component
    [scrape_component_page] returns or, when it returns [None], the line it
    logs; whether [save_component] succeeds; and whether the user calls
    [cancel_scraping] at some point of this turn after the flag was read. *)
Record reply : Type := mk_reply {
  page : Component.t + string;
  saved : bool;
  cancel_requested : bool
}.

(** The world of one run.  [listing] is the outcome of fetching the listing
    page: the links [_extract_component_links] finds and the de-duplicated
    links of the fallback scan, or the line logged by a failed fetch.
    [cancel_during_setup] tells whether the user cancels before the loop
    reads the flag for the first time. *)
Record world : Type := mk_world {
  listing : (list link * list link) + string;
  cancel_during_setup : bool;
  replies : nat -> reply
}.

(** The scraper object, the store behind [db_manager], the two counters of
    the loop and the events so far. *)
Record state : Type := mk_state {
  _is_canceled : bool;
  components_data : list (string * Component.t);
  database : list (string * Component.t);
  scraped_count : Z;
  failed_count : Z;
  trace : list event
}.

(** [ESPHomeScraper.__init__] over a store with the given contents. *)
Definition init (db : list (string * Component.t)) : state :=
  mk_state false [] db 0 0 [].

Definition record (e : event) (st : state) : state :=
  mk_state (_is_canceled st) (components_data st) (database st)
           (scraped_count st) (failed_count st) (trace st ++ [e]).

Definition emit (s : signal) : state -> state := record (Emit s).

Definition set_canceled (b : bool) (st : state) : state :=
  mk_state b (components_data st) (database st)
           (scraped_count st) (failed_count st) (trace st).

(** [cancel_scraping] *)
Definition cancel_scraping (st : state) : state :=
  emit (log_message "Scraping cancellation requested.")
       (set_canceled true st).

(** [db_manager.save_component(component)] when it succeeds: an upsert
    under the catalog key. *)
Definition save_component (c : Component.t)
    (db : list (string * Component.t)) : list (string * Component.t) :=
  Py.dict_set (Database._generate_component_key c) c db.

(** The [if component: ... else: ...] block of the loop. *)
Definition handle_page (name : string) (r : reply) (st : state) : state :=
  match page r with
  | inl component =>
      let st :=
        if saved r then
          let st := mk_state (_is_canceled st) (components_data st)
                      (save_component component (database st))
                      (scraped_count st) (failed_count st) (trace st) in
          let st := emit (component_found name component) st in
          mk_state (_is_canceled st) (components_data st) (database st)
                   (scraped_count st + 1) (failed_count st) (trace st)
        else st in
      mk_state (_is_canceled st)
        (Py.dict_set (Component.component_type component ++ "."
                      ++ Component.name component)
                     component (components_data st))
        (database st) (scraped_count st) (failed_count st) (trace st)
  | inr logged =>
      let st := emit (log_message logged) st in
      mk_state (_is_canceled st) (components_data st) (database st)
               (scraped_count st) (failed_count st + 1) (trace st)
  end.

(** One turn of the loop after the flag was found clear, together with
    the cancellation the user may request meanwhile. *)
Definition iteration (r : reply) (total : Z) (i : Z) (l : link)
    (st : state) : state :=
  let '(name, url) := l in
  let st := emit (progress_update (i + 1) total
                    ("Scraping " ++ name ++ "...")) st in
  let st := emit (status_update
                    ("Scraping component " ++ PyStr.of_Z (i + 1) ++ "/"
                     ++ PyStr.of_Z total ++ ": " ++ name)) st in
  let st := record (ScrapePage url) st in
  let st := handle_page name r st in
  let st := if i <? total - 1 then record Sleep st else st in
  if cancel_requested r then cancel_scraping st else st.

(** [for i, (name, url) in enumerate(component_links)], from turn [i] on. *)
Fixpoint scrape_loop (w : world) (total : Z) (i : nat) (links : list link)
    (st : state) : state :=
  match links with
  | [] => st
  | l :: rest =>
      if _is_canceled st then
        emit (log_message "Scraping canceled by user") st
      else
        scrape_loop w total (S i) rest
          (iteration (replies w i) total (Z.of_nat i) l st)
  end.

(** [l[:n]] for any integer [n]. *)
Definition slice_to {A : Type} (n : Z) (l : list A) : list A :=
  if n <? 0 then firstn (List.length l - Z.to_nat (- n))%nat l
  else firstn (Z.to_nat n) l.

(** The links the loop goes through, when the run gets that far. *)
Definition component_links (w : world) (max_components : Z)
    : option (list link) :=
  match listing w with
  | inl (found, fallback) =>
      let links := match found with [] => fallback | _ => found end in
      match links with
      | [] => None
      | _ => Some (slice_to max_components links)
      end
  | inr _ => None
  end.

(** [run_scraping(max_components)] *)
Definition run_scraping (w : world) (max_components : Z) (st : state)
    : state :=
  let st := set_canceled false st in
  let st := emit (status_update "Starting scraping process...") st in
  let st := emit (log_message "Beginning ESPHome components scraping") st in
  let st := emit (status_update "Fetching main components page...") st in
  let st := record FetchListing st in
  match listing w with
  | inr logged =>
      let st := emit (log_message logged) st in
      emit (scraping_error "Failed to fetch main components page") st
  | inl (found, fallback) =>
      let st := emit (status_update "Extracting component links...") st in
      let links := match found with [] => fallback | _ => found end in
      match links with
      | [] => emit (scraping_error "No component links found") st
      | _ =>
          let links := slice_to max_components links in
          let total := Z.of_nat (List.length links) in
          let st := emit (log_message ("Found " ++ PyStr.of_Z total
                                       ++ " components to scrape")) st in
          let st := if cancel_during_setup w then cancel_scraping st
                    else st in
          let st := scrape_loop w total 0 links st in
          if negb (_is_canceled st) then
            let st := emit (status_update
                        ("Scraping completed. Found "
                         ++ PyStr.of_Z (scraped_count st) ++ " components, "
                         ++ PyStr.of_Z (failed_count st) ++ " failed.")) st in
            let st := emit (log_message
                        ("Scraping completed successfully. Scraped "
                         ++ PyStr.of_Z (scraped_count st) ++ " components, "
                         ++ PyStr.of_Z (failed_count st) ++ " failed.")) st in
            emit scraping_finished st
          else st
      end
  end.

(** ** What an observer reads off a trace *)

(** The pages the run asked for, in order. *)
Definition pages_scraped (t : list event) : list string :=
  flat_map (fun e => match e with ScrapePage url => [url] | _ => [] end) t.

(** The components reported through [component_found], in order. *)
Definition reported (t : list event) : list (string * Component.t) :=
  flat_map (fun e => match e with
                     | Emit (component_found n c) => [(n, c)]
                     | _ => []
                     end) t.

Definition is_finished (e : event) : bool :=
  match e with Emit scraping_finished => true | _ => false end.

Definition is_error (e : event) : bool :=
  match e with Emit (scraping_error _) => true | _ => false end.

(** The terminal states of a run: it reported completion, it reported an
    error, or it stopped on the cancellation flag without either. *)
Inductive run_state : Type := Completed | Canceled | Failed.

Definition final_state (t : list event) : run_state :=
  if existsb is_finished t then Completed
  else if existsb is_error t then Failed
  else Canceled.

(** The components the first [links] turns from turn [i] on extract and
    save, with the names of their links. *)
Fixpoint extracted (w : world) (i : nat) (links : list link)
    : list (string * Component.t) :=
  match links with
  | [] => []
  | (name, _) :: rest =>
      match page (replies w i), saved (replies w i) with
      | inl c, true => (name, c) :: extracted w (S i) rest
      | _, _ => extracted w (S i) rest
      end
  end.

(** The components saved, in order, on top of a store. *)
Definition save_all (found : list (string * Component.t))
    (db : list (string * Component.t)) : list (string * Component.t) :=
  fold_left (fun db nc => save_component (snd nc) db) found db.

End Crawl.

(* ===================================================================== *)
(** * models: dictionaries of variables and components, and the
      operations of a component on its variables *)
(* ===================================================================== *)

Module Serial.

(** What [from_dict] does with a dict: it builds the object, or [data[key]]
    raises [KeyError], or a key holds an object of another type than the
    annotated one of the constructor, which the records here cannot hold. *)
Inductive loaded (A : Type) : Type :=
| Loaded (a : A)
| KeyError (key : string)
| Untyped (key : string).
Arguments Loaded {A} a.
Arguments KeyError {A} key.
Arguments Untyped {A} key.

Definition bind {A C : Type} (x : loaded A) (f : A -> loaded C) : loaded C :=
  match x with
  | Loaded a => f a
  | KeyError k => KeyError k
  | Untyped k => Untyped k
  end.

(** [data[key]] read as a [str]. *)
Definition str_item (key : string) (data : pydict) : loaded string :=
  match Py.dict_get key data with
  | None => KeyError key
  | Some (VStr s) => Loaded s
  | Some _ => Untyped key
  end.

(** [data.get(key, default)] read as a [str]. *)
Definition str_get (key default : string) (data : pydict) : loaded string :=
  match Py.dict_get key data with
  | None => Loaded default
  | Some (VStr s) => Loaded s
  | Some _ => Untyped key
  end.

(** [data.get(key, default)] read as a [bool]. *)
Definition bool_get (key : string) (default : bool) (data : pydict)
    : loaded bool :=
  match Py.dict_get key data with
  | None => Loaded default
  | Some (VBool b) => Loaded b
  | Some _ => Untyped key
  end.

(** [data.get(key, default)] read as an [int]. *)
Definition int_get (key : string) (default : Z) (data : pydict) : loaded Z :=
  match Py.dict_get key data with
  | None => Loaded default
  | Some (VInt z) => Loaded z
  | Some _ => Untyped key
  end.

(** [data.get(key)]: any object, [None] when the key is missing. *)
Definition value_get (key : string) (data : pydict) : value :=
  match Py.dict_get key data with
  | None => VNone
  | Some v => v
  end.

(** [ConfigVariable.to_dict] *)
Definition var_to_dict (self : ConfigVariable.t) : pydict :=
  [ ("name", VStr (ConfigVariable.name self));
    ("description", VStr (ConfigVariable.description self));
    ("data_type", VStr (ConfigVariable.data_type self));
    ("is_required", VBool (ConfigVariable.is_required self));
    ("default_value", ConfigVariable.default_value self);
    ("current_value", ConfigVariable.current_value self) ].

(** [ConfigVariable.from_dict] *)
Definition var_from_dict (data : pydict) : loaded ConfigVariable.t :=
  bind (str_item "name" data) (fun name =>
  bind (str_get "description" EmptyString data) (fun description =>
  bind (str_get "data_type" "string" data) (fun data_type =>
  bind (bool_get "is_required" false data) (fun is_required =>
  Loaded (ConfigVariable.mk name description data_type is_required
            (value_get "default_value" data)
            (value_get "current_value" data)))))).

(** [[ConfigVariable.from_dict(var_data) for var_data in items]] *)
Fixpoint vars_from_dicts (items : list value)
    : loaded (list ConfigVariable.t) :=
  match items with
  | [] => Loaded []
  | VDict data :: rest =>
      bind (var_from_dict data) (fun var =>
      bind (vars_from_dicts rest) (fun vars => Loaded (var :: vars)))
  | _ :: _ => Untyped "config_vars"
  end.

(** A list of [str] objects. *)
Fixpoint strs_of (key : string) (items : list value) : loaded (list string) :=
  match items with
  | [] => Loaded []
  | VStr s :: rest =>
      bind (strs_of key rest) (fun l => Loaded (s :: l))
  | _ :: _ => Untyped key
  end.

(** [ESPHomeComponent.to_dict] *)
Definition to_dict (self : Component.t) : pydict :=
  [ ("name", VStr (Component.name self));
    ("component_type", VStr (Component.component_type self));
    ("description", VStr (Component.description self));
    ("platforms", VList (map VStr (Component.platforms self)));
    ("config_vars",
     VList (map (fun var => VDict (var_to_dict var))
                (Component.config_vars self)));
    ("url", match Component.url self with
            | Some u => VStr u
            | None => VNone
            end);
    ("instance_id", VStr (Component.instance_id self));
    ("x_position", VInt (Component.x_position self));
    ("y_position", VInt (Component.y_position self));
    ("width", VInt (Component.width self));
    ("height", VInt (Component.height self)) ].

(** [ESPHomeComponent.from_dict]; [fresh_id] is the [str(uuid.uuid4())] used
    when the dict has no ['instance_id']. *)
Definition from_dict (fresh_id : string) (data : pydict)
    : loaded Component.t :=
  bind (match Py.dict_get "config_vars" data with
        | None => Loaded []
        | Some (VList items) => vars_from_dicts items
        | Some _ => Untyped "config_vars"
        end) (fun config_vars =>
  bind (str_item "name" data) (fun name =>
  bind (str_item "component_type" data) (fun component_type =>
  bind (str_get "description" EmptyString data) (fun description =>
  bind (match Py.dict_get "platforms" data with
        | None | Some VNone => Loaded []
        | Some (VList items) => strs_of "platforms" items
        | Some _ => Untyped "platforms"
        end) (fun platforms =>
  bind (match Py.dict_get "url" data with
        | None | Some VNone => Loaded None
        | Some (VStr u) => Loaded (Some u)
        | Some _ => Untyped "url"
        end) (fun url =>
  bind (str_get "instance_id" fresh_id data) (fun instance_id =>
  bind (int_get "x_position" 0 data) (fun x_position =>
  bind (int_get "y_position" 0 data) (fun y_position =>
  bind (int_get "width" 200 data) (fun width =>
  bind (int_get "height" 150 data) (fun height =>
  Loaded (Component.mk name component_type description platforms
            config_vars url instance_id x_position y_position
            width height)))))))))))).

(** [clone]; [fresh_id] is the new [str(uuid.uuid4())]. *)
Definition clone (fresh_id : string) (self : Component.t)
    : loaded Component.t :=
  let clone_data := to_dict self in
  let clone_data := Py.dict_set "instance_id" (VStr fresh_id) clone_data in
  from_dict fresh_id clone_data.

End Serial.

Module ComponentOps.

Definition with_config_vars (self : Component.t)
    (config_vars : list ConfigVariable.t) : Component.t :=
  Component.mk (Component.name self) (Component.component_type self)
    (Component.description self) (Component.platforms self) config_vars
    (Component.url self) (Component.instance_id self)
    (Component.x_position self) (Component.y_position self)
    (Component.width self) (Component.height self).

(** [add_config_var] *)
Definition add_config_var (self : Component.t) (config_var : ConfigVariable.t)
    : Component.t :=
  with_config_vars self (Component.config_vars self ++ [config_var]).

Section WithBuiltins.
Context {B : Builtins}.

(** [var.set_value(value)] on the variable [get_config_var] finds, which
    is the first of that name; the list with that variable updated. *)
Fixpoint set_first (config_vars : list ConfigVariable.t) (var_name : string)
    (v : value) : bool * list ConfigVariable.t :=
  match config_vars with
  | [] => (false, [])
  | var :: rest =>
      if String.eqb (ConfigVariable.name var) var_name then
        let '(ok, var') := ConfigVariable.set_value var v in
        (ok, var' :: rest)
      else
        let '(ok, rest') := set_first rest var_name v in
        (ok, var :: rest')
  end.

(** [set_config_value]: the returned flag and the component after the
    call. *)
Definition set_config_value (self : Component.t) (var_name : string)
    (v : value) : bool * Component.t :=
  match Component.get_config_var self var_name with
  | Some _ =>
      let '(ok, config_vars) :=
        set_first (Component.config_vars self) var_name v in
      (ok, with_config_vars self config_vars)
  | None => (false, self)
  end.

End WithBuiltins.

Definition not_set_message (var : ConfigVariable.t) : string :=
  "Required variable '" ++ ConfigVariable.name var ++ "' is not set".

(** [is_valid_configuration] *)
Definition is_valid_configuration (self : Component.t) : bool * list string :=
  let errors :=
    flat_map (fun var => if negb (ConfigVariable.is_valid var)
                         then [not_set_message var] else [])
             (Component.config_vars self) in
  (match errors with [] => true | _ => false end, errors).

(** [contains_point] *)
Definition contains_point (self : Component.t) (x y : Z) : bool :=
  (Component.x_position self <=? x)
  && (x <=? Component.x_position self + Component.width self)
  && (Component.y_position self <=? y)
  && (y <=? Component.y_position self + Component.height self).

Section WithBuiltins.
Context {B : Builtins}.

(** The body of the loop of [validate_component_config]: the error the
    variable adds, if any. *)
Definition var_error (var : ConfigVariable.t) : outcome (list string) :=
  let v := ConfigVariable.get_effective_value var in
  if ConfigVariable.is_required var && Py.is_none v then
    Return [not_set_message var]
  else if negb (Py.is_none v) then
    match ConfigValidator.validate_by_type v (ConfigVariable.data_type var) []
    with
    | Return (is_valid, error) =>
        if negb is_valid then
          Return ["Variable '" ++ ConfigVariable.name var ++ "': "
                  ++ match error with Some e => e | None => "None" end]
        else Return []
    | Raise e => Raise e
    end
  else Return [].

Fixpoint vars_errors (config_vars : list ConfigVariable.t)
    : outcome (list string) :=
  match config_vars with
  | [] => Return []
  | var :: rest =>
      match var_error var with
      | Return errs =>
          match vars_errors rest with
          | Return errs' => Return (errs ++ errs')%list
          | Raise e => Raise e
          end
      | Raise e => Raise e
      end
  end.

(** [ConfigValidator.validate_component_config] *)
Definition validate_component_config (component : Component.t)
    : outcome (bool * list string) :=
  match vars_errors (Component.config_vars component) with
  | Return errors =>
      Return (match errors with [] => true | _ => false end, errors)
  | Raise e => Raise e
  end.

End WithBuiltins.

End ComponentOps.

(* ===================================================================== *)
(** * scraper.py: link discovery and platform detection *)
(* ===================================================================== *)

Module Discovery.

(** An anchor with an [href]: the [href] and the stripped text. *)
Definition anchor : Type := (string * string)%type.

(** The listing page as [_extract_component_links] reads it: the anchors of
    the [rst-content] division and of the [toctree-wrapper] division, when
    the page has them, and those of each navigation menu. *)
Record listing_page : Type := mk_listing {
  content_area : option (list anchor);
  toctree : option (list anchor);
  nav_menus : list (list anchor)
}.

(** [href.count('/')] *)
Fixpoint count_slash (s : string) : nat :=
  match s with
  | EmptyString => O
  | String c r => ((if Ascii.eqb c "/" then 1 else 0) + count_slash r)%nat
  end.

Section WithUrljoin.
(** [urljoin(self.BASE_URL, href)] of [urllib.parse]. *)
Variable urljoin : string -> string.

(** The body of each [for link in links] loop, for the [href] test of the
    method. *)
Definition collect (accept : string -> bool) (links : list anchor)
    : list Crawl.link :=
  flat_map (fun '(href, link_text) =>
              if accept href then
                match link_text with
                | EmptyString => []
                | _ => if negb (PyStr.startswith "#" link_text)
                       then [(link_text, urljoin href)] else []
                end
              else [])
           links.

Definition in_content (href : string) : bool :=
  PyStr.startswith "/components/" href && (2 <=? count_slash href)%nat.
Definition in_toctree (href : string) : bool :=
  PyStr.contains "/components/" href.
Definition in_menu (href : string) : bool :=
  PyStr.contains "/components/" href && (2 <=? count_slash href)%nat.

(** [component_links] when the three methods are done. *)
Definition candidate_links (page : listing_page) : list Crawl.link :=
  (match content_area page with
   | Some links => collect in_content links
   | None => []
   end
   ++ match toctree page with
      | Some links => collect in_toctree links
      | None => []
      end
   ++ flat_map (collect in_menu) (nav_menus page))%list.

(** The body of the loop that removes duplicates; the state is
    [(seen, unique_links)]. *)
Definition keep_unseen (st : list string * list Crawl.link) (l : Crawl.link)
    : list string * list Crawl.link :=
  let '(seen, unique_links) := st in
  let '(name, url) := l in
  if negb (PyStr.mem url seen)
  then (url :: seen, (unique_links ++ [(name, url)])%list)
  else st.

Definition unique_links (links : list Crawl.link) : list Crawl.link :=
  snd (fold_left keep_unseen links ([], [])).

(** [_extract_component_links] *)
Definition _extract_component_links (page : listing_page) : list Crawl.link :=
  unique_links (candidate_links page).

End WithUrljoin.

(** ** _extract_platforms *)

Definition platform_keywords : list string :=
  ["esp32"; "esp8266"; "esp32s2"; "esp32s3"; "esp32c3"; "rp2040"].

(** Method 1: every keyword found in the text, upper-cased. *)
Definition scan_text (text_content : string) : list string :=
  flat_map (fun platform => if PyStr.contains platform text_content
                            then [PyStr.upper platform] else [])
           platform_keywords.

(** Methods 2 and 3: every keyword found in the text and not yet listed. *)
Definition scan_more (platforms : list string) (text : string)
    : list string :=
  fold_left (fun platforms platform =>
               if PyStr.contains platform text
                  && negb (PyStr.mem (PyStr.upper platform) platforms)
               then (platforms ++ [PyStr.upper platform])%list
               else platforms)
            platform_keywords platforms.

(** [_extract_platforms]: [soup_text] is [soup.get_text()], [section_texts]
    the [get_text()] of the parent of every text node that matches
    [platform|supported]. *)
Definition _extract_platforms (soup_text : string)
    (clean_content : option string) (section_texts : list string)
    : list string :=
  let platforms := scan_text (PyStr.lower soup_text) in
  let platforms :=
    match clean_content with
    | Some (String c r) => scan_more platforms (PyStr.lower (String c r))
    | _ => platforms
    end in
  fold_left (fun platforms parent_text =>
               scan_more platforms (PyStr.lower parent_text))
            section_texts platforms.

End Discovery.

(* ===================================================================== *)
(** * models/component.py: the YAML text of one component *)
(* ===================================================================== *)

Module ComponentYaml.

(** [s * n] for a string and an integer. *)
Fixpoint times (s : string) (n : nat) : string :=
  match n with
  | O => EmptyString
  | S n' => s ++ times s n'
  end.

(** [sep.join(lines)] *)
Fixpoint join (sep : string) (lines : list string) : string :=
  match lines with
  | [] => EmptyString
  | [l] => l
  | l :: rest => l ++ sep ++ join sep rest
  end.

Section WithBuiltins.
Context {B : Builtins}.

(** The lines appended under [# Component header]. *)
Definition header (self : Component.t) (indent_str : string) : list string :=
  if String.eqb (Component.component_type self) (Component.name self) then
    [indent_str ++ Component.component_type self ++ ":"]
  else
    [indent_str ++ Component.component_type self ++ ":";
     indent_str ++ "  - platform: " ++ Component.name self].

(** The body of [for var in self.config_vars]; the state is
    [(lines, has_config)]. *)
Definition add_var_line (self : Component.t) (indent_str : string)
    (st : list string * bool) (var : ConfigVariable.t)
    : list string * bool :=
  let '(lines, has_config) := st in
  let value := ConfigVariable.to_yaml_value var in
  if negb (Py.is_none value) then
    let lines :=
      if negb has_config
         && negb (String.eqb (Component.component_type self)
                             (Component.name self))
      then (lines ++ [(indent_str ++ "    " ++ ConfigVariable.name var
                       ++ ": " ++ Py.str value)%string])%list
      else if String.eqb (Component.component_type self) (Component.name self)
      then (lines ++ [(indent_str ++ "  " ++ ConfigVariable.name var
                       ++ ": " ++ Py.str value)%string])%list
      else (lines ++ [(indent_str ++ "    " ++ ConfigVariable.name var
                       ++ ": " ++ Py.str value)%string])%list in
    (lines, true)
  else st.

(** [get_yaml_config(indent)] *)
Definition get_yaml_config (self : Component.t) (indent : Z) : string :=
  let indent_str := times "  " (Z.to_nat indent) in
  let lines := header self indent_str in
  let '(lines, _) :=
    fold_left (add_var_line self indent_str) (Component.config_vars self)
              (lines, false) in
  join (String ConfigValidator.newline EmptyString) lines.

End WithBuiltins.

End ComponentYaml.

(* ===================================================================== *)
(** * Vocabulary of the specification *)
(* ===================================================================== *)

Module Spec.

(** The pins a platform allows, as the specification lists them: 0 to 39
    without 6 to 11 for ESP32, an explicit set for ESP8266, 0 to 49 for any
    other platform.  The platform name is compared in upper case. *)
Definition pin_allowed (platform : string) (n : Z) : Prop :=
  if String.eqb (PyStr.upper platform) "ESP32" then
    0 <= n <= 39 /\ ~ (6 <= n <= 11)
  else if String.eqb (PyStr.upper platform) "ESP8266" then
    In n [0; 1; 2; 3; 4; 5; 12; 13; 14; 15; 16]
  else 0 <= n <= 49.

(** Key order of a dict that grows by first assignments: a key joins the
    end when it is first seen. *)
Definition add_key (keys : list string) (k : string) : list string :=
  if PyStr.mem k keys then keys else (keys ++ [k])%list.

(** The components of one type, in input order. *)
Definition of_type (t : string) (components : list Component.t)
    : list Component.t :=
  filter (fun c => String.eqb (Component.component_type c) t) components.

(** What one component does to the section of its type: a list section
    gets the entry appended, any other section is replaced by the entry. *)
Definition place (section : value) (c : Component.t) : value :=
  match section with
  | VList l => VList (l ++ [VDict (YAMLGenerator.component_entry c)])
  | _ => VDict (YAMLGenerator.component_entry c)
  end.

(** The line [get_yaml_config] writes for a variable: two spaces deeper
    than the header for a component that is its own type, four for a
    component under a platform entry. *)
Definition var_line {B : Builtins} (self : Component.t) (indent_str : string)
    (var : ConfigVariable.t) : string :=
  indent_str
  ++ (if String.eqb (Component.component_type self) (Component.name self)
      then "  " else "    ")
  ++ ConfigVariable.name var ++ ": "
  ++ Py.str (ConfigVariable.to_yaml_value var).

(** The tags [_infer_data_type] can answer. *)
Definition data_type_tags : list string :=
  ["pin"; "time"; "frequency"; "bool"; "int"; "float"; "identifier";
   "percentage"; "string"].

(** A text names a platform: it holds the keyword of which the platform
    is the upper-case form. *)
Definition mentions (text x : string) : Prop :=
  exists k, In k Discovery.platform_keywords /\ x = PyStr.upper k
            /\ PyStr.contains k text = true.

(** The number of [time.sleep] calls in a trace. *)
Definition sleeps (t : list Crawl.event) : nat :=
  List.length
    (filter (fun e => match e with Crawl.Sleep => true | _ => false end) t).

(** The turns, from turn [i] on, in which [scrape_component_page] returns
    [None]. *)
Fixpoint failures (w : Crawl.world) (i : nat) (links : list Crawl.link)
    : nat :=
  match links with
  | [] => O
  | _ :: rest =>
      (match Crawl.page (Crawl.replies w i) with
       | inr _ => 1
       | inl _ => 0
       end + failures w (S i) rest)%nat
  end.

(** What can be told of a run from outside it: the flag, the pages asked
    for, the components reported, the store, the pauses, the two counters
    and whether completion or an error was reported. *)
Record view : Type := mk_view {
  canceled : bool;
  pages : list string;
  found : list (string * Component.t);
  store : list (string * Component.t);
  slept : nat;
  scraped : Z;
  failed : Z;
  finished : bool;
  errored : bool
}.

Definition view_of (st : Crawl.state) : view :=
  mk_view (Crawl._is_canceled st)
          (Crawl.pages_scraped (Crawl.trace st))
          (Crawl.reported (Crawl.trace st))
          (Crawl.database st)
          (sleeps (Crawl.trace st))
          (Crawl.scraped_count st)
          (Crawl.failed_count st)
          (existsb Crawl.is_finished (Crawl.trace st))
          (existsb Crawl.is_error (Crawl.trace st)).

(** What one more event shows. *)
Definition after_event (e : Crawl.event) (v : view) : view :=
  mk_view (canceled v)
          (pages v ++ Crawl.pages_scraped [e])
          (found v ++ Crawl.reported [e])
          (store v)
          (slept v + sleeps [e])
          (scraped v) (failed v)
          (finished v || Crawl.is_finished e)
          (errored v || Crawl.is_error e).

Definition with_flag (b : bool) (v : view) : view :=
  mk_view b (pages v) (found v) (store v) (slept v) (scraped v) (failed v)
          (finished v) (errored v).

(** What one turn of the loop shows. *)
Definition after_turn (r : Crawl.reply) (total i : Z) (l : Crawl.link)
    (v : view) : view :=
  mk_view (canceled v || Crawl.cancel_requested r)
          (pages v ++ [snd l])
          (found v ++ match Crawl.page r, Crawl.saved r with
                      | inl c, true => [(fst l, c)]
                      | _, _ => []
                      end)
          (match Crawl.page r, Crawl.saved r with
           | inl c, true => Crawl.save_component c (store v)
           | _, _ => store v
           end)
          (slept v + if i <? total - 1 then 1 else 0)
          (scraped v + match Crawl.page r, Crawl.saved r with
                       | inl _, true => 1
                       | _, _ => 0
                       end)
          (failed v + match Crawl.page r with inr _ => 1 | inl _ => 0 end)
          (finished v) (errored v).

(** A character other than the newline. *)
Definition not_newline (c : ascii) : bool :=
  negb (Ascii.eqb c ConfigValidator.newline).

(** Equality of two answers of a validator, as a test. *)
Definition verdict_eqb (a b : ConfigValidator.verdict) : bool :=
  Bool.eqb (fst a) (fst b)
  && match snd a, snd b with
     | Some x, Some y => String.eqb x y
     | None, None => true
     | _, _ => false
     end.

(** Every element of every list section of a document. *)
Definition list_entries (document : pydict) : list value :=
  flat_map (fun kv => match snd kv with VList l => l | _ => [] end) document.

End Spec.

(* ===================================================================== *)
(** * Concrete data for closed examples *)
(* ===================================================================== *)

Module Examples.

(** A runtime that reads plain runs of decimal digits, enough to run the
    examples: [int("42")] is [42], [float("42")] is [42.0]. *)
Definition read_digits (s : string) : option Z :=
  match s with
  | EmptyString => None
  | _ => if PyStr.all_chars PyStr.is_digit s
         then Some (PyStr.digits_value 0 s) else None
  end.

Definition digits_runtime : Builtins := {|
  int_of_str := read_digits;
  float_of_str := fun s => option_map ConfigValidator.f64 (read_digits s);
  str_of_float := fun _ => "<float>";
  str_of_container := fun _ => "<container>"
|}.

(** The float [3.7], [0x1.d99999999999ap+1]. *)
Definition f3_7 : spec_float := S754_finite false 8331659310635418 (-51).

Definition var (name data_type : string) (is_required : bool)
    (default_value current_value : value) : ConfigVariable.t :=
  ConfigVariable.mk name EmptyString data_type is_required
                    default_value current_value.

Definition component (name component_type instance_id : string)
    (config_vars : list ConfigVariable.t) : Component.t :=
  Component.mk name component_type EmptyString [] config_vars None
               instance_id 0 0 200 150.

(** A sensor whose name has a dot and whose label needs quoting in YAML. *)
Definition label_var : ConfigVariable.t :=
  var "label" "string" false VNone (VStr "a: b").

Definition dotted_sensor : Component.t :=
  component "dht.v2" "sensor" "0123abcd-89ef-4a6b-8c0d-1e2f3a4b5c6d"
            [label_var].

(** Two components whose type is the seeded section [api], and two whose
    type is the seeded section [logger]. *)
Definition api_native : Component.t :=
  component "native" "api" "11111111-0000-4000-8000-000000000001" [].
Definition api_web : Component.t :=
  component "web" "api" "22222222-0000-4000-8000-000000000002" [].
Definition logger_uart : Component.t :=
  component "uart" "logger" "33333333-0000-4000-8000-000000000003" [].
Definition logger_usb : Component.t :=
  component "usb" "logger" "44444444-0000-4000-8000-000000000004" [].

(** Two parsed documents that share a mapping, a sequence and a scalar. *)
Definition doc_a : pydict :=
  [ ("wifi", VDict [("ssid", VStr "home")]);
    ("sensor", VList [VStr "dht"]);
    ("name", VStr "a") ].
Definition doc_b : pydict :=
  [ ("sensor", VList [VStr "bme280"]);
    ("wifi", VDict [("password", VStr "secret")]);
    ("name", VStr "b");
    ("ota", VNone) ].

(** A page whose configuration table names [pin] in two rows, and whose
    code example sets [pin] too. *)
Definition pin_table : Scraper.table :=
  [ ["Name"; "Description"; "Type"];
    ["pin"; "The pin the sensor is wired to"; "int, required"];
    ["pin"; "See above"] ].

Definition pin_page : Scraper.soup :=
  Scraper.mk_soup [Scraper.mk_section [pin_table] []] ["pin: GPIO4"].

(** A listing of five links; every page yields a component that is saved,
    and the user cancels while the second page is being handled. *)
Definition five_links : list Crawl.link :=
  [ ("DHT", "https://esphome.io/components/sensor/dht.html");
    ("GPIO Switch", "https://esphome.io/components/switch/gpio.html");
    ("BME280", "https://esphome.io/components/sensor/bme280.html");
    ("Fan", "https://esphome.io/components/fan/index.html");
    ("Light", "https://esphome.io/components/light/index.html") ].

Definition cancel_after_second : Crawl.world :=
  Crawl.mk_world (inl (five_links, [])) false
    (fun i => Crawl.mk_reply (inl dotted_sensor) true (Nat.eqb i 1)).

(** The same listing when nobody cancels: the third page cannot be read and
    the fourth component cannot be saved. *)
Definition two_mishaps : Crawl.world :=
  Crawl.mk_world (inl (five_links, [])) false
    (fun i => Crawl.mk_reply
                (if Nat.eqb i 2 then inr "Error scraping the page"
                 else inl dotted_sensor)
                (negb (Nat.eqb i 3)) false).

(** A listing page that cannot be fetched. *)
Definition no_listing : Crawl.world :=
  Crawl.mk_world (inr "Error fetching the listing") false
    (fun _ => Crawl.mk_reply (inl dotted_sensor) true false).

End Examples.

(* ===================================================================== *)
(** * Properties of ConfigVariable.set_value *)
(* ===================================================================== *)

Section SetValue.
Context {B : Builtins}.
Import ConfigVariable.

Lemma is_none_true (v : value) : Py.is_none v = true <-> v = VNone.
Proof. destruct v; simpl; split; congruence. Qed.

Lemma is_none_false (v : value) : Py.is_none v = false <-> v <> VNone.
Proof. destruct v; simpl; split; congruence. Qed.

(** [set_value] either answers [True] and stores a value, or answers
    [False] and leaves the variable alone. *)
Lemma set_value_cases (self : t) (v : value) :
  (exists v', set_value self v = (true, with_current self v'))
  \/ set_value self v = (false, self).
Proof.
  unfold set_value.
  destruct (Py.is_none v && is_required self); [now right|].
  destruct (if negb (Py.is_none v) then coerce self v else Next v);
    [left; eauto | now right | now right].
Qed.

(** C6.  A call of [set_value] that returns [False] leaves the variable,
    and so its [current_value], exactly as it was; and it returns [False]
    only when the value is [None] and the variable is required, or when the
    conversion [int(value)] (for [data_type] ['int'], on a value that is not
    an [int]) or [float(value)] (for [data_type] ['float'], on a value that
    is neither [int] nor [float]) raises. *)
Theorem set_value_failure_is_atomic (self : t) (v : value) :
  fst (set_value self v) = false ->
  snd (set_value self v) = self
  /\ current_value (snd (set_value self v)) = current_value self
  /\ ((v = VNone /\ is_required self = true)
      \/ (v <> VNone /\ data_type self = "int"
          /\ Py.isinstance_int v = false /\ exists e, Py.int v = Raise e)
      \/ (v <> VNone /\ data_type self = "float"
          /\ Py.isinstance_int_float v = false
          /\ exists e, Py.float v = Raise e)).
Proof.
  intros Hfalse.
  assert (Hsame : snd (set_value self v) = self).
  { destruct (set_value_cases self v) as [[v' E] | E];
      rewrite E in Hfalse |- *; simpl in *; congruence. }
  split; [exact Hsame|]. split; [now rewrite Hsame|].
  unfold set_value in Hfalse.
  destruct (Py.is_none v) eqn:Hn; simpl in Hfalse.
  - apply is_none_true in Hn.
    destruct (is_required self); simpl in Hfalse; [now left | discriminate].
  - apply is_none_false in Hn. unfold coerce in Hfalse.
    destruct (String.eqb (data_type self) "int") eqn:Hi; simpl in Hfalse.
    + apply String.eqb_eq in Hi.
      destruct (Py.isinstance_int v) eqn:Hinst; simpl in Hfalse.
      * rewrite Hi in Hfalse. simpl in Hfalse. discriminate.
      * right; left. repeat split; auto.
        destruct (Py.int v) as [z | e]; [discriminate | eauto].
    + destruct (String.eqb (data_type self) "float") eqn:Hf; simpl in Hfalse.
      * apply String.eqb_eq in Hf.
        destruct (Py.isinstance_int_float v) eqn:Hinst; simpl in Hfalse.
        -- rewrite Hf in Hfalse. simpl in Hfalse. discriminate.
        -- right; right. repeat split; auto.
           destruct (Py.float v) as [f | e]; [discriminate | eauto].
      * destruct (String.eqb (data_type self) "bool" && _);
          [destruct v|]; discriminate.
Qed.

End SetValue.

Lemma set_value_failure_is_atomic_witness :
  let self := Examples.var "pin" "int" false VNone (VInt 4) in
  fst (@ConfigVariable.set_value Examples.digits_runtime self (VStr "four"))
    = false
  /\ ConfigVariable.current_value
       (snd (@ConfigVariable.set_value Examples.digits_runtime self
               (VStr "four"))) = VInt 4.
Proof.
  split; [reflexivity|].
  apply (@set_value_failure_is_atomic Examples.digits_runtime
           (Examples.var "pin" "int" false VNone (VInt 4)) (VStr "four")).
  reflexivity.
Defined.

Section SetValueBool.
Context {B : Builtins}.
Import ConfigVariable.

Lemma coerce_bool (self : t) (v : value) :
  data_type self = "bool" ->
  coerce self v =
  Next (match v with
        | VBool b => VBool b
        | VStr s => VBool (PyStr.mem (PyStr.lower s) ["true"; "1"; "yes"; "on"])
        | _ => VBool (Py.truthy v)
        end).
Proof.
  intros Hb. unfold coerce. rewrite Hb. simpl.
  destruct v; reflexivity.
Qed.

(** C10.  On a variable whose [data_type] is ['bool'], [set_value] returns
    [True] for every value other than [None]: a [bool] is stored as it is, a
    string is stored as [True] exactly when its lower-case form is one of
    ['true'], ['1'], ['yes'], ['on'] (and as [False] otherwise), any other
    value is stored as its truth value (so [3.7] is stored as [True]); the
    call fails only for [None] on a required variable. *)
Theorem set_value_bool_always_accepts (self : t) :
  data_type self = "bool" ->
  (forall b, set_value self (VBool b) = (true, with_current self (VBool b)))
  /\ (forall s,
        set_value self (VStr s) =
        (true, with_current self
                 (VBool (PyStr.mem (PyStr.lower s)
                           ["true"; "1"; "yes"; "on"]))))
  /\ (forall v, v <> VNone -> Py.isinstance_bool v = false ->
        Py.isinstance_str v = false ->
        set_value self v = (true, with_current self (VBool (Py.truthy v))))
  /\ set_value self (VFloat Examples.f3_7)
     = (true, with_current self (VBool true))
  /\ (forall v, v <> VNone -> fst (set_value self v) = true)
  /\ (forall v, fst (set_value self v) = false <->
                v = VNone /\ is_required self = true).
Proof.
  intros Hb.
  assert (Hset : forall v, v <> VNone ->
            set_value self v =
            (true, with_current self
                     (match v with
                      | VBool b => VBool b
                      | VStr s => VBool (PyStr.mem (PyStr.lower s)
                                           ["true"; "1"; "yes"; "on"])
                      | _ => VBool (Py.truthy v)
                      end))).
  { intros v Hv. unfold set_value.
    apply is_none_false in Hv. rewrite Hv. simpl.
    now rewrite (coerce_bool self v Hb). }
  split; [intros b; now rewrite Hset|].
  split; [intros s; now rewrite Hset|].
  split.
  { intros v Hv Hnb Hns. rewrite (Hset v Hv).
    destruct v; simpl in *; congruence. }
  split; [now rewrite Hset|].
  split; [intros v Hv; now rewrite (Hset v Hv)|].
  intros v. split.
  - intros Hf.
    destruct v; try (rewrite Hset in Hf by discriminate; discriminate Hf).
    unfold set_value in Hf. simpl in Hf.
    destruct (is_required self); [now split | discriminate].
  - intros [-> Hr]. unfold set_value. simpl. now rewrite Hr.
Qed.

End SetValueBool.

Lemma set_value_bool_always_accepts_witness :
  @ConfigVariable.set_value Examples.digits_runtime
    (Examples.var "inverted" "bool" true VNone VNone) (VStr "Nope")
  = (true, Examples.var "inverted" "bool" true VNone (VBool false)).
Proof.
  apply (@set_value_bool_always_accepts Examples.digits_runtime
           (Examples.var "inverted" "bool" true VNone VNone)).
  reflexivity.
Defined.

(* ===================================================================== *)
(** * Properties of the validator *)
(* ===================================================================== *)

Section Validator.
Context {B : Builtins}.
Import ConfigValidator.

(** C7.  Whatever the [data_type] and the [context], [None] is valid:
    [validate_by_type(None, data_type, context)] returns [(True, None)]
    and does not raise. *)
Theorem validate_by_type_none (data_type : string) (context : pydict) :
  validate_by_type VNone data_type context = Return (true, None).
Proof. reflexivity. Qed.

Lemma mem_int_In (n : Z) (l : list Z) : mem_int n l = true <-> In n l.
Proof.
  unfold mem_int. rewrite existsb_exists. split.
  - intros [x [Hin Heq]]. apply Z.eqb_eq in Heq. now subst.
  - intros Hin. exists n. split; [assumption | apply Z.eqb_refl].
Qed.

Lemma In_range (n : Z) (k : nat) : In n (range k) <-> 0 <= n < Z.of_nat k.
Proof.
  unfold range. rewrite in_map_iff. split.
  - intros [i [<- Hi]]. apply in_seq in Hi. lia.
  - intros Hn. exists (Z.to_nat n). split; [lia|]. apply in_seq. lia.
Qed.

(** The list [valid_pins] holds exactly the pins the specification allows. *)
Lemma valid_pins_allowed (platform : string) (n : Z) :
  mem_int n (valid_pins platform) = true <-> Spec.pin_allowed platform n.
Proof.
  rewrite mem_int_In. unfold valid_pins, Spec.pin_allowed.
  destruct (String.eqb (PyStr.upper platform) "ESP32").
  - rewrite filter_In, In_range, negb_true_iff.
    rewrite <- not_true_iff_false, mem_int_In. simpl. lia.
  - destruct (String.eqb (PyStr.upper platform) "ESP8266");
      [reflexivity | rewrite In_range; lia].
Qed.

Lemma check_pin_valid (n : Z) (shown platform : string) :
  (check_pin n shown (VStr platform) = Return valid
   <-> Spec.pin_allowed platform n)
  /\ (~ Spec.pin_allowed platform n ->
      check_pin n shown (VStr platform) =
      Return (false, Some ("Pin " ++ shown ++ " is not valid for "
                           ++ platform))).
Proof.
  unfold check_pin. rewrite <- valid_pins_allowed.
  destruct (mem_int n (valid_pins platform)); simpl; split;
    try (split; intros H; (reflexivity || discriminate || congruence));
    intros H; (reflexivity || congruence).
Qed.

Lemma span_digits (ds : string) :
  PyStr.all_chars PyStr.is_digit ds = true ->
  span PyStr.is_digit ds = (ds, EmptyString).
Proof.
  induction ds as [|c r IH]; simpl; [reflexivity|].
  intros H. apply andb_true_iff in H as [Hc Hr].
  now rewrite Hc, (IH Hr).
Qed.





End Validator.


(* ===================================================================== *)
(** * Dictionaries *)
(* ===================================================================== *)

Section Dict.
Context {A : Type}.
Implicit Types (d : list (string * A)) (k : string) (v : A).

Lemma dict_get_set_eq k v d : Py.dict_get k (Py.dict_set k v d) = Some v.
Proof.
  induction d as [|[k' v'] r IH]; simpl.
  - now rewrite String.eqb_refl.
  - destruct (String.eqb k k') eqn:E; simpl; rewrite E; auto.
Qed.

Lemma dict_get_set_neq k k' v d :
  k <> k' -> Py.dict_get k (Py.dict_set k' v d) = Py.dict_get k d.
Proof.
  intros Hne. apply String.eqb_neq in Hne.
  induction d as [|[k0 v0] r IH]; simpl.
  - now rewrite Hne.
  - destruct (String.eqb k' k0) eqn:E; simpl.
    + apply String.eqb_eq in E. subst k0. now rewrite Hne.
    + now rewrite IH.
Qed.

Lemma dict_get_set k k' v d :
  Py.dict_get k (Py.dict_set k' v d) =
  if String.eqb k k' then Some v else Py.dict_get k d.
Proof.
  destruct (String.eqb k k') eqn:E.
  - apply String.eqb_eq in E. subst. apply dict_get_set_eq.
  - apply String.eqb_neq in E. now apply dict_get_set_neq.
Qed.

Lemma dict_mem_keys k d : Py.dict_mem k d = PyStr.mem k (Py.dict_keys d).
Proof.
  unfold Py.dict_mem, PyStr.mem, Py.dict_keys.
  induction d as [|[k' v'] r IH]; simpl; [reflexivity|].
  destruct (String.eqb k k'); simpl; auto.
Qed.

Lemma dict_keys_set k v d :
  Py.dict_keys (Py.dict_set k v d) =
  if Py.dict_mem k d then Py.dict_keys d else (Py.dict_keys d ++ [k])%list.
Proof.
  unfold Py.dict_mem, Py.dict_keys.
  induction d as [|[k' v'] r IH]; simpl; [reflexivity|].
  destruct (String.eqb k k') eqn:E; simpl; [reflexivity|].
  rewrite IH. now destruct (Py.dict_get k r).
Qed.

Lemma dict_set_nonempty k v d : Py.dict_set k v d <> [].
Proof.
  destruct d as [|[k' v'] r]; simpl; [discriminate|].
  destruct (String.eqb k k'); discriminate.
Qed.

Lemma dict_get_none_keys k d :
  ~ In k (Py.dict_keys d) -> Py.dict_get k d = None.
Proof.
  unfold Py.dict_keys. induction d as [|[k' v'] r IH]; simpl; [reflexivity|].
  intros Hn. destruct (String.eqb k k') eqn:E.
  - apply String.eqb_eq in E. subst. tauto.
  - apply IH. tauto.
Qed.

End Dict.

(* ===================================================================== *)
(** * Properties of the per-component entry *)
(* ===================================================================== *)

Section Entry.
Import YAMLGenerator.

Import ConfigVariable (get_effective_value).

(** Variables that assign nothing under [k] leave [config[k]] alone. *)
Lemma add_vars_untouched (k : string) (vars : list ConfigVariable.t) :
  (forall var, In var vars -> ConfigVariable.name var = k ->
               get_effective_value var = VNone) ->
  forall config,
    Py.dict_get k (fold_left add_var vars config) = Py.dict_get k config.
Proof.
  induction vars as [|var rest IH]; intros Hnone config; simpl;
    [reflexivity|].
  rewrite IH by (intros; apply Hnone; simpl; auto).
  unfold add_var.
  destruct (Py.is_none (get_effective_value var)) eqn:E; simpl;
    [reflexivity|].
  apply dict_get_set_neq. intros Heq.
  apply is_none_false in E. apply E. apply Hnone; simpl; auto.
Qed.

(** The last variable that assigns under its name decides the value. *)
Lemma add_vars_last (before after : list ConfigVariable.t)
    (var : ConfigVariable.t) (config : pydict) :
  get_effective_value var <> VNone ->
  (forall var', In var' after ->
                ConfigVariable.name var' = ConfigVariable.name var ->
                get_effective_value var' = VNone) ->
  Py.dict_get (ConfigVariable.name var)
    (fold_left add_var (before ++ var :: after) config)
  = Some (get_effective_value var).
Proof.
  intros Hset Hafter. rewrite fold_left_app. simpl.
  rewrite (add_vars_untouched _ _ Hafter).
  unfold add_var at 1. apply is_none_false in Hset. rewrite Hset. simpl.
  apply dict_get_set_eq.
Qed.

Lemma component_entry_has_id (c : Component.t) :
  Py.dict_mem "id" (component_entry c) = true.
Proof.
  unfold component_entry.
  destruct (Py.dict_mem "id" (entry_before_id c)) eqn:E; simpl;
    [exact E|].
  unfold Py.dict_mem. now rewrite dict_get_set_eq.
Qed.

Lemma component_entry_nonempty (c : Component.t) : component_entry c <> [].
Proof.
  intros Hnil. pose proof (component_entry_has_id c) as H.
  rewrite Hnil in H. discriminate.
Qed.

(** The last line of [_generate_component_config] always returns the dict. *)
Lemma generate_component_config_some (c : Component.t) :
  _generate_component_config c = Some (component_entry c).
Proof.
  unfold _generate_component_config.
  pose proof (component_entry_nonempty c) as H.
  destruct (component_entry c); [congruence | reflexivity].
Qed.

(** C1, as the code has it.  The entry holds ['platform'] = name exactly
    when name differs from [component_type], unless a variable named
    ['platform'] assigns over it; it holds under [var.name] the effective
    value itself, unquoted, of the last variable of that name whose effective
    value is not [None]; and when the variables left no ['id'] it holds
    ['id'] = the lower-cased name with spaces and hyphens turned into
    underscores, then ['_'], then the first 8 characters of [instance_id]. *)
Theorem component_entry_contents (c : Component.t) :
  ((forall var, In var (Component.config_vars c) ->
                ConfigVariable.name var = "platform" ->
                get_effective_value var = VNone) ->
   Py.dict_get "platform" (component_entry c)
   = if String.eqb (Component.name c) (Component.component_type c)
     then None else Some (VStr (Component.name c)))
  /\ (forall before var after,
        Component.config_vars c = (before ++ var :: after)%list ->
        get_effective_value var <> VNone ->
        (forall var', In var' after ->
                      ConfigVariable.name var' = ConfigVariable.name var ->
                      get_effective_value var' = VNone) ->
        Py.dict_get (ConfigVariable.name var) (component_entry c)
        = Some (get_effective_value var))
  /\ (Py.dict_mem "id" (entry_before_id c) = false ->
      Py.dict_get "id" (component_entry c)
      = Some (VStr (PyStr.replace "-" "_"
                      (PyStr.replace " " "_" (PyStr.lower (Component.name c)))
                    ++ "_" ++ PyStr.take 8 (Component.instance_id c))))
  /\ (Py.dict_mem "id" (entry_before_id c) = true ->
      component_entry c = entry_before_id c).
Proof.
  split; [|split; [|split]].
  - intros Hnone. unfold component_entry.
    assert (Hbefore : Py.dict_get "platform" (entry_before_id c)
                      = if String.eqb (Component.name c)
                                      (Component.component_type c)
                        then None else Some (VStr (Component.name c))).
    { unfold entry_before_id. rewrite (add_vars_untouched _ _ Hnone).
      destruct (String.eqb (Component.name c) (Component.component_type c));
        reflexivity. }
    destruct (negb (Py.dict_mem "id" (entry_before_id c)));
      [|exact Hbefore].
    rewrite dict_get_set_neq by discriminate. exact Hbefore.
  - intros before var after Hvars Hset Hafter. unfold component_entry.
    assert (Hbefore : Py.dict_get (ConfigVariable.name var) (entry_before_id c)
                      = Some (get_effective_value var)).
    { unfold entry_before_id. rewrite Hvars.
      now apply add_vars_last. }
    destruct (Py.dict_mem "id" (entry_before_id c)) eqn:Hid; simpl;
      [exact Hbefore|].
    rewrite dict_get_set_neq; [exact Hbefore|].
    intros Heq. unfold Py.dict_mem in Hid. rewrite <- Heq in Hid.
    now rewrite Hbefore in Hid.
  - intros Hid. unfold component_entry. rewrite Hid. simpl.
    now rewrite dict_get_set_eq.
  - intros Hid. unfold component_entry. now rewrite Hid.
Qed.

End Entry.

Lemma component_entry_contents_witness :
  Py.dict_get "label" (YAMLGenerator.component_entry Examples.dotted_sensor)
  = Some (VStr "a: b").
Proof.
  destruct (component_entry_contents Examples.dotted_sensor)
    as [_ [Hvar _]].
  apply (Hvar [] Examples.label_var []);
    [reflexivity | discriminate | intros var' []].
Defined.

(** C1 as stated fails on [Examples.dotted_sensor]: no variable supplies an
    ['id'], yet the synthesized id keeps the dot of the name, where the
    normalisation of the catalog key would turn it into an underscore; and
    the entry holds the label as it is, not the quoted form
    [to_yaml_value] produces. *)
Lemma component_entry_as_stated_fails :
  let c := Examples.dotted_sensor in
  Py.dict_mem "id" (YAMLGenerator.entry_before_id c) = false
  /\ Py.dict_get "id" (YAMLGenerator.component_entry c)
     = Some (VStr "dht.v2_0123abcd")
  /\ Py.dict_get "id" (YAMLGenerator.component_entry c)
     <> Some (VStr (Database.normalized (Component.name c) ++ "_"
                    ++ PyStr.take 8 (Component.instance_id c)))
  /\ Py.dict_get "label" (YAMLGenerator.component_entry c)
     = Some (VStr "a: b")
  /\ Py.dict_get "label" (YAMLGenerator.component_entry c)
     <> Some (ConfigVariable.to_yaml_value Examples.label_var).
Proof.
  cbv zeta. repeat split; try reflexivity; vm_compute; discriminate.
Qed.

(* ===================================================================== *)
(** * Properties of the generated document *)
(* ===================================================================== *)

Section Document.
Import YAMLGenerator Spec.

Lemma mem_In (k : string) (l : list string) :
  PyStr.mem k l = true <-> In k l.
Proof.
  unfold PyStr.mem. rewrite existsb_exists. split.
  - intros [x [Hin Heq]]. apply String.eqb_eq in Heq. now subst.
  - intros Hin. exists k. split; [assumption | apply String.eqb_refl].
Qed.

Lemma add_key_NoDup (keys : list string) (k : string) :
  NoDup keys -> NoDup (add_key keys k).
Proof.
  intros Hnd. unfold add_key. destruct (PyStr.mem k keys) eqn:E; [exact Hnd|].
  apply NoDup_app; [exact Hnd | repeat constructor; auto |].
  intros x Hin [<- | []]. apply mem_In in Hin. congruence.
Qed.

Lemma add_keys_NoDup (l keys : list string) :
  NoDup keys -> NoDup (fold_left add_key l keys).
Proof.
  revert keys. induction l as [|k l IH]; intros keys Hnd; simpl;
    [exact Hnd | apply IH, add_key_NoDup, Hnd].
Qed.

Lemma add_key_keeps (keys : list string) (k x : string) :
  In x keys -> In x (add_key keys k).
Proof.
  intros Hin. unfold add_key. destruct (PyStr.mem k keys); [exact Hin|].
  apply in_or_app. now left.
Qed.

Lemma add_keys_keeps (l keys : list string) (x : string) :
  In x keys -> In x (fold_left add_key l keys).
Proof.
  revert keys. induction l as [|k l IH]; intros keys Hin; simpl;
    [exact Hin | apply IH, add_key_keeps, Hin].
Qed.

Lemma add_key_adds (keys : list string) (k : string) :
  In k (add_key keys k).
Proof.
  unfold add_key. destruct (PyStr.mem k keys) eqn:E; [now apply mem_In|].
  apply in_or_app. right. now left.
Qed.

Lemma add_keys_adds (l keys : list string) (k : string) :
  In k l -> In k (fold_left add_key l keys).
Proof.
  revert keys. induction l as [|a l IH]; intros keys Hin; [destruct Hin|].
  simpl. destruct Hin as [-> | Hin]; [|now apply IH].
  apply add_keys_keeps, add_key_adds.
Qed.

(** Adding the keys of a first-seen list is adding the list itself. *)
Lemma add_keys_add_keys (l acc keys : list string) :
  fold_left add_key (fold_left add_key l acc) keys
  = fold_left add_key l (fold_left add_key acc keys).
Proof.
  revert acc. induction l as [|k l IH]; intros acc; simpl; [reflexivity|].
  rewrite IH. f_equal.
  destruct (PyStr.mem k acc) eqn:E.
  - assert (Hacc : add_key acc k = acc) by (unfold add_key; now rewrite E).
    rewrite Hacc.
    apply mem_In in E. apply (add_keys_adds acc keys) in E.
    apply mem_In in E.
    generalize dependent (fold_left add_key acc keys).
    intros done E. unfold add_key. now rewrite E.
  - assert (Hacc : add_key acc k = (acc ++ [k])%list)
      by (unfold add_key; now rewrite E).
    rewrite Hacc, fold_left_app. reflexivity.
Qed.

(** ** The grouping loop *)

Lemma of_type_app (t : string) (l l' : list Component.t) :
  of_type t (l ++ l') = (of_type t l ++ of_type t l')%list.
Proof. apply filter_app. Qed.

Lemma of_type_none (t : string) (cs : list Component.t) :
  existsb (fun c => String.eqb (Component.component_type c) t) cs = false ->
  of_type t cs = [].
Proof.
  induction cs as [|c cs IH]; simpl; [reflexivity|].
  intros H. apply orb_false_iff in H as [Hc Hcs]. rewrite Hc. now apply IH.
Qed.

Lemma of_type_some (t : string) (cs : list Component.t) :
  existsb (fun c => String.eqb (Component.component_type c) t) cs = true ->
  of_type t cs <> [].
Proof.
  induction cs as [|c cs IH]; simpl; [discriminate|].
  destruct (String.eqb (Component.component_type c) t); simpl;
    [discriminate | exact IH].
Qed.

Lemma add_to_group_get (groups : list (string * list Component.t))
    (c : Component.t) (t : string) :
  Py.dict_get t (add_to_group groups c) =
  if String.eqb t (Component.component_type c)
  then Some (match Py.dict_get (Component.component_type c) groups with
             | Some comps => comps
             | None => []
             end ++ [c])%list
  else Py.dict_get t groups.
Proof.
  unfold add_to_group.
  destruct (Py.dict_get (Component.component_type c) groups) as [comps|] eqn:E.
  - assert (Hmem : Py.dict_mem (Component.component_type c) groups = true)
      by (unfold Py.dict_mem; now rewrite E).
    rewrite Hmem. simpl. rewrite E. apply dict_get_set.
  - assert (Hmem : Py.dict_mem (Component.component_type c) groups = false)
      by (unfold Py.dict_mem; now rewrite E).
    rewrite Hmem. simpl. rewrite dict_get_set_eq, !dict_get_set.
    now destruct (String.eqb t (Component.component_type c)).
Qed.

Lemma add_to_group_keys (groups : list (string * list Component.t))
    (c : Component.t) :
  Py.dict_keys (add_to_group groups c)
  = add_key (Py.dict_keys groups) (Component.component_type c).
Proof.
  unfold add_to_group, add_key. rewrite <- dict_mem_keys.
  destruct (Py.dict_get (Component.component_type c) groups) as [comps|] eqn:E.
  - assert (Hmem : Py.dict_mem (Component.component_type c) groups = true)
      by (unfold Py.dict_mem; now rewrite E).
    rewrite Hmem. simpl. rewrite E, dict_keys_set. now rewrite Hmem.
  - assert (Hmem : Py.dict_mem (Component.component_type c) groups = false)
      by (unfold Py.dict_mem; now rewrite E).
    rewrite Hmem. simpl. rewrite dict_get_set_eq, !dict_keys_set, Hmem.
    unfold Py.dict_mem. now rewrite dict_get_set_eq.
Qed.

(** [component_groups]: the components of each type seen, in input order,
    under keys in first-seen order. *)
Lemma group_components_spec (cs : list Component.t) :
  (forall t,
     Py.dict_get t (group_components cs) =
     if existsb (fun c => String.eqb (Component.component_type c) t) cs
     then Some (of_type t cs) else None)
  /\ Py.dict_keys (group_components cs)
     = fold_left add_key (map Component.component_type cs) [].
Proof.
  unfold group_components.
  induction cs as [|c cs [IHget IHkeys]] using rev_ind; [now split|].
  rewrite fold_left_app. simpl. split.
  - intros t. rewrite add_to_group_get, existsb_app, of_type_app. simpl.
    rewrite orb_false_r, (String.eqb_sym (Component.component_type c) t).
    destruct (String.eqb t (Component.component_type c)) eqn:E.
    + apply String.eqb_eq in E. subst t. rewrite IHget, orb_true_r.
      destruct (existsb _ cs) eqn:Ex; [reflexivity|].
      now rewrite (of_type_none _ _ Ex).
    + rewrite orb_false_r, app_nil_r. apply IHget.
  - now rewrite add_to_group_keys, IHkeys, map_app, fold_left_app.
Qed.

(** ** The loop that fills the document *)

Lemma add_component_get (t : string) (config : pydict) (c : Component.t)
    (section : value) (k : string) :
  Py.dict_get t config = Some section ->
  Py.dict_get k (add_component t config c) =
  (if String.eqb k t then Some (place section c) else Py.dict_get k config)
  /\ Py.dict_keys (add_component t config c) = Py.dict_keys config.
Proof.
  intros Hsec. unfold add_component.
  rewrite generate_component_config_some, Hsec.
  assert (Hkeys : forall v, Py.dict_keys (Py.dict_set t v config)
                            = Py.dict_keys config).
  { intros v. rewrite dict_keys_set. unfold Py.dict_mem. now rewrite Hsec. }
  destruct section; simpl; rewrite dict_get_set, Hkeys; now split.
Qed.

Lemma add_components_get (t : string) (comps : list Component.t) :
  forall (config : pydict) (section : value) (k : string),
  Py.dict_get t config = Some section ->
  Py.dict_get k (fold_left (add_component t) comps config) =
  (if String.eqb k t then Some (fold_left place comps section)
   else Py.dict_get k config)
  /\ Py.dict_keys (fold_left (add_component t) comps config)
     = Py.dict_keys config.
Proof.
  induction comps as [|c comps IH]; intros config section k Hsec; simpl.
  - split; [|reflexivity].
    destruct (String.eqb k t) eqn:E; [|reflexivity].
    apply String.eqb_eq in E. now subst.
  - destruct (add_component_get t config c section t Hsec) as [Hget _].
    rewrite String.eqb_refl in Hget.
    destruct (IH _ _ k Hget) as [IHget IHkeys].
    destruct (add_component_get t config c section k Hsec) as [Hk Hkeys].
    rewrite IHget, IHkeys, Hkeys, Hk. split; [|reflexivity].
    now destruct (String.eqb k t).
Qed.

Lemma add_group_get (config : pydict) (t : string)
    (comps : list Component.t) (k : string) :
  Py.dict_get k (add_group config (t, comps)) =
  (if String.eqb k t
   then Some (fold_left place comps
                (match Py.dict_get t config with
                 | Some section => section
                 | None => VList []
                 end))
   else Py.dict_get k config)
  /\ Py.dict_keys (add_group config (t, comps))
     = add_key (Py.dict_keys config) t.
Proof.
  unfold add_group, add_key. rewrite <- dict_mem_keys.
  destruct (Py.dict_get t config) as [section|] eqn:E.
  - assert (Hmem : Py.dict_mem t config = true)
      by (unfold Py.dict_mem; now rewrite E).
    rewrite Hmem. simpl. now apply add_components_get.
  - assert (Hmem : Py.dict_mem t config = false)
      by (unfold Py.dict_mem; now rewrite E).
    rewrite Hmem. simpl.
    assert (Hnew : Py.dict_get t (Py.dict_set t (VList []) config)
                   = Some (VList [])) by apply dict_get_set_eq.
    destruct (add_components_get t comps _ _ k Hnew) as [Hget Hkeys].
    rewrite Hget, Hkeys, dict_get_set, dict_keys_set, Hmem.
    split; [|reflexivity].
    now destruct (String.eqb k t).
Qed.

Lemma add_groups_get (groups : list (string * list Component.t)) :
  NoDup (Py.dict_keys groups) ->
  forall (config : pydict) (k : string),
  Py.dict_get k (fold_left add_group groups config) =
  match Py.dict_get k groups with
  | Some comps =>
      Some (fold_left place comps
              (match Py.dict_get k config with
               | Some section => section
               | None => VList []
               end))
  | None => Py.dict_get k config
  end.
Proof.
  induction groups as [|[t comps] groups IH]; intros Hnd config k;
    [reflexivity|].
  cbn [fold_left].
  change (Py.dict_keys ((t, comps) :: groups)) with (t :: Py.dict_keys groups)
    in Hnd.
  inversion Hnd as [|? ? Hnotin Hnd']; subst.
  rewrite (IH Hnd').
  destruct (add_group_get config t comps k) as [Hget _]. rewrite Hget.
  cbn [Py.dict_get].
  destruct (String.eqb k t) eqn:E; [|reflexivity].
  apply String.eqb_eq in E. subst k.
  now rewrite (dict_get_none_keys _ _ Hnotin).
Qed.

Lemma add_groups_keys (groups : list (string * list Component.t)) :
  forall config : pydict,
  Py.dict_keys (fold_left add_group groups config)
  = fold_left add_key (Py.dict_keys groups) (Py.dict_keys config).
Proof.
  induction groups as [|[t comps] groups IH]; intros config;
    [reflexivity|].
  change (Py.dict_keys ((t, comps) :: groups)) with (t :: Py.dict_keys groups).
  cbn [fold_left].
  rewrite IH. destruct (add_group_get config t comps t) as [_ Hkeys].
  now rewrite Hkeys.
Qed.

Lemma place_all_list (comps : list Component.t) (l : list value) :
  fold_left place comps (VList l)
  = VList (l ++ map (fun c => VDict (component_entry c)) comps).
Proof.
  revert l. induction comps as [|c comps IH]; intros l; simpl.
  - now rewrite app_nil_r.
  - now rewrite IH, <- app_assoc.
Qed.

Lemma place_all_not_list (comps : list Component.t) (section : value) :
  Py.isinstance_list section = false ->
  Py.isinstance_list (fold_left place comps section) = false.
Proof.
  revert section. induction comps as [|c comps IH]; intros section H; simpl;
    [exact H|].
  apply IH. now destruct section.
Qed.

Lemma place_all_last (before : list Component.t) (c : Component.t)
    (section : value) :
  Py.isinstance_list section = false ->
  fold_left place (before ++ [c]) section = VDict (component_entry c).
Proof.
  intros H. rewrite fold_left_app. simpl.
  pose proof (place_all_not_list before section H) as Hb.
  now destruct (fold_left place before section).
Qed.

Lemma seeded_section_is_dict (device_name platform board t : string) :
  In t seeded_sections ->
  exists d, Py.dict_get t (seed_config device_name platform board)
            = Some (VDict d).
Proof.
  intros [<- | [<- | [<- | [<- | [<- | []]]]]]; simpl; eexists; reflexivity.
Qed.

Lemma unseeded_section_absent (device_name platform board t : string) :
  ~ In t seeded_sections ->
  Py.dict_get t (seed_config device_name platform board) = None.
Proof. intros H. now apply dict_get_none_keys. Qed.

(** The section of one type in the generated document. *)
Lemma generated_section (cs : list Component.t)
    (device_name platform board t : string) :
  Py.dict_get t (generate_esphome_config cs device_name platform board) =
  if existsb (fun c => String.eqb (Component.component_type c) t) cs
  then Some (fold_left place (of_type t cs)
               (match Py.dict_get t (seed_config device_name platform board)
                with
                | Some section => section
                | None => VList []
                end))
  else Py.dict_get t (seed_config device_name platform board).
Proof.
  unfold generate_esphome_config.
  destruct (group_components_spec cs) as [Hget Hkeys].
  rewrite add_groups_get, Hget.
  - now destruct (existsb _ cs).
  - rewrite Hkeys. apply add_keys_NoDup. constructor.
Qed.

(** C4, as the code has it.  Components whose type is not a seeded section
    end up as the elements of the list under their type, in input order;
    the keys of the document are the seeded sections followed by the other
    types in first-seen order; and a seeded section whose name is the type
    of some components holds, in place of its seeded mapping, the entry of
    the last of them in input order (it is untouched when there is none). *)
Theorem generated_document_sections (cs : list Component.t)
    (device_name platform board : string) :
  let document := generate_esphome_config cs device_name platform board in
  (forall t, ~ In t seeded_sections ->
     Py.dict_get t document =
     if existsb (fun c => String.eqb (Component.component_type c) t) cs
     then Some (VList (map (fun c => VDict (component_entry c))
                           (of_type t cs)))
     else None)
  /\ Py.dict_keys document
     = fold_left add_key (map Component.component_type cs) seeded_sections
  /\ (forall t before c, In t seeded_sections ->
        of_type t cs = (before ++ [c])%list ->
        Py.dict_get t document = Some (VDict (component_entry c)))
  /\ (forall t, In t seeded_sections -> of_type t cs = [] ->
        Py.dict_get t document
        = Py.dict_get t (seed_config device_name platform board)).
Proof.
  cbv zeta. split; [|split; [|split]].
  - intros t Hnot. rewrite generated_section.
    rewrite (unseeded_section_absent _ _ _ _ Hnot).
    now rewrite place_all_list.
  - unfold generate_esphome_config.
    destruct (group_components_spec cs) as [_ Hkeys].
    rewrite add_groups_keys, Hkeys.
    apply (add_keys_add_keys _ [] _).
  - intros t before c Hin Hlast. rewrite generated_section.
    destruct (existsb _ cs) eqn:Ex.
    + destruct (seeded_section_is_dict device_name platform board t Hin)
        as [d Hd].
      rewrite Hd, Hlast. now rewrite place_all_last.
    + rewrite (of_type_none _ _ Ex) in Hlast. now destruct before.
  - intros t Hin Hnone. rewrite generated_section.
    destruct (existsb _ cs) eqn:Ex; [|reflexivity].
    now apply of_type_some in Ex.
Qed.

(** C9, as the code has it.  [_generate_component_config] never returns
    [None]: the entry it returns is a non-empty dict with an ['id'] key.  So
    no component is skipped, and the list under a type that is not a seeded
    section has exactly one element per input component of that type. *)
Theorem component_config_never_empty :
  (forall c,
     _generate_component_config c = Some (component_entry c)
     /\ component_entry c <> []
     /\ Py.dict_mem "id" (component_entry c) = true)
  /\ (forall cs device_name platform board t,
        ~ In t seeded_sections ->
        In t (map Component.component_type cs) ->
        exists l,
          Py.dict_get t (generate_esphome_config cs device_name platform board)
          = Some (VList l)
          /\ List.length l = List.length (of_type t cs)
          /\ Forall2 (fun e c => e = VDict (component_entry c))
                     l (of_type t cs)).
Proof.
  split.
  - intros c. split; [apply generate_component_config_some|].
    split; [apply component_entry_nonempty | apply component_entry_has_id].
  - intros cs device_name platform board t Hnot Hin.
    exists (map (fun c => VDict (component_entry c)) (of_type t cs)).
    rewrite generated_section, (unseeded_section_absent _ _ _ _ Hnot).
    assert (Hex : existsb (fun c => String.eqb (Component.component_type c) t)
                    cs = true).
    { apply existsb_exists. apply in_map_iff in Hin as [c [Ht Hc]].
      exists c. split; [exact Hc | now apply String.eqb_eq]. }
    rewrite Hex, place_all_list, length_map. repeat split.
    induction (of_type t cs); simpl; constructor; auto.
Qed.

End Document.

Lemma generated_document_sections_witness :
  Py.dict_get "api"
    (YAMLGenerator.generate_esphome_config
       [Examples.api_native; Examples.api_web] "dev" "ESP32" "board")
  = Some (VDict (YAMLGenerator.component_entry Examples.api_web)).
Proof.
  destruct (generated_document_sections
              [Examples.api_native; Examples.api_web] "dev" "ESP32" "board")
    as [_ [_ [Hseeded _]]].
  apply (Hseeded "api" [Examples.api_native] Examples.api_web);
    [simpl; tauto | reflexivity].
Defined.

(** C4 as stated fails on two components of type [api]: the section holds
    the entry of the second, and the entry of the first is nowhere in the
    generated document. *)
Lemma seeded_section_keeps_last_only :
  let document :=
    YAMLGenerator.generate_esphome_config
      [Examples.api_native; Examples.api_web] "dev" "ESP32" "board" in
  Py.dict_get "api" document
  = Some (VDict [("platform", VStr "web"); ("id", VStr "web_22222222")])
  /\ Py.dict_get "api" document
     <> Some (VDict (YAMLGenerator.component_entry Examples.api_native))
  /\ (forall k, Py.dict_get k document
               <> Some (VDict (YAMLGenerator.component_entry
                                 Examples.api_native))).
Proof.
  cbv zeta. split; [reflexivity|]. split; [vm_compute; discriminate|].
  intros k.
  assert (Hdoc : YAMLGenerator.generate_esphome_config
                   [Examples.api_native; Examples.api_web] "dev" "ESP32" "board"
                 = Py.dict_set "api"
                     (VDict (YAMLGenerator.component_entry Examples.api_web))
                     (YAMLGenerator.seed_config "dev" "ESP32" "board"))
    by reflexivity.
  rewrite Hdoc, dict_get_set.
  destruct (String.eqb k "api"); [vm_compute; discriminate|].
  simpl.
  repeat match goal with
         | |- context [String.eqb k ?s] => destruct (String.eqb k s)
         end; vm_compute; discriminate.
Qed.

Lemma component_config_never_empty_witness :
  exists l,
    Py.dict_get "sensor"
      (YAMLGenerator.generate_esphome_config [Examples.dotted_sensor]
         "dev" "ESP32" "board") = Some (VList l)
    /\ List.length l = 1%nat.
Proof.
  destruct component_config_never_empty as [_ Hlist].
  destruct (Hlist [Examples.dotted_sensor] "dev" "ESP32" "board" "sensor")
    as [l [Hget [Hlen _]]].
  - simpl. intuition discriminate.
  - simpl. tauto.
  - exists l. split; [exact Hget | exact Hlen].
Defined.

(** C9 as stated fails on two components of type [logger]: both pass the
    test on their entry, yet the generated document has no list element at
    all, and its [logger] section is the entry of the second alone. *)
Lemma seeded_type_yields_no_list_entry :
  let cs := [Examples.logger_uart; Examples.logger_usb] in
  let document :=
    YAMLGenerator.generate_esphome_config cs "dev" "ESP32" "board" in
  Spec.list_entries document = []
  /\ List.length (Spec.list_entries document) <> List.length cs
  /\ Py.dict_get "logger" document
     = Some (VDict (YAMLGenerator.component_entry Examples.logger_usb)).
Proof.
  cbv zeta. repeat split; try reflexivity. vm_compute. discriminate.
Qed.

(* ===================================================================== *)
(** * Properties of _deep_merge *)
(* ===================================================================== *)

Section DeepMerge.
Import YAMLGenerator.

(** The recursive call on two mappings is [_deep_merge] itself. *)
Lemma merge_value_dicts (base_dict merge_dict : pydict) :
  merge_value (VDict base_dict) (VDict merge_dict)
  = VDict (_deep_merge base_dict merge_dict).
Proof.
  unfold _deep_merge. simpl. f_equal.
  revert base_dict. induction merge_dict as [|[key v] rest IH];
    intros base_dict; simpl; [reflexivity|].
  now rewrite IH.
Qed.

(** [_deep_merge], unfolded once, reads as the loop of the source. *)
Lemma deep_merge_cons (base_dict rest : pydict) (key : string) (v : value) :
  _deep_merge base_dict ((key, v) :: rest)
  = _deep_merge
      (match Py.dict_get key base_dict with
       | Some (VDict d) =>
           match v with
           | VDict d' => Py.dict_set key (VDict (_deep_merge d d')) base_dict
           | _ => Py.dict_set key v base_dict
           end
       | Some (VList l) =>
           match v with
           | VList l' => Py.dict_set key (VList (l ++ l')) base_dict
           | _ => Py.dict_set key v base_dict
           end
       | _ => Py.dict_set key v base_dict
       end) rest.
Proof.
  unfold _deep_merge at 1 2. simpl. f_equal.
  destruct (Py.dict_get key base_dict) as [old|]; [|reflexivity].
  destruct old, v; try reflexivity.
  now rewrite merge_value_dicts.
Qed.




End DeepMerge.


(* ===================================================================== *)
(** * Properties of the extraction of configuration variables *)
(* ===================================================================== *)

Section Extraction.
Context {B : Builtins}.
Import Scraper.

(** A guarded append keeps what is there and adds only new names. *)
Lemma append_if_new_all (vars config_vars : list ConfigVariable.t) :
  exists extra,
    fold_left append_if_new vars config_vars = (config_vars ++ extra)%list
    /\ forall var, In var extra ->
         In var vars
         /\ has_name config_vars (ConfigVariable.name var) = false.
Proof.
  revert config_vars. induction vars as [|var vars IH]; intros config_vars.
  - exists []. split; [now rewrite app_nil_r | intros ? []].
  - simpl. unfold append_if_new at 2.
    destruct (has_name config_vars (ConfigVariable.name var)) eqn:E; simpl.
    + destruct (IH config_vars) as [extra [Heq Hnew]].
      exists extra. split; [exact Heq|].
      intros v Hv. destruct (Hnew v Hv). auto.
    + destruct (IH (config_vars ++ [var])%list) as [extra [Heq Hnew]].
      exists (var :: extra). rewrite Heq, <- app_assoc. split; [reflexivity|].
      intros v [<- | Hv]; [auto|].
      destruct (Hnew v Hv) as [Hin Hno]. split; [auto|].
      unfold has_name in *. rewrite existsb_app in Hno.
      now apply orb_false_iff in Hno.
Qed.

(** The variables of the tables and definition lists come first and are all
    kept; a code block contributes only names that are not there yet. *)
Lemma markup_variables_come_first (page : soup) :
  exists extra,
    _parse_config_variables page
    = (flat_map section_vars (config_sections page) ++ extra)%list
    /\ forall var, In var extra ->
         has_name (flat_map section_vars (config_sections page))
                  (ConfigVariable.name var) = false.
Proof.
  unfold _parse_config_variables.
  generalize (flat_map section_vars (config_sections page)) as found.
  induction (code_blocks page) as [|block blocks IH]; intros found; simpl.
  - exists []. split; [now rewrite app_nil_r | intros ? []].
  - destruct (append_if_new_all (_extract_vars_from_yaml block) found)
      as [extra [Heq Hnew]].
    rewrite Heq. destruct (IH (found ++ extra)%list) as [extra' [Heq' Hnew']].
    exists (extra ++ extra')%list. rewrite Heq', <- app_assoc.
    split; [reflexivity|].
    intros var Hvar. apply in_app_or in Hvar as [Hvar | Hvar].
    + now apply Hnew.
    + specialize (Hnew' var Hvar). unfold has_name in *.
      rewrite existsb_app in Hnew'. now apply orb_false_iff in Hnew'.
Qed.

(** The same holds of the variables the scraped component gets: the text
    pass, too, only adds names that are not there yet. *)
Lemma markup_variables_kept_in_component (page : soup)
    (clean_content : option string) :
  exists extra,
    scraped_config_vars page clean_content
    = (flat_map section_vars (config_sections page) ++ extra)%list
    /\ forall var, In var extra ->
         has_name (flat_map section_vars (config_sections page))
                  (ConfigVariable.name var) = false.
Proof.
  destruct (markup_variables_come_first page) as [extra [Heq Hnew]].
  assert (Hsame : exists extra,
            _parse_config_variables page
            = (flat_map section_vars (config_sections page) ++ extra)%list
            /\ forall var, In var extra ->
                 has_name (flat_map section_vars (config_sections page))
                          (ConfigVariable.name var) = false)
    by (exists extra; auto).
  unfold scraped_config_vars.
  destruct clean_content as [[|c content]|]; try exact Hsame.
  destruct (append_if_new_all
              (_parse_config_variables_from_content (String c content))
              (_parse_config_variables page)) as [extra' [Heq' Hnew']].
  exists (extra ++ extra')%list. rewrite Heq', Heq, <- app_assoc.
  split; [reflexivity|].
  intros var Hvar. apply in_app_or in Hvar as [Hvar | Hvar].
  - now apply Hnew.
  - destruct (Hnew' var Hvar) as [_ Hno]. rewrite Heq in Hno.
    unfold has_name in *. rewrite existsb_app in Hno.
    now apply orb_false_iff in Hno.
Qed.

(** C2 at a failing input.  On [Examples.pin_page] the table rows both named
    [pin] are both appended, so the variables of the scraped component hold
    the name twice; the [pin] of the code block is the only one left out. *)
Theorem parse_config_variables_keeps_duplicate_rows :
  _parse_config_variables Examples.pin_page
  = [ ConfigVariable.init "pin" "The pin the sensor is wired to" "int" true
        VNone;
      ConfigVariable.init "pin" "See above" "string" false VNone ]
  /\ scraped_config_vars Examples.pin_page None
     = _parse_config_variables Examples.pin_page
  /\ map ConfigVariable.name (_parse_config_variables Examples.pin_page)
     = ["pin"; "pin"]
  /\ ~ NoDup (map ConfigVariable.name
                (_parse_config_variables Examples.pin_page)).
Proof.
  assert (Heq : _parse_config_variables Examples.pin_page
                = [ ConfigVariable.init "pin" "The pin the sensor is wired to"
                      "int" true VNone;
                    ConfigVariable.init "pin" "See above" "string" false
                      VNone ]) by reflexivity.
  split; [exact Heq|]. split; [reflexivity|]. rewrite Heq.
  split; [reflexivity|].
  simpl. intros Hnd. inversion Hnd as [|? ? Hnotin _]. apply Hnotin. now left.
Qed.

End Extraction.

(* ===================================================================== *)
(** * Properties of the crawl loop *)
(* ===================================================================== *)

Section CrawlLoop.
Import Crawl.

(** Field by field, what the primitive steps do to the state. *)
Lemma record_fields (e : event) (st : state) :
  _is_canceled (record e st) = _is_canceled st
  /\ trace (record e st) = (trace st ++ [e])%list
  /\ database (record e st) = database st.
Proof. repeat split. Qed.

Lemma cancel_scraping_fields (st : state) :
  _is_canceled (cancel_scraping st) = true
  /\ trace (cancel_scraping st)
     = (trace st ++ [Emit (log_message "Scraping cancellation requested.")])%list
  /\ database (cancel_scraping st) = database st.
Proof. repeat split. Qed.

Lemma handle_page_fields (name : string) (r : reply) (st : state) :
  _is_canceled (handle_page name r st) = _is_canceled st
  /\ trace (handle_page name r st)
     = (trace st
        ++ match page r with
           | inl c => if saved r then [Emit (component_found name c)] else []
           | inr logged => [Emit (log_message logged)]
           end)%list
  /\ database (handle_page name r st)
     = match page r, saved r with
       | inl c, true => save_component c (database st)
       | _, _ => database st
       end.
Proof.
  unfold handle_page.
  destruct (page r) as [c | logged]; [destruct (saved r)|];
    repeat split; cbn [trace]; now rewrite ?app_nil_r.
Qed.

(** What one turn of the loop adds to what an observer sees. *)
Lemma iteration_spec (r : reply) (total i : Z) (name url : string)
    (st : state) :
  let st' := iteration r total i (name, url) st in
  _is_canceled st' = _is_canceled st || cancel_requested r
  /\ pages_scraped (trace st') = (pages_scraped (trace st) ++ [url])%list
  /\ reported (trace st')
     = (reported (trace st)
        ++ match page r, saved r with
           | inl c, true => [(name, c)]
           | _, _ => []
           end)%list
  /\ database st'
     = match page r, saved r with
       | inl c, true => save_component c (database st)
       | _, _ => database st
       end
  /\ existsb is_finished (trace st') = existsb is_finished (trace st)
  /\ existsb is_error (trace st') = existsb is_error (trace st).
Proof.
  cbv zeta. unfold iteration, emit.
  generalize ("Scraping " ++ name ++ "...") as label.
  generalize ("Scraping component " ++ PyStr.of_Z (i + 1) ++ "/"
              ++ PyStr.of_Z total ++ ": " ++ name) as status.
  intros status label.
  set (st1 := record (Emit (progress_update (i + 1) total label)) st).
  set (st2 := record (Emit (status_update status)) st1).
  set (st3 := record (ScrapePage url) st2).
  set (st4 := handle_page name r st3).
  set (st5 := if i <? total - 1 then record Sleep st4 else st4).
  destruct (record_fields (Emit (progress_update (i + 1) total label)) st)
    as [Hc1 [Ht1 Hd1]].
  destruct (record_fields (Emit (status_update status)) st1)
    as [Hc2 [Ht2 Hd2]].
  destruct (record_fields (ScrapePage url) st2) as [Hc3 [Ht3 Hd3]].
  destruct (handle_page_fields name r st3) as [Hc4 [Ht4 Hd4]].
  fold st1 in Hc1, Ht1, Hd1. fold st2 in Hc2, Ht2, Hd2.
  fold st3 in Hc3, Ht3, Hd3. fold st4 in Hc4, Ht4, Hd4.
  assert (H5 : _is_canceled st5 = _is_canceled st4
               /\ database st5 = database st4
               /\ exists sleeps,
                    trace st5 = (trace st4 ++ sleeps)%list
                    /\ (sleeps = [] \/ sleeps = [Sleep])).
  { unfold st5. destruct (i <? total - 1).
    - destruct (record_fields Sleep st4) as [Hc [Ht Hd]].
      repeat split; auto. exists [Sleep]. auto.
    - repeat split. exists []. now rewrite app_nil_r; auto. }
  destruct H5 as [Hc5 [Hd5 [sleeps [Ht5 Hsleeps]]]].
  assert (H6 : exists tail,
            trace (if cancel_requested r then cancel_scraping st5 else st5)
            = (trace st5 ++ tail)%list
            /\ pages_scraped tail = [] /\ reported tail = []
            /\ existsb is_finished tail = false
            /\ existsb is_error tail = false).
  { destruct (cancel_requested r).
    - destruct (cancel_scraping_fields st5) as [_ [Ht _]].
      eexists. split; [exact Ht|]. repeat split.
    - exists []. rewrite app_nil_r. repeat split. }
  destruct H6 as [tail [Ht6 [Hp6 [Hr6 [Hf6 He6]]]]].
  assert (Hc6 : _is_canceled
                  (if cancel_requested r then cancel_scraping st5 else st5)
                = _is_canceled st || cancel_requested r).
  { destruct (cancel_requested r).
    - now rewrite orb_true_r.
    - now rewrite orb_false_r, Hc5, Hc4, Hc3, Hc2, Hc1. }
  assert (Hd6 : database
                  (if cancel_requested r then cancel_scraping st5 else st5)
                = database st5)
    by (now destruct (cancel_requested r)).
  rewrite Hc6, Hd6, Hd5, Hd4, Hd3, Hd2, Hd1.
  rewrite Ht6, Ht5, Ht4, Ht3, Ht2, Ht1.
  unfold pages_scraped, reported in *.
  rewrite !flat_map_app, !existsb_app, Hp6, Hr6, Hf6, He6.
  assert (Hs : flat_map (fun e => match e with ScrapePage u => [u] | _ => [] end)
                 sleeps = []
               /\ flat_map (fun e => match e with
                                     | Emit (component_found n c) => [(n, c)]
                                     | _ => []
                                     end) sleeps = []
               /\ existsb is_finished sleeps = false
               /\ existsb is_error sleeps = false)
    by (destruct Hsleeps as [-> | ->]; repeat split).
  destruct Hs as [Hs1 [Hs2 [Hs3 Hs4]]]. rewrite Hs1, Hs2, Hs3, Hs4.
  cbn [flat_map existsb is_finished is_error app orb].
  rewrite !app_nil_r, !orb_false_r.
  split; [reflexivity|]. split.
  { destruct (page r) as [c | logged]; [destruct (saved r)|];
      cbn [flat_map app]; now rewrite ?app_nil_r. }
  split.
  { destruct (page r) as [c | logged]; [destruct (saved r)|];
      cbn [flat_map app]; now rewrite ?app_nil_r. }
  split; [reflexivity|].
  split; destruct (page r) as [c | logged]; try destruct (saved r);
    cbn [existsb is_finished is_error orb]; now rewrite ?orb_false_r.
Qed.

(** Once the flag is set the loop fetches nothing more. *)
Lemma scrape_loop_canceled (w : world) (total : Z) (i : nat)
    (links : list link) (st : state) :
  _is_canceled st = true ->
  let st' := scrape_loop w total i links st in
  _is_canceled st' = true
  /\ pages_scraped (trace st') = pages_scraped (trace st)
  /\ reported (trace st') = reported (trace st)
  /\ database st' = database st
  /\ existsb is_finished (trace st') = existsb is_finished (trace st)
  /\ existsb is_error (trace st') = existsb is_error (trace st).
Proof.
  intros Hc. destruct links as [|l rest]; simpl; [now rewrite Hc|].
  rewrite Hc. unfold emit, record, pages_scraped, reported. simpl.
  rewrite !flat_map_app, !existsb_app. simpl.
  now rewrite !app_nil_r, !orb_false_r.
Qed.

(** The loop when the first request to cancel comes during turn [i + k]. *)
Lemma scrape_loop_first_cancel (w : world) (total : Z) (links : list link) :
  forall (i k : nat) (st : state),
  _is_canceled st = false ->
  (k < List.length links)%nat ->
  (forall j, (j < k)%nat -> cancel_requested (replies w (i + j)) = false) ->
  cancel_requested (replies w (i + k)) = true ->
  let st' := scrape_loop w total i links st in
  let done := firstn (S k) links in
  _is_canceled st' = true
  /\ pages_scraped (trace st')
     = (pages_scraped (trace st) ++ map snd done)%list
  /\ reported (trace st') = (reported (trace st) ++ extracted w i done)%list
  /\ database st' = save_all (extracted w i done) (database st)
  /\ existsb is_finished (trace st') = existsb is_finished (trace st)
  /\ existsb is_error (trace st') = existsb is_error (trace st).
Proof.
  induction links as [|[name url] rest IH]; intros i k st Hclear Hk Hbefore Hat;
    [simpl in Hk; lia|].
  cbn [scrape_loop]. rewrite Hclear.
  destruct (iteration_spec (replies w i) total (Z.of_nat i) name url st)
    as [Hflag [Hpages [Hrep [Hdb [Hfin Herr]]]]].
  set (st1 := iteration (replies w i) total (Z.of_nat i) (name, url) st) in *.
  rewrite Hclear in Hflag. simpl in Hflag.
  assert (Hext : forall tail,
            extracted w i ((name, url) :: tail)
            = (match page (replies w i), saved (replies w i) with
               | inl c, true => [(name, c)]
               | _, _ => []
               end ++ extracted w (S i) tail)%list).
  { intros tail. simpl.
    destruct (page (replies w i)); destruct (saved (replies w i));
      reflexivity. }
  assert (Hsave : forall tail,
            save_all (extracted w i ((name, url) :: tail)) (database st)
            = save_all (extracted w (S i) tail) (database st1)).
  { intros tail. rewrite Hext, Hdb. unfold save_all. rewrite fold_left_app.
    destruct (page (replies w i)); destruct (saved (replies w i));
      reflexivity. }
  destruct k as [|k].
  - rewrite Nat.add_0_r in Hat. rewrite Hat in Hflag.
    destruct (scrape_loop_canceled w total (S i) rest st1 Hflag)
      as [Hc' [Hp' [Hr' [Hd' [Hf' He']]]]].
    cbv zeta. rewrite Hc', Hp', Hr', Hd', Hf', He'.
    change (firstn 1 ((name, url) :: rest)) with [(name, url)].
    rewrite Hpages, Hrep, Hfin, Herr, Hsave, Hext. simpl.
    rewrite app_nil_r. repeat split; reflexivity.
  - assert (Hnot : cancel_requested (replies w i) = false).
    { specialize (Hbefore 0%nat). rewrite Nat.add_0_r in Hbefore.
      apply Hbefore. lia. }
    rewrite Hnot in Hflag.
    destruct (IH (S i) k st1 Hflag) as [Hc' [Hp' [Hr' [Hd' [Hf' He']]]]].
    + simpl in Hk. lia.
    + intros j Hj. replace (S i + j)%nat with (i + S j)%nat by lia.
      apply Hbefore. lia.
    + now replace (S i + k)%nat with (i + S k)%nat by lia.
    + cbv zeta. rewrite Hc', Hp', Hr', Hd', Hf', He'.
      change (firstn (S (S k)) ((name, url) :: rest))
        with ((name, url) :: firstn (S k) rest).
      rewrite Hpages, Hrep, Hfin, Herr, Hsave, Hext. simpl map.
      rewrite <- !app_assoc. repeat split; reflexivity.
Qed.

Lemma save_all_keeps (found : list (string * Component.t)) (k : string) :
  forall db, Py.dict_mem k db = true ->
             Py.dict_mem k (save_all found db) = true.
Proof.
  unfold save_all. induction found as [|[n c] found IH]; intros db Hmem;
    simpl; [exact Hmem|].
  apply IH. unfold save_component, Py.dict_mem in *. rewrite dict_get_set.
  now destruct (String.eqb k (Database._generate_component_key c)).
Qed.

Lemma save_all_saved (found : list (string * Component.t))
    (name : string) (c : Component.t) :
  In (name, c) found ->
  forall db,
    Py.dict_mem (Database._generate_component_key c) (save_all found db)
    = true.
Proof.
  induction found as [|[n' c'] found IH]; intros Hin db; [destruct Hin|].
  destruct Hin as [Heq | Hin]; [|now apply IH].
  inversion Heq; subst. apply (save_all_keeps found).
  unfold save_component, Py.dict_mem. now rewrite dict_get_set_eq.
Qed.

(** C8.  When the user first asks to cancel during turn [k] of the loop, the
    run scrapes the pages of the first [k + 1] links and no page after
    them, reports through [component_found] exactly the components that
    were extracted and saved in those turns, has them in the store, and ends
    without reporting completion or an error.  For five links, all
    extracted and saved, and a request during the second turn: two pages
    scraped, two components reported. *)
Theorem cancellation_keeps_work_done (w : world) (max_components : Z)
    (db : list (string * Component.t)) (links : list link) (k : nat) :
  component_links w max_components = Some links ->
  cancel_during_setup w = false ->
  (k < List.length links)%nat ->
  (forall j, (j < k)%nat -> cancel_requested (replies w j) = false) ->
  cancel_requested (replies w k) = true ->
  let final := run_scraping w max_components (init db) in
  let done := firstn (S k) links in
  pages_scraped (trace final) = map snd done
  /\ reported (trace final) = extracted w 0 done
  /\ database final = save_all (extracted w 0 done) db
  /\ (forall name c, In (name, c) (reported (trace final)) ->
        Py.dict_mem (Database._generate_component_key c) (database final)
        = true)
  /\ existsb is_finished (trace final) = false
  /\ final_state (trace final) = Canceled
  /\ (List.length links = 5%nat -> k = 1%nat ->
      (forall j, (j <= 1)%nat ->
         exists c, page (replies w j) = inl c /\ saved (replies w j) = true) ->
      List.length (pages_scraped (trace final)) = 2%nat
      /\ List.length (reported (trace final)) = 2%nat).
Proof.
  intros Hlinks Hsetup Hk Hbefore Hat.
  assert (Hrun :
    forall final, final = run_scraping w max_components (init db) ->
      _is_canceled final = true
      /\ pages_scraped (trace final) = map snd (firstn (S k) links)
      /\ reported (trace final) = extracted w 0 (firstn (S k) links)
      /\ database final = save_all (extracted w 0 (firstn (S k) links)) db
      /\ existsb is_finished (trace final) = false
      /\ existsb is_error (trace final) = false).
  { intros final ->. unfold run_scraping, component_links in *.
    destruct (listing w) as [[found fallback] | logged]; [|discriminate].
    rewrite Hsetup.
    destruct (match found with [] => fallback | _ :: _ => found end)
      as [|l chosen] eqn:Hchosen; [discriminate|].
    injection Hlinks as Hlinks. rewrite Hlinks.
    match goal with
    | |- context [scrape_loop w ?total 0 links ?st] =>
        destruct (scrape_loop_first_cancel w total links 0 k st
                    eq_refl Hk Hbefore Hat)
          as [Hc [Hp [Hr [Hd [Hf He]]]]];
        rewrite Hc; simpl negb; cbv iota;
        rewrite Hc, Hp, Hr, Hd, Hf, He
    end.
    repeat split. }
  cbv zeta.
  destruct (Hrun _ eq_refl) as [Hc [Hp [Hr [Hd [Hf He]]]]].
  split; [exact Hp|]. split; [exact Hr|]. split; [exact Hd|].
  split; [|split; [exact Hf|split]].
  - intros name c Hin. rewrite Hd. rewrite Hr in Hin.
    now apply (save_all_saved _ name).
  - unfold final_state. now rewrite Hf, He.
  - intros Hfive -> Hgood. rewrite Hp, Hr.
    destruct links as [|[n0 u0] [|[n1 u1] rest]]; simpl in Hfive;
      try discriminate.
    split; [reflexivity|].
    destruct (Hgood 0%nat) as [c0 [Hp0 Hs0]]; [lia|].
    destruct (Hgood 1%nat) as [c1 [Hp1 Hs1]]; [lia|].
    simpl. now rewrite Hp0, Hs0, Hp1, Hs1.
Qed.

End CrawlLoop.

Lemma cancellation_keeps_work_done_witness :
  let final := Crawl.run_scraping Examples.cancel_after_second 100
                 (Crawl.init []) in
  Crawl.final_state (Crawl.trace final) = Crawl.Canceled
  /\ Crawl.pages_scraped (Crawl.trace final)
     = [ "https://esphome.io/components/sensor/dht.html";
         "https://esphome.io/components/switch/gpio.html" ]
  /\ List.length (Crawl.reported (Crawl.trace final)) = 2%nat.
Proof.
  destruct (cancellation_keeps_work_done Examples.cancel_after_second 100 []
              Examples.five_links 1)
    as [Hp [_ [_ [_ [_ [Hstate Hfive]]]]]];
    [reflexivity | reflexivity | simpl; lia
     | intros [|j] Hj; [reflexivity | lia] | reflexivity |].
  cbv zeta. split; [exact Hstate|]. split; [exact Hp|].
  apply Hfive; [reflexivity | reflexivity |].
  intros j Hj. exists Examples.dotted_sensor. split; reflexivity.
Defined.

(* ===================================================================== *)
(** * Further properties of ConfigVariable *)
(* ===================================================================== *)

Section SetValueMore.
Context {B : Builtins}.
Import ConfigVariable.

(** What a successful [set_value] stores. *)
Lemma set_value_success (self : t) (v : value) :
  fst (set_value self v) = true ->
  exists v', set_value self v = (true, with_current self v')
             /\ (v = VNone -> v' = VNone)
             /\ (v <> VNone -> coerce self v = Next v').
Proof.
  unfold set_value. intros H.
  destruct (Py.is_none v) eqn:Hn; simpl in *.
  - apply is_none_true in Hn. subst v.
    destruct (is_required self); [discriminate|].
    exists VNone. repeat split; congruence.
  - apply is_none_false in Hn.
    destruct (coerce self v) as [v'| |]; try discriminate.
    exists v'. repeat split; congruence.
Qed.

(** X1.  A successful [set_value] leaves a [current_value] of the declared
    kind: an [int] for ['int'], an [int] or [float] for ['float'], a [bool]
    for ['bool'], and for any other [data_type] the value as it was given;
    [None] is stored as [None]; no other field of the variable changes. *)
Theorem set_value_stores_declared_kind (self : t) (v : value) :
  fst (set_value self v) = true ->
  let after := snd (set_value self v) in
  (v = VNone -> current_value after = VNone)
  /\ (v <> VNone -> current_value after <> VNone)
  /\ (v <> VNone -> data_type self = "int" ->
      Py.isinstance_int (current_value after) = true)
  /\ (v <> VNone -> data_type self = "float" ->
      Py.isinstance_int_float (current_value after) = true)
  /\ (v <> VNone -> data_type self = "bool" ->
      Py.isinstance_bool (current_value after) = true)
  /\ (data_type self <> "int" -> data_type self <> "float" ->
      data_type self <> "bool" -> current_value after = v)
  /\ after = with_current self (current_value after).
Proof.
  intros Hok. destruct (set_value_success self v Hok) as [v' [Heq [Hnone Hco]]].
  cbv zeta. rewrite Heq. simpl.
  split; [exact Hnone|].
  assert (Hkind : v <> VNone ->
            v' <> VNone
            /\ (data_type self = "int" -> Py.isinstance_int v' = true)
            /\ (data_type self = "float" ->
                Py.isinstance_int_float v' = true)
            /\ (data_type self = "bool" -> Py.isinstance_bool v' = true)).
  { intros Hv. specialize (Hco Hv). unfold coerce in Hco.
    destruct (String.eqb (data_type self) "int") eqn:Ei.
    - apply String.eqb_eq in Ei. simpl in Hco.
      destruct (Py.isinstance_int v) eqn:Hinst; simpl in Hco.
      + rewrite Ei in Hco. simpl in Hco. injection Hco as <-.
        rewrite Ei. repeat split; try discriminate; auto.
      + destruct (Py.int v) as [z | e]; [|destruct e; discriminate].
        injection Hco as <-. rewrite Ei.
        repeat split; try discriminate; auto.
    - apply String.eqb_neq in Ei. simpl in Hco.
      destruct (String.eqb (data_type self) "float") eqn:Ef.
      + apply String.eqb_eq in Ef. simpl in Hco.
        destruct (Py.isinstance_int_float v) eqn:Hinst; simpl in Hco.
        * rewrite Ef in Hco. simpl in Hco. injection Hco as <-.
          rewrite Ef. repeat split; try discriminate; auto.
        * destruct (Py.float v) as [f | e]; [|destruct e; discriminate].
          injection Hco as <-. rewrite Ef.
          repeat split; try discriminate; auto.
      + apply String.eqb_neq in Ef. simpl in Hco.
        destruct (String.eqb (data_type self) "bool") eqn:Eb.
        * apply String.eqb_eq in Eb. simpl in Hco.
          destruct (Py.isinstance_bool v) eqn:Hinst; simpl in Hco.
          -- injection Hco as <-. repeat split; try congruence.
          -- destruct v; simpl in Hinst; try discriminate;
               injection Hco as <-; repeat split; congruence.
        * apply String.eqb_neq in Eb. simpl in Hco. injection Hco as <-.
          repeat split; congruence. }
  split; [intros Hv; now apply Hkind|].
  split; [intros Hv; now apply Hkind|].
  split; [intros Hv; now apply Hkind|].
  split; [intros Hv; now apply Hkind|].
  split; [|reflexivity].
  intros Hi Hf Hb. destruct (Py.is_none v) eqn:Hn.
  - apply is_none_true in Hn. rewrite (Hnone Hn). congruence.
  - apply is_none_false in Hn. specialize (Hco Hn). unfold coerce in Hco.
    apply String.eqb_neq in Hi, Hf, Hb. rewrite Hi, Hf, Hb in Hco.
    simpl in Hco. congruence.
Qed.

(** X2.  After a successful [set_value] the variable [is_valid]; the
    effective value is the stored value when a value other than [None] was
    given, and the default again when [None] was given. *)
Theorem set_value_then_effective_value (self : t) (v : value) :
  fst (set_value self v) = true ->
  let after := snd (set_value self v) in
  (v <> VNone ->
   get_effective_value after = current_value after
   /\ is_valid after = true)
  /\ (v = VNone ->
      get_effective_value after = default_value self
      /\ is_required self = false
      /\ is_valid after = true).
Proof.
  intros Hok. destruct (set_value_success self v Hok) as [v' [Heq [Hnone Hco]]].
  cbv zeta. rewrite Heq. simpl. split.
  - intros Hv. specialize (Hco Hv).
    assert (Hv' : Py.is_none v' = false).
    { unfold coerce in Hco.
      destruct (String.eqb (data_type self) "int" && _).
      { destruct (Py.int v) as [z | e];
          [now injection Hco as <- | destruct e; discriminate]. }
      destruct (String.eqb (data_type self) "float" && _).
      { destruct (Py.float v) as [f | e];
          [now injection Hco as <- | destruct e; discriminate]. }
      destruct (String.eqb (data_type self) "bool" && _).
      { destruct v; now injection Hco as <-. }
      injection Hco as <-. now apply is_none_false. }
    unfold get_effective_value, is_valid, get_effective_value. simpl.
    rewrite Hv'. simpl. rewrite Hv'. now rewrite andb_false_r.
  - intros ->. rewrite (Hnone eq_refl).
    unfold set_value in Hok. simpl in Hok.
    destruct (is_required self) eqn:Hr; [discriminate|].
    unfold is_valid, get_effective_value. simpl. now rewrite Hr.
Qed.

End SetValueMore.

Lemma set_value_stores_declared_kind_witness :
  ConfigVariable.current_value
    (snd (@ConfigVariable.set_value Examples.digits_runtime
            (Examples.var "count" "int" false VNone VNone) (VStr "12")))
  <> VNone.
Proof.
  destruct (@set_value_stores_declared_kind Examples.digits_runtime
              (Examples.var "count" "int" false VNone VNone) (VStr "12")
              eq_refl) as [_ [Hset _]].
  apply Hset. discriminate.
Defined.

Lemma set_value_then_effective_value_witness :
  ConfigVariable.is_valid
    (snd (@ConfigVariable.set_value Examples.digits_runtime
            (Examples.var "count" "int" true VNone VNone) (VStr "12")))
  = true.
Proof.
  destruct (@set_value_then_effective_value Examples.digits_runtime
              (Examples.var "count" "int" true VNone VNone) (VStr "12")
              eq_refl) as [Hset _].
  apply Hset. discriminate.
Defined.

(* ===================================================================== *)
(** * Dictionaries of variables and components *)
(* ===================================================================== *)

Section RoundTrip.
Import Serial.

(** X3.  [ConfigVariable.from_dict] undoes [to_dict]; it fills a dict that
    only has a ['name'] with the defaults of the constructor; and it raises
    [KeyError] on a dict without ['name']. *)
Theorem var_from_dict_to_dict :
  (forall var, var_from_dict (var_to_dict var) = Loaded var)
  /\ (forall data name,
        Py.dict_get "name" data = Some (VStr name) ->
        Py.dict_get "description" data = None ->
        Py.dict_get "data_type" data = None ->
        Py.dict_get "is_required" data = None ->
        Py.dict_get "default_value" data = None ->
        Py.dict_get "current_value" data = None ->
        var_from_dict data
        = Loaded (ConfigVariable.init name EmptyString "string" false VNone))
  /\ (forall data, Py.dict_get "name" data = None ->
                   var_from_dict data = KeyError "name").
Proof.
  split; [|split].
  - intros [name description data_type is_required default current].
    reflexivity.
  - intros data name Hn Hd Ht Hr Hdef Hcur.
    unfold var_from_dict, str_item, str_get, bool_get, value_get.
    now rewrite Hn, Hd, Ht, Hr, Hdef, Hcur.
  - intros data Hn. unfold var_from_dict, str_item. now rewrite Hn.
Qed.

Lemma vars_from_dicts_to_dicts (vars : list ConfigVariable.t) :
  vars_from_dicts (map (fun var => VDict (var_to_dict var)) vars)
  = Loaded vars.
Proof.
  induction vars as [|var vars IH]; [reflexivity|].
  cbn [map vars_from_dicts].
  destruct var_from_dict_to_dict as [Hround _].
  now rewrite Hround, IH.
Qed.

Lemma strs_of_strs (key : string) (l : list string) :
  strs_of key (map VStr l) = Loaded l.
Proof.
  induction l as [|s l IH]; [reflexivity|].
  cbn [map strs_of]. now rewrite IH.
Qed.

Lemma from_dict_to_dict_any (fresh_id : string) (c : Component.t) :
  from_dict fresh_id (to_dict c) = Loaded c.
Proof.
  destruct c as [name ty description platforms vars url id x y w h].
  unfold from_dict, to_dict. cbn [Py.dict_get String.eqb Ascii.eqb Bool.eqb
    Component.name Component.component_type Component.description
    Component.platforms Component.config_vars Component.url
    Component.instance_id Component.x_position Component.y_position
    Component.width Component.height str_item str_get int_get].
  rewrite vars_from_dicts_to_dicts, strs_of_strs.
  destruct url; reflexivity.
Qed.

(** X4.  [ESPHomeComponent.from_dict] undoes [to_dict], whatever fresh id
    it is offered: the dict's own ['instance_id'] wins. *)
Theorem component_from_dict_to_dict (fresh_id : string) (c : Component.t) :
  from_dict fresh_id (to_dict c) = Loaded c.
Proof. apply from_dict_to_dict_any. Qed.

(** X5.  [clone] returns the component with every field and every
    variable, current values included, as they are, and only the
    [instance_id] replaced by the fresh one; so the id that
    [_generate_component_config] gives the clone by default has the name
    part of the original and the first 8 characters of the fresh id. *)
Theorem clone_changes_instance_id_only (fresh_id : string) (c : Component.t) :
  exists c',
    clone fresh_id c = Loaded c'
    /\ Component.instance_id c' = fresh_id
    /\ Component.name c' = Component.name c
    /\ Component.component_type c' = Component.component_type c
    /\ Component.description c' = Component.description c
    /\ Component.platforms c' = Component.platforms c
    /\ Component.config_vars c' = Component.config_vars c
    /\ Component.url c' = Component.url c
    /\ (Component.x_position c', Component.y_position c',
        Component.width c', Component.height c')
       = (Component.x_position c, Component.y_position c,
          Component.width c, Component.height c)
    /\ YAMLGenerator.default_id c'
       = (YAMLGenerator.safe_name c ++ "_" ++ PyStr.take 8 fresh_id)%string.
Proof.
  destruct c as [name ty description platforms vars url id x y w h].
  exists (Component.mk name ty description platforms vars url fresh_id
            x y w h).
  split; [|repeat split].
  unfold clone.
  change (Py.dict_set "instance_id" (VStr fresh_id)
            (to_dict (Component.mk name ty description platforms vars url id
                        x y w h)))
    with (to_dict (Component.mk name ty description platforms vars url
                     fresh_id x y w h)).
  apply from_dict_to_dict_any.
Qed.

End RoundTrip.

Lemma var_from_dict_to_dict_witness :
  Serial.var_from_dict [("name", VStr "pin")]
  = Serial.Loaded (ConfigVariable.init "pin" EmptyString "string" false VNone).
Proof.
  destruct var_from_dict_to_dict as [_ [Hdefaults _]].
  apply Hdefaults; reflexivity.
Defined.

(* ===================================================================== *)
(** * Properties of the operations of a component on its variables *)
(* ===================================================================== *)

Section ComponentValues.
Context {B : Builtins}.
Import ComponentOps.

Lemma find_first (vars before after : list ConfigVariable.t)
    (var : ConfigVariable.t) (var_name : string) :
  vars = (before ++ var :: after)%list ->
  ConfigVariable.name var = var_name ->
  (forall u, In u before -> ConfigVariable.name u <> var_name) ->
  find (fun u => String.eqb (ConfigVariable.name u) var_name) vars = Some var.
Proof.
  intros -> Hname Hbefore. induction before as [|u before IH]; simpl.
  - apply String.eqb_eq in Hname. now rewrite Hname.
  - assert (Hu : ConfigVariable.name u <> var_name)
      by (apply Hbefore; simpl; auto).
    apply String.eqb_neq in Hu. rewrite Hu.
    apply IH. intros; apply Hbefore; simpl; auto.
Qed.

Lemma set_first_at (before after : list ConfigVariable.t)
    (var : ConfigVariable.t) (var_name : string) (v : value) :
  ConfigVariable.name var = var_name ->
  (forall u, In u before -> ConfigVariable.name u <> var_name) ->
  set_first (before ++ var :: after) var_name v
  = (fst (ConfigVariable.set_value var v),
     (before ++ snd (ConfigVariable.set_value var v) :: after)%list).
Proof.
  intros Hname Hbefore. induction before as [|u before IH]; simpl.
  - apply String.eqb_eq in Hname. rewrite Hname.
    now destruct (ConfigVariable.set_value var v).
  - assert (Hu : ConfigVariable.name u <> var_name)
      by (apply Hbefore; simpl; auto).
    apply String.eqb_neq in Hu. rewrite Hu.
    rewrite IH by (intros; apply Hbefore; simpl; auto). reflexivity.
Qed.

Lemma set_first_failure (vars : list ConfigVariable.t) (var_name : string)
    (v : value) :
  fst (set_first vars var_name v) = false ->
  snd (set_first vars var_name v) = vars.
Proof.
  induction vars as [|var vars IH]; simpl; [reflexivity|].
  destruct (String.eqb (ConfigVariable.name var) var_name).
  - destruct (set_value_cases var v) as [[v' E] | E]; rewrite E; simpl;
      [discriminate | reflexivity].
  - destruct (set_first vars var_name v) as [ok rest]. simpl in *.
    intros Hok. now rewrite (IH Hok).
Qed.

Lemma with_config_vars_same (c : Component.t) :
  with_config_vars c (Component.config_vars c) = c.
Proof. now destruct c. Qed.

(** X6.  [set_config_value] acts on the first variable of the given name
    and on nothing else: the answer is that of its [set_value], the
    variables before and after it, later variables of the same name
    included, and the other fields of the component stay as they are. *)
Theorem set_config_value_sets_first (self : Component.t)
    (before after : list ConfigVariable.t) (var : ConfigVariable.t)
    (var_name : string) (v : value) :
  Component.config_vars self = (before ++ var :: after)%list ->
  ConfigVariable.name var = var_name ->
  (forall u, In u before -> ConfigVariable.name u <> var_name) ->
  set_config_value self var_name v
  = (fst (ConfigVariable.set_value var v),
     with_config_vars self
       (before ++ snd (ConfigVariable.set_value var v) :: after)).
Proof.
  intros Hvars Hname Hbefore. unfold set_config_value, Component.get_config_var.
  rewrite (find_first _ before after var var_name Hvars Hname Hbefore).
  rewrite Hvars, (set_first_at before after var var_name v Hname Hbefore).
  reflexivity.
Qed.

(** X7.  [set_config_value] returns [False] without changing the component
    when no variable has the given name, and whenever it returns [False]
    the component is exactly what it was. *)
Theorem set_config_value_failure_keeps_component (self : Component.t)
    (var_name : string) (v : value) :
  (Component.get_config_var self var_name = None ->
   set_config_value self var_name v = (false, self))
  /\ (fst (set_config_value self var_name v) = false ->
      snd (set_config_value self var_name v) = self).
Proof.
  unfold set_config_value. split.
  - now intros ->.
  - destruct (Component.get_config_var self var_name); [|reflexivity].
    pose proof (set_first_failure (Component.config_vars self) var_name v)
      as Hfail.
    destruct (set_first (Component.config_vars self) var_name v) as [ok vars].
    simpl in *. intros Hok. rewrite (Hfail Hok).
    apply with_config_vars_same.
Qed.

Lemma vars_errors_spec (vars : list ConfigVariable.t) (errors : list string) :
  vars_errors vars = Return errors ->
  forall var, In var vars ->
    exists errs, var_error var = Return errs
                 /\ forall e, In e errs -> In e errors.
Proof.
  revert errors. induction vars as [|u vars IH]; intros errors Hrun var Hin;
    [destruct Hin|].
  simpl in Hrun. destruct (var_error u) as [errs|] eqn:Hu; [|discriminate].
  destruct (vars_errors vars) as [errs'|] eqn:Hrest; [|discriminate].
  injection Hrun as <-. destruct Hin as [-> | Hin].
  - exists errs. split; [exact Hu|]. intros e He. apply in_or_app. now left.
  - destruct (IH errs' eq_refl var Hin) as [es [Hes Hsub]].
    exists es. split; [exact Hes|]. intros e He. apply in_or_app. right. auto.
Qed.

Lemma validate_pin_int_default (n : Z) :
  ConfigValidator.validate_by_type (VInt n) "pin" []
  = ConfigValidator.check_pin n (PyStr.of_Z n) (VStr "ESP32").
Proof. unfold ConfigValidator.validate_by_type. simpl. reflexivity. Qed.

Lemma check_pin_cases (n : Z) (shown platform : string) :
  ConfigValidator.check_pin n shown (VStr platform)
  = Return ConfigValidator.valid
  \/ exists msg, ConfigValidator.check_pin n shown (VStr platform)
                 = Return (false, Some msg).
Proof.
  unfold ConfigValidator.check_pin.
  destruct (negb (ConfigValidator.mem_int n
                    (ConfigValidator.valid_pins platform)));
    [right; eexists; reflexivity | now left].
Qed.

Lemma var_error_pin (var : ConfigVariable.t) (n : Z) :
  ConfigVariable.data_type var = "pin" ->
  ConfigVariable.get_effective_value var = VInt n ->
  var_error var = Return [] ->
  Spec.pin_allowed "ESP32" n.
Proof.
  intros Hty Hval Hes.
  apply (check_pin_valid n (PyStr.of_Z n) "ESP32").
  destruct (check_pin_cases n (PyStr.of_Z n) "ESP32") as [Hgood | [msg Hbad]];
    [exact Hgood|].
  exfalso. unfold var_error in Hes. rewrite Hval, Hty in Hes.
  rewrite validate_pin_int_default, Hbad in Hes.
  generalize dependent (ConfigVariable.name var). intros name Hes.
  destruct (ConfigVariable.is_required var); discriminate Hes.
Qed.

(** X8.  When [validate_component_config] returns, its errors include every
    error of [is_valid_configuration]; and when it returns [True] the
    component also passes [is_valid_configuration], and every variable of
    type ['pin'] whose effective value is an integer holds a pin of the
    ESP32 list, whatever platform the project is for: the validator is
    called without a context. *)
Theorem validate_component_config_is_stricter (c : Component.t)
    (ok : bool) (errors : list string) :
  validate_component_config c = Return (ok, errors) ->
  (forall e, In e (snd (is_valid_configuration c)) -> In e errors)
  /\ (ok = true ->
      is_valid_configuration c = (true, [])
      /\ forall var n,
           In var (Component.config_vars c) ->
           ConfigVariable.data_type var = "pin" ->
           ConfigVariable.get_effective_value var = VInt n ->
           Spec.pin_allowed "ESP32" n).
Proof.
  unfold validate_component_config.
  destruct (vars_errors (Component.config_vars c)) as [errs|] eqn:Hrun;
    [|discriminate].
  intros Heq. injection Heq as <- <-.
  pose proof (vars_errors_spec _ _ Hrun) as Hspec.
  assert (Hsub : forall e, In e (snd (is_valid_configuration c)) ->
                           In e errs).
  { intros e He. unfold is_valid_configuration in He. simpl in He.
    apply in_flat_map in He as [var [Hin He]].
    destruct (ConfigVariable.is_valid var) eqn:Hv; simpl in He;
      [destruct He|].
    destruct He as [<- | []].
    destruct (Hspec var Hin) as [es [Hes Hsub]]. apply Hsub.
    unfold var_error in Hes. unfold ConfigVariable.is_valid in Hv.
    apply negb_false_iff in Hv. rewrite Hv in Hes.
    injection Hes as <-. now left. }
  split; [exact Hsub|].
  intros Hok. destruct errs as [|e errs]; [|discriminate]. split.
  - unfold is_valid_configuration in *. simpl in Hsub.
    destruct (flat_map _ (Component.config_vars c)) as [|e l];
      [reflexivity|].
    destruct (Hsub e). now left.
  - intros var n Hin Hty Hval.
    destruct (Hspec var Hin) as [es [Hes Hnone]].
    assert (Hes' : es = []).
    { destruct es as [|e es]; [reflexivity|]. destruct (Hnone e). now left. }
    subst es. exact (var_error_pin var n Hty Hval Hes).
Qed.

End ComponentValues.

Lemma set_config_value_sets_first_witness :
  let self :=
    Examples.component "dht" "sensor" "0123abcd"
      [ Examples.var "name" "string" true VNone VNone;
        Examples.var "pin" "int" true VNone VNone;
        Examples.var "pin" "string" false VNone VNone ] in
  @ComponentOps.set_config_value Examples.digits_runtime self "pin" (VStr "4")
  = (true,
     Examples.component "dht" "sensor" "0123abcd"
       [ Examples.var "name" "string" true VNone VNone;
         Examples.var "pin" "int" true VNone (VInt 4);
         Examples.var "pin" "string" false VNone VNone ]).
Proof.
  apply (@set_config_value_sets_first Examples.digits_runtime
           (Examples.component "dht" "sensor" "0123abcd"
              [ Examples.var "name" "string" true VNone VNone;
                Examples.var "pin" "int" true VNone VNone;
                Examples.var "pin" "string" false VNone VNone ])
           [Examples.var "name" "string" true VNone VNone]
           [Examples.var "pin" "string" false VNone VNone]
           (Examples.var "pin" "int" true VNone VNone) "pin" (VStr "4"));
    [reflexivity | reflexivity |].
  intros u [<- | []]. discriminate.
Defined.

Lemma set_config_value_failure_keeps_component_witness :
  @ComponentOps.set_config_value Examples.digits_runtime
    Examples.dotted_sensor "pin" (VInt 4)
  = (false, Examples.dotted_sensor).
Proof.
  apply (@set_config_value_failure_keeps_component Examples.digits_runtime).
  reflexivity.
Defined.

Lemma validate_component_config_is_stricter_witness :
  Spec.pin_allowed "ESP32" 4.
Proof.
  destruct (@validate_component_config_is_stricter Examples.digits_runtime
              (Examples.component "dht" "sensor" "0123abcd"
                 [Examples.var "pin" "pin" true VNone (VInt 4)])
              true [] eq_refl) as [_ Hok].
  destruct (Hok eq_refl) as [_ Hpins].
  apply (Hpins (Examples.var "pin" "pin" true VNone (VInt 4)));
    [now left | reflexivity | reflexivity].
Defined.

(* ===================================================================== *)
(** * Further properties of the validators *)
(* ===================================================================== *)

Section ValidatorsMore.
Context {B : Builtins}.
Import ConfigValidator.


Lemma invalid_not_valid (msg : string) : invalid msg <> valid.
Proof. unfold invalid, valid. intros H. now inversion H. Qed.

(** X10.  As an integer, an I2C address is accepted exactly when it lies
    in 8..119 or in 128..255: out of 0..255 it is out of range, and
    0..7 and 120..127 are reserved. *)
Theorem validate_i2c_address_int (n : Z) :
  (validate_i2c_address (VInt n) = valid
   <-> 8 <= n <= 119 \/ 128 <= n <= 255)
  /\ (n < 0 \/ 255 < n ->
      validate_i2c_address (VInt n)
      = invalid "I2C address must be between 0x00 and 0xFF")
  /\ (0 <= n <= 7 \/ 120 <= n <= 127 ->
      validate_i2c_address (VInt n)
      = invalid ("Address 0x" ++ hex2 n ++ " is reserved")).
Proof.
  unfold validate_i2c_address, check_i2c.
  destruct ((0 <=? n) && (n <=? 255)) eqn:Hr; cbn [negb].
  - apply andb_true_iff in Hr as [H0 H255].
    apply Z.leb_le in H0, H255.
    destruct (mem_int n reserved_addresses) eqn:Hm.
    + apply mem_int_In in Hm. simpl in Hm.
      split; [split; [intros H; now apply invalid_not_valid in H | lia]|].
      split; [lia | reflexivity].
    + assert (Hn : ~ In n reserved_addresses)
        by (rewrite <- mem_int_In; congruence).
      simpl in Hn. split; [split; [lia | reflexivity]|].
      split; lia.
  - apply andb_false_iff in Hr.
    assert (Hout : n < 0 \/ 255 < n)
      by (destruct Hr as [Hr | Hr]; apply Z.leb_gt in Hr; lia).
    split; [split; [intros H; now apply invalid_not_valid in H | lia]|].
    split; [reflexivity | lia].
Qed.

Lemma verdict_eqb_eq (a b : verdict) :
  Spec.verdict_eqb a b = true -> a = b.
Proof.
  destruct a as [a1 [a2|]], b as [b1 [b2|]]; unfold Spec.verdict_eqb; simpl;
    intros H; apply andb_true_iff in H as [H1 H2];
    apply Bool.eqb_prop in H1; subst; try discriminate;
    [apply String.eqb_eq in H2; now subst | reflexivity].
Qed.

(** X11.  Written as [0x] and two upper-case hex digits, an address gets
    the answer it gets as an integer. *)
Theorem validate_i2c_address_hex_agrees (n : Z) :
  0 <= n <= 255 ->
  validate_i2c_address (VStr ("0x" ++ hex2 n)) = validate_i2c_address (VInt n).
Proof.
  intros Hn.
  assert (Hall : forallb (fun k => Spec.verdict_eqb
                            (validate_i2c_address (VStr ("0x" ++ hex2 k)))
                            (validate_i2c_address (VInt k)))
                         (range 256) = true) by (vm_compute; reflexivity).
  rewrite forallb_forall in Hall. apply verdict_eqb_eq, Hall.
  apply In_range. lia.
Qed.

(** X12.  The handler of [validate_by_type] for ['int'] catches
    [ValueError] and [TypeError] only: checked as ['int'], NaN is answered
    with an error message, but an infinite float makes the call raise
    [OverflowError]; [set_value] on an ['int'] variable catches that and
    returns [False]. *)
Theorem validate_by_type_int_of_infinity (negative : bool)
    (context : pydict) (self : ConfigVariable.t) :
  validate_by_type (VFloat (S754_infinity negative)) "int" context
  = Raise OverflowError
  /\ validate_by_type (VFloat S754_nan) "int" context
     = Return (invalid "Value must be an integer")
  /\ (ConfigVariable.data_type self = "int" ->
      ConfigVariable.set_value self (VFloat (S754_infinity negative))
      = (false, self)).
Proof.
  split; [reflexivity|]. split; [reflexivity|].
  intros Hty. unfold ConfigVariable.set_value, ConfigVariable.coerce.
  rewrite Hty. simpl. now destruct (ConfigVariable.is_required self).
Qed.

End ValidatorsMore.


Lemma validate_i2c_address_int_witness :
  ConfigValidator.validate_i2c_address (VInt 300)
  = ConfigValidator.invalid "I2C address must be between 0x00 and 0xFF".
Proof.
  destruct (validate_i2c_address_int 300) as [_ [Hout _]].
  apply Hout. lia.
Defined.

Lemma validate_i2c_address_hex_agrees_witness :
  ConfigValidator.validate_i2c_address (VStr "0x48")
  = ConfigValidator.validate_i2c_address (VInt 72).
Proof. apply (validate_i2c_address_hex_agrees 72). lia. Defined.

Lemma validate_by_type_int_of_infinity_witness :
  @ConfigVariable.set_value Examples.digits_runtime
    (Examples.var "count" "int" false VNone (VInt 1))
    (VFloat (S754_infinity false))
  = (false, Examples.var "count" "int" false VNone (VInt 1)).
Proof.
  apply (@validate_by_type_int_of_infinity Examples.digits_runtime false []).
  reflexivity.
Defined.

Section IdentifierAndAddress.
Import ConfigValidator Spec.

Lemma span_suffix_all (p q : ascii -> bool) (s : string) :
  PyStr.all_chars q s = true -> PyStr.all_chars q (snd (span p s)) = true.
Proof.
  induction s as [|c r IH]; simpl; [reflexivity|].
  intros H. apply andb_true_iff in H as [Hc Hr].
  destruct (p c).
  - destruct (span p r) as [a b]; simpl in *. auto.
  - simpl. now rewrite Hc, Hr.
Qed.

Lemma at_end_no_newline (s : string) :
  at_end s = true -> PyStr.all_chars not_newline s = true -> s = EmptyString.
Proof.
  destruct s as [|c [|c' r]]; simpl; try discriminate; [reflexivity|].
  unfold not_newline. intros ->. discriminate.
Qed.

Lemma span_all_then (p : ascii -> bool) (s : string) (c : ascii) :
  snd (span p s) = EmptyString -> p c = false ->
  span p (s ++ String c EmptyString) = (s, String c EmptyString).
Proof.
  intros Hs Hc. induction s as [|a r IH]; simpl in *.
  - now rewrite Hc.
  - destruct (p a); [|discriminate].
    destruct (span p r) as [x y]; simpl in *. now rewrite (IH Hs).
Qed.

Lemma length_snoc (s : string) (c : ascii) :
  String.length (s ++ String c EmptyString) = S (String.length s).
Proof. induction s as [|a r IH]; simpl; [reflexivity | now rewrite IH]. Qed.

Lemma map_chars_snoc (f : ascii -> ascii) (s : string) (c : ascii) :
  PyStr.map_chars f (s ++ String c EmptyString)
  = (PyStr.map_chars f s ++ String (f c) EmptyString)%string.
Proof. induction s as [|a r IH]; simpl; [reflexivity | now rewrite IH]. Qed.

Lemma snoc_newline_differs (x w : string) :
  PyStr.all_chars not_newline w = true ->
  String.eqb (x ++ String newline EmptyString) w = false.
Proof.
  revert w. induction x as [|a x IH]; intros [|c w] Hw;
    cbn [append String.eqb PyStr.all_chars] in *; try reflexivity.
  - apply andb_true_iff in Hw as [Hc _]. unfold not_newline in Hc.
    apply negb_true_iff in Hc. rewrite Ascii.eqb_sym in Hc. now rewrite Hc.
  - apply andb_true_iff in Hw as [_ Hw].
    destruct (Ascii.eqb a c); [now apply IH | reflexivity].
Qed.

(** X13.  [$] in the identifier pattern also matches before a final
    newline: an accepted identifier of fewer than 63 characters is accepted
    again with a newline appended to it. *)
Theorem validate_identifier_accepts_trailing_newline (v : string) :
  validate_identifier v = valid ->
  (String.length v < 63)%nat ->
  PyStr.all_chars not_newline v = true ->
  validate_identifier (v ++ String newline EmptyString) = valid.
Proof.
  intros Hvalid Hlen Hnl. unfold validate_identifier in *.
  destruct v as [|c r]; [discriminate|].
  destruct (match_identifier (String c r)) eqn:Hm; [|discriminate].
  simpl negb in Hvalid. cbv iota in Hvalid.
  destruct (63 <? String.length (String c r))%nat; [discriminate|].
  destruct (PyStr.mem (PyStr.lower (String c r)) reserved_keywords) eqn:Hres;
    [discriminate|].
  change ((String c r ++ String newline EmptyString)%string)
    with (String c (r ++ String newline EmptyString)).
  assert (Hm' : match_identifier (String c (r ++ String newline EmptyString))
                = true).
  { unfold match_identifier in *. apply andb_true_iff in Hm as [Hc Hend].
    rewrite Hc. simpl in Hnl. apply andb_true_iff in Hnl as [_ Hr].
    rewrite (span_all_then PyStr.is_alnum_ r newline);
      [reflexivity | | reflexivity].
    apply at_end_no_newline; [exact Hend|].
    now apply span_suffix_all. }
  rewrite Hm'. simpl negb. cbv iota.
  change (String c (r ++ String newline EmptyString))
    with ((String c r ++ String newline EmptyString)%string).
  rewrite length_snoc.
  assert (Hlen' : (63 <? S (String.length (String c r)))%nat = false)
    by (apply Nat.ltb_ge; lia).
  rewrite Hlen'. unfold PyStr.lower. rewrite map_chars_snoc.
  unfold PyStr.mem, reserved_keywords. cbn [existsb].
  rewrite !snoc_newline_differs by reflexivity. reflexivity.
Qed.

(** ** Dotted addresses *)

Lemma digit_is (c : ascii) :
  PyStr.is_digit c = true ->
  not_newline c = true /\ Ascii.eqb c "." = false /\ PyStr.is_space c = false.
Proof.
  destruct c as [[] [] [] [] [] [] [] []]; try discriminate; now repeat split.
Qed.

Lemma digits_cat_dot (a rest : string) :
  PyStr.all_chars PyStr.is_digit a = true ->
  PyStr.split "." (a ++ String "." rest) = a :: PyStr.split "." rest.
Proof.
  induction a as [|c a IH]; simpl; [reflexivity|].
  intros H. apply andb_true_iff in H as [Hc Ha].
  destruct (digit_is c Hc) as [_ [Hdot _]]. rewrite Hdot, (IH Ha).
  reflexivity.
Qed.

Lemma digits_no_dot (a : string) :
  PyStr.all_chars PyStr.is_digit a = true -> PyStr.split "." a = [a].
Proof.
  induction a as [|c a IH]; simpl; [reflexivity|].
  intros H. apply andb_true_iff in H as [Hc Ha].
  destruct (digit_is c Hc) as [_ [Hdot _]]. now rewrite Hdot, (IH Ha).
Qed.

Lemma all_chars_app (p : ascii -> bool) (a b : string) :
  PyStr.all_chars p (a ++ b) = PyStr.all_chars p a && PyStr.all_chars p b.
Proof.
  induction a as [|c a IH]; simpl; [reflexivity|].
  now rewrite IH, andb_assoc.
Qed.

Lemma all_chars_weaken (p q : ascii -> bool) (s : string) :
  (forall c, p c = true -> q c = true) ->
  PyStr.all_chars p s = true -> PyStr.all_chars q s = true.
Proof.
  intros Hpq. induction s as [|c s IH]; simpl; [reflexivity|].
  intros H. apply andb_true_iff in H as [Hc Hs].
  now rewrite (Hpq c Hc), (IH Hs).
Qed.

Lemma before_end_no_newline (s : string) :
  PyStr.all_chars not_newline s = true -> before_end s = Some s.
Proof.
  intros H. unfold before_end.
  assert (Hspan : span (fun c => negb (Ascii.eqb c newline)) s
                  = (s, EmptyString)).
  { induction s as [|c s IH]; simpl in *; [reflexivity|].
    apply andb_true_iff in H as [Hc Hs]. unfold not_newline in Hc.
    now rewrite Hc, (IH Hs). }
  now rewrite Hspan.
Qed.

Lemma strip_digits (s : string) :
  PyStr.all_chars PyStr.is_digit s = true -> PyStr.strip s = s.
Proof.
  intros H. unfold PyStr.strip.
  assert (Hl : PyStr.lstrip s = s).
  { destruct s as [|c s]; [reflexivity|]. simpl in *.
    apply andb_true_iff in H as [Hc _].
    destruct (digit_is c Hc) as [_ [_ Hsp]]. now rewrite Hsp. }
  rewrite Hl. induction s as [|c s IH]; simpl in *; [reflexivity|].
  apply andb_true_iff in H as [Hc Hs].
  destruct (digit_is c Hc) as [_ [_ Hsp]].
  rewrite IH; [|exact Hs|].
  - destruct s; [now rewrite Hsp | reflexivity].
  - destruct s as [|c' s]; [reflexivity|]. simpl in *.
    apply andb_true_iff in Hs as [Hc' _].
    destruct (digit_is c' Hc') as [_ [_ Hsp']]. now rewrite Hsp'.
Qed.

Lemma digits_value_nonneg (s : string) :
  PyStr.all_chars PyStr.is_digit s = true ->
  forall acc, 0 <= acc -> 0 <= PyStr.digits_value acc s.
Proof.
  induction s as [|c s IH]; cbn [PyStr.all_chars PyStr.digits_value];
    intros H acc Hacc; [exact Hacc|].
  apply andb_true_iff in H as [Hc Hs]. apply IH; [exact Hs|].
  unfold PyStr.is_digit, PyStr.between in Hc.
  apply andb_true_iff in Hc as [Hlo _]. apply N.leb_le in Hlo. lia.
Qed.

Lemma octet_text_digits (s : string) :
  octet_text s = true ->
  s <> EmptyString /\ PyStr.all_chars PyStr.is_digit s = true.
Proof.
  unfold octet_text. intros H.
  apply andb_true_iff in H as [H Hd]. apply andb_true_iff in H as [H1 _].
  split; [|exact Hd]. intros ->. discriminate.
Qed.

Lemma int_of_octet_digits (s : string) :
  octet_text s = true ->
  int_of_octet s = Some (PyStr.digits_value 0 s).
Proof.
  intros H. destruct (octet_text_digits s H) as [Hne Hd].
  unfold int_of_octet. rewrite (strip_digits s Hd).
  destruct s; [congruence|]. now rewrite Hd.
Qed.

(** X14.  Four runs of one to three digits joined by dots are accepted as
    an IP address exactly when each run reads as a number up to 255, leading
    zeros allowed; otherwise the answer is the message about the range. *)
Theorem validate_ip_address_octets (a b c d : string) :
  octet_text a = true -> octet_text b = true ->
  octet_text c = true -> octet_text d = true ->
  validate_ip_address
    (a ++ String "." (b ++ String "." (c ++ String "." d)))
  = if forallb (fun s => PyStr.digits_value 0 s <=? 255) [a; b; c; d]
    then valid
    else invalid "IP address octets must be between 0 and 255".
Proof.
  intros Ha Hb Hc Hd.
  destruct (octet_text_digits a Ha) as [_ Hda].
  destruct (octet_text_digits b Hb) as [_ Hdb].
  destruct (octet_text_digits c Hc) as [_ Hdc].
  destruct (octet_text_digits d Hd) as [_ Hdd].
  set (v := (a ++ String "." (b ++ String "." (c ++ String "." d)))%string).
  assert (Hsplit : PyStr.split "." v = [a; b; c; d]).
  { unfold v. now rewrite !digits_cat_dot, digits_no_dot. }
  assert (Hnl : PyStr.all_chars not_newline v = true).
  { assert (Hw : forall s, PyStr.all_chars PyStr.is_digit s = true ->
                           PyStr.all_chars not_newline s = true).
    { intros s. apply all_chars_weaken. intros x Hx.
      now destruct (digit_is x Hx). }
    unfold v. rewrite !all_chars_app. simpl.
    rewrite !all_chars_app. simpl. rewrite !all_chars_app. simpl.
    now rewrite (Hw a Hda), (Hw b Hdb), (Hw c Hdc), (Hw d Hdd). }
  unfold validate_ip_address, match_ip_address.
  rewrite (before_end_no_newline v Hnl), Hsplit, Ha, Hb, Hc, Hd.
  cbn [negb andb check_octets forallb].
  rewrite !int_of_octet_digits by assumption.
  pose proof (digits_value_nonneg a Hda 0 (Z.le_refl 0)) as Pa.
  pose proof (digits_value_nonneg b Hdb 0 (Z.le_refl 0)) as Pb.
  pose proof (digits_value_nonneg c Hdc 0 (Z.le_refl 0)) as Pc.
  pose proof (digits_value_nonneg d Hdd 0 (Z.le_refl 0)) as Pd.
  apply Z.leb_le in Pa, Pb, Pc, Pd. rewrite Pa, Pb, Pc, Pd.
  cbn [andb].
  destruct (PyStr.digits_value 0 a <=? 255); simpl; [|reflexivity].
  destruct (PyStr.digits_value 0 b <=? 255); simpl; [|reflexivity].
  destruct (PyStr.digits_value 0 c <=? 255); simpl; [|reflexivity].
  destruct (PyStr.digits_value 0 d <=? 255); reflexivity.
Qed.

End IdentifierAndAddress.

Lemma validate_identifier_accepts_trailing_newline_witness :
  ConfigValidator.validate_identifier
    ("living_room" ++ String ConfigValidator.newline EmptyString)
  = ConfigValidator.valid.
Proof.
  apply (validate_identifier_accepts_trailing_newline "living_room");
    [reflexivity | simpl; lia | reflexivity].
Defined.

Lemma validate_ip_address_octets_witness :
  ConfigValidator.validate_ip_address "192.168.001.300"
  = ConfigValidator.invalid "IP address octets must be between 0 and 255".
Proof.
  apply (validate_ip_address_octets "192" "168" "001" "300"); reflexivity.
Defined.

(* ===================================================================== *)
(** * Further properties of _deep_merge and of the generated document *)
(* ===================================================================== *)

Section MergeMore.
Import YAMLGenerator Spec.

Lemma dict_set_new {A : Type} (k : string) (v : A) (d : list (string * A)) :
  Py.dict_get k d = None -> Py.dict_set k v d = (d ++ [(k, v)])%list.
Proof.
  induction d as [|[k' v'] d IH]; cbn [Py.dict_get Py.dict_set app];
    [reflexivity|].
  destruct (String.eqb k k'); [discriminate|].
  intros H. now rewrite (IH H).
Qed.

Lemma dict_get_app_none {A : Type} (k : string) (d d' : list (string * A)) :
  Py.dict_get k (d ++ d') = None <->
  Py.dict_get k d = None /\ Py.dict_get k d' = None.
Proof.
  induction d as [|[k' v'] d IH]; cbn [Py.dict_get app].
  - tauto.
  - destruct (String.eqb k k'); [|exact IH].
    split; [discriminate | intros [H _]; discriminate].
Qed.

(** X15.  Merging a document whose keys are all new appends its items in
    their order and leaves the base as it is; in particular merging into
    the empty dict, as [merge_yaml_configs] does with its first document,
    gives that document back. *)
Theorem deep_merge_of_new_keys (base_dict merge_dict : pydict) :
  NoDup (Py.dict_keys merge_dict) ->
  (forall k, In k (Py.dict_keys merge_dict) ->
             Py.dict_get k base_dict = None) ->
  _deep_merge base_dict merge_dict = (base_dict ++ merge_dict)%list
  /\ (base_dict = [] -> _deep_merge base_dict merge_dict = merge_dict).
Proof.
  intros Hnd Hnew.
  assert (Happ : _deep_merge base_dict merge_dict
                 = (base_dict ++ merge_dict)%list).
  { unfold _deep_merge. revert base_dict Hnew.
    induction merge_dict as [|[k v] rest IH]; intros base_dict Hnew.
    - cbn [fold_left]. now rewrite app_nil_r.
    - change (Py.dict_keys ((k, v) :: rest)) with (k :: Py.dict_keys rest)
        in Hnd, Hnew.
      inversion Hnd as [|? ? Hnotin Hnd']; subst.
      cbn [fold_left]. unfold merge_item at 2.
      rewrite (Hnew k (or_introl eq_refl)), (dict_set_new k v base_dict).
      + rewrite (IH Hnd'); [now rewrite <- app_assoc|].
        intros k' Hk'. apply dict_get_app_none. split.
        * apply Hnew. now right.
        * cbn [Py.dict_get]. destruct (String.eqb k' k) eqn:E; [|reflexivity].
          apply String.eqb_eq in E. subst. contradiction.
      + apply Hnew. now left. }
  split; [exact Happ|]. intros ->. now rewrite Happ.
Qed.

Lemma merge_item_keys (base_dict : pydict) (k : string) (v : value) :
  Py.dict_keys (merge_item base_dict (k, v)) = add_key (Py.dict_keys base_dict) k.
Proof.
  unfold merge_item, add_key. rewrite <- dict_mem_keys.
  destruct (Py.dict_get k base_dict) as [old|] eqn:E;
    rewrite dict_keys_set; unfold Py.dict_mem; now rewrite E.
Qed.

(** X16.  The keys of a merge result are the keys of the base, in their
    order, followed by the keys only the merged document has, in the order
    of their first appearance; a base without duplicate keys stays so. *)
Theorem deep_merge_keys (base_dict merge_dict : pydict) :
  Py.dict_keys (_deep_merge base_dict merge_dict)
  = fold_left add_key (Py.dict_keys merge_dict) (Py.dict_keys base_dict)
  /\ (NoDup (Py.dict_keys base_dict) ->
      NoDup (Py.dict_keys (_deep_merge base_dict merge_dict)))
  /\ (forall k, In k (Py.dict_keys base_dict) ->
                In k (Py.dict_keys (_deep_merge base_dict merge_dict))).
Proof.
  assert (Hkeys : Py.dict_keys (_deep_merge base_dict merge_dict)
            = fold_left add_key (Py.dict_keys merge_dict)
                (Py.dict_keys base_dict)).
  { unfold _deep_merge. revert base_dict.
    induction merge_dict as [|[k v] rest IH]; intros base_dict;
      [reflexivity|].
    change (Py.dict_keys ((k, v) :: rest)) with (k :: Py.dict_keys rest).
    cbn [fold_left]. now rewrite IH, merge_item_keys. }
  split; [exact Hkeys|]. rewrite Hkeys. split.
  - apply add_keys_NoDup.
  - intros k. apply add_keys_keeps.
Qed.

Lemma add_keys_prefix (l keys : list string) :
  exists extra, fold_left add_key l keys = (keys ++ extra)%list.
Proof.
  revert keys. induction l as [|k l IH]; intros keys; cbn [fold_left].
  - exists []. now rewrite app_nil_r.
  - destruct (IH (add_key keys k)) as [extra Heq]. rewrite Heq.
    unfold add_key. destruct (PyStr.mem k keys).
    + now exists extra.
    + exists (k :: extra). now rewrite <- app_assoc.
Qed.

Lemma add_keys_only (l keys : list string) (x : string) :
  In x (fold_left add_key l keys) -> In x keys \/ In x l.
Proof.
  revert keys. induction l as [|k l IH]; intros keys; cbn [fold_left].
  - now left.
  - intros Hin. destruct (IH _ Hin) as [Hk | Hl].
    + unfold add_key in Hk. destruct (PyStr.mem k keys); [now left|].
      apply in_app_or in Hk as [Hk | [<- | []]]; [now left|].
      right. now left.
    + right. now right.
Qed.

Lemma generated_keys (cs : list Component.t)
    (device_name platform board : string) :
  Py.dict_keys (generate_esphome_config cs device_name platform board)
  = fold_left add_key (map Component.component_type cs) seeded_sections.
Proof.
  unfold generate_esphome_config.
  destruct (group_components_spec cs) as [_ Hkeys].
  rewrite add_groups_keys, Hkeys.
  apply (add_keys_add_keys _ [] _).
Qed.

(** X17.  The generated document has no duplicate top-level key; it starts
    with the five seeded sections in their fixed order; and its keys are
    those five and the types of the components, nothing else. *)
Theorem generated_document_keys (cs : list Component.t)
    (device_name platform board : string) :
  let document := generate_esphome_config cs device_name platform board in
  NoDup (Py.dict_keys document)
  /\ firstn 5 (Py.dict_keys document)
     = ["esphome"; "wifi"; "logger"; "api"; "ota"]
  /\ (forall k, In k (Py.dict_keys document) <->
                In k seeded_sections
                \/ In k (map Component.component_type cs)).
Proof.
  cbv zeta. rewrite generated_keys. split; [|split].
  - apply add_keys_NoDup. unfold seeded_sections.
    repeat constructor; cbn [In]; intuition discriminate.
  - destruct (add_keys_prefix (map Component.component_type cs)
                seeded_sections) as [extra Heq].
    rewrite Heq. reflexivity.
  - intros k. split; [apply add_keys_only|].
    intros [Hs | Ht]; [now apply add_keys_keeps | now apply add_keys_adds].
Qed.

Lemma In_seeded_dec (t : string) :
  {In t seeded_sections} + {~ In t seeded_sections}.
Proof. apply in_dec, string_dec. Qed.

(** X18.  Every element of every list section of the generated document is
    the entry of an input component of the section's type, a mapping with
    an ['id'] key. *)
Theorem generated_list_entries_have_id (cs : list Component.t)
    (device_name platform board t : string) (l : list value) (e : value) :
  Py.dict_get t (generate_esphome_config cs device_name platform board)
  = Some (VList l) ->
  In e l ->
  exists c, In c cs
            /\ Component.component_type c = t
            /\ e = VDict (component_entry c)
            /\ Py.dict_mem "id" (component_entry c) = true.
Proof.
  intros Hget Hin. rewrite generated_section in Hget.
  destruct (In_seeded_dec t) as [Hs | Hn].
  - exfalso.
    destruct (seeded_section_is_dict device_name platform board t Hs)
      as [d Hd].
    rewrite Hd in Hget.
    destruct (existsb _ cs); [|discriminate].
    pose proof (place_all_not_list (of_type t cs) (VDict d) eq_refl) as Hnl.
    injection Hget as Hget. rewrite Hget in Hnl. discriminate.
  - rewrite (unseeded_section_absent _ _ _ _ Hn) in Hget.
    destruct (existsb _ cs); [|discriminate].
    rewrite place_all_list in Hget. injection Hget as <-.
    cbn [app] in Hin. apply in_map_iff in Hin as [c [<- Hc]].
    unfold of_type in Hc. apply filter_In in Hc as [Hc Hty].
    exists c. split; [exact Hc|]. split; [now apply String.eqb_eq|].
    split; [reflexivity | apply component_entry_has_id].
Qed.

End MergeMore.

Lemma deep_merge_of_new_keys_witness :
  YAMLGenerator._deep_merge [] Examples.doc_b = Examples.doc_b.
Proof.
  apply (deep_merge_of_new_keys [] Examples.doc_b);
    [repeat constructor; cbn [In Py.dict_keys map fst Examples.doc_b];
     intuition discriminate
    | reflexivity | reflexivity].
Defined.

Lemma deep_merge_keys_witness :
  NoDup (Py.dict_keys
           (YAMLGenerator._deep_merge Examples.doc_a Examples.doc_b)).
Proof.
  apply (deep_merge_keys Examples.doc_a Examples.doc_b).
  repeat constructor; cbn [In Py.dict_keys map fst Examples.doc_a];
    intuition discriminate.
Defined.

Lemma generated_list_entries_have_id_witness :
  exists c, In c [Examples.dotted_sensor]
            /\ Component.component_type c = "sensor"
            /\ VDict (YAMLGenerator.component_entry Examples.dotted_sensor)
               = VDict (YAMLGenerator.component_entry c)
            /\ Py.dict_mem "id" (YAMLGenerator.component_entry c) = true.
Proof.
  apply (generated_list_entries_have_id [Examples.dotted_sensor]
           "dev" "ESP32" "board" "sensor"
           [VDict (YAMLGenerator.component_entry Examples.dotted_sensor)]);
    [reflexivity | now left].
Defined.

(* ===================================================================== *)
(** * Further properties of the extraction *)
(* ===================================================================== *)

Section ExtractionMore.
Context {B : Builtins}.
Import Scraper.

Lemma has_name_In (vars : list ConfigVariable.t) (n : string) :
  has_name vars n = true <-> In n (map ConfigVariable.name vars).
Proof.
  unfold has_name. rewrite existsb_exists, in_map_iff. split.
  - intros [var [Hin Heq]]. apply String.eqb_eq in Heq. eauto.
  - intros [var [Heq Hin]]. exists var. split; [exact Hin|].
    now apply String.eqb_eq.
Qed.

Lemma append_if_new_distinct (vars config_vars : list ConfigVariable.t) :
  NoDup (map ConfigVariable.name config_vars) ->
  NoDup (map ConfigVariable.name (fold_left append_if_new vars config_vars)).
Proof.
  revert config_vars. induction vars as [|var vars IH];
    intros config_vars Hnd; cbn [fold_left]; [exact Hnd|].
  apply IH. unfold append_if_new.
  destruct (has_name config_vars (ConfigVariable.name var)) eqn:E;
    cbn [negb]; [exact Hnd|].
  rewrite map_app. apply NoDup_app; [exact Hnd | repeat constructor; auto |].
  intros x Hx [<- | []]. apply has_name_In in Hx. congruence.
Qed.

(** X19.  When the tables and definition lists of a page name every
    variable once, the variables of the scraped component have distinct
    names: neither the code blocks nor the text pass ever adds a name that
    is already there. *)
Theorem scraped_names_distinct (page : soup) (clean_content : option string) :
  NoDup (map ConfigVariable.name
           (flat_map section_vars (config_sections page))) ->
  NoDup (map ConfigVariable.name (_parse_config_variables page))
  /\ NoDup (map ConfigVariable.name (scraped_config_vars page clean_content)).
Proof.
  intros Hnd.
  assert (Hparse : NoDup (map ConfigVariable.name
                            (_parse_config_variables page))).
  { unfold _parse_config_variables.
    generalize dependent (flat_map section_vars (config_sections page)).
    induction (code_blocks page) as [|block blocks IH]; intros found Hnd;
      cbn [fold_left]; [exact Hnd|].
    apply IH. now apply append_if_new_distinct. }
  split; [exact Hparse|]. unfold scraped_config_vars.
  destruct clean_content as [[|c content]|]; try exact Hparse.
  now apply append_if_new_distinct.
Qed.

(** X20.  Every variable read from a YAML example has a name that is an
    identifier and none of the structural keywords, the description
    "Configuration parameter for <name>", no default, no value, and is not
    required; a comment line yields no variable. *)
Theorem extract_vars_from_yaml_shape (yaml_text : string) :
  (forall var, In var (_extract_vars_from_yaml yaml_text) ->
     match_var_name (ConfigVariable.name var) = true
     /\ PyStr.mem (ConfigVariable.name var) yaml_keywords = false
     /\ ConfigVariable.description var
        = ("Configuration parameter for " ++ ConfigVariable.name var)%string
     /\ ConfigVariable.is_required var = false
     /\ ConfigVariable.default_value var = VNone
     /\ ConfigVariable.current_value var = VNone)
  /\ (forall line, PyStr.startswith "#" (PyStr.strip line) = true ->
                   yaml_line_var line = None).
Proof.
  split.
  - intros var Hin. unfold _extract_vars_from_yaml in Hin.
    apply in_flat_map in Hin as [line [_ Hin]].
    destruct (yaml_line_var line) as [var'|] eqn:Hline; [|destruct Hin].
    destruct Hin as [<- | []]. unfold yaml_line_var in Hline.
    destruct (PyStr.contains ":" (PyStr.strip line)
              && negb (PyStr.startswith "#" (PyStr.strip line)));
      [|discriminate].
    destruct (match_var_name (PyStr.strip (before_colon (PyStr.strip line))))
      eqn:Hm; [|discriminate].
    cbn [negb] in Hline.
    destruct (PyStr.mem (PyStr.strip (before_colon (PyStr.strip line)))
                yaml_keywords) eqn:Hk; [discriminate|].
    injection Hline as <-. cbn [ConfigVariable.init ConfigVariable.name
      ConfigVariable.description ConfigVariable.is_required
      ConfigVariable.default_value ConfigVariable.current_value].
    now repeat split.
  - intros line Hc. unfold yaml_line_var. rewrite Hc.
    now rewrite andb_false_r.
Qed.

(** X21.  [_infer_data_type] answers one of nine tags, never ['ip_address']
    or ['i2c_address']; a name with [pin] or [gpio] in it, in any letter
    case, is typed ['pin'] whatever the description says. *)
Theorem infer_data_type_range (var_name description : string) :
  In (_infer_data_type var_name description) Spec.data_type_tags
  /\ (PyStr.contains "pin" (PyStr.lower var_name) = true
      \/ PyStr.contains "gpio" (PyStr.lower var_name) = true ->
      _infer_data_type var_name description = "pin").
Proof.
  unfold _infer_data_type, Spec.data_type_tags. split.
  - repeat match goal with
           | |- In (if ?b then _ else _) _ => destruct b
           end; cbn [In]; tauto.
  - intros [H | H]; rewrite H; [reflexivity|].
    now rewrite orb_true_r.
Qed.

End ExtractionMore.

Lemma scraped_names_distinct_witness :
  NoDup (map ConfigVariable.name
           (@Scraper.scraped_config_vars Examples.digits_runtime
              (Scraper.mk_soup
                 [Scraper.mk_section
                    [[["Name"; "Description"]; ["pin"; "The pin"]]] []]
                 ["pin: GPIO4"])
              (Some "Configuration variables:"))).
Proof.
  apply (@scraped_names_distinct Examples.digits_runtime).
  repeat constructor. intros [].
Defined.

Lemma extract_vars_from_yaml_shape_witness :
  @Scraper.yaml_line_var Examples.digits_runtime "  # pin: GPIO4" = None.
Proof.
  apply (@extract_vars_from_yaml_shape Examples.digits_runtime EmptyString).
  reflexivity.
Defined.

Lemma infer_data_type_range_witness :
  Scraper._infer_data_type "GPIO_number" "an integer" = "pin".
Proof.
  apply (infer_data_type_range "GPIO_number" "an integer").
  right. reflexivity.
Defined.

Section InferFromValue.
Context {B : Builtins}.
Import Scraper.

Lemma strip_quotes_digits (s : string) :
  PyStr.all_chars PyStr.is_digit s = true ->
  rstrip_chars is_quote (lstrip_chars is_quote s) = s.
Proof.
  intros H.
  assert (Hq : forall c, PyStr.is_digit c = true -> is_quote c = false).
  { intros c Hc. destruct c as [[] [] [] [] [] [] [] []];
      try discriminate Hc; reflexivity. }
  assert (Hl : lstrip_chars is_quote s = s).
  { destruct s as [|c s]; [reflexivity|]. cbn [PyStr.all_chars] in H.
    apply andb_true_iff in H as [Hc _].
    cbn [lstrip_chars]. now rewrite (Hq c Hc). }
  rewrite Hl. induction s as [|c s IH]; [reflexivity|].
  cbn [PyStr.all_chars] in H. apply andb_true_iff in H as [Hc Hs].
  cbn [rstrip_chars]. rewrite IH; [|exact Hs|].
  - destruct s; [now rewrite (Hq c Hc) | reflexivity].
  - destruct s as [|c' s]; [reflexivity|]. cbn [PyStr.all_chars] in Hs.
    apply andb_true_iff in Hs as [Hc' _].
    cbn [lstrip_chars]. now rewrite (Hq c' Hc').
Qed.

Lemma digits_contain_no_dot (s : string) :
  PyStr.all_chars PyStr.is_digit s = true -> PyStr.contains "." s = false.
Proof.
  induction s as [|c s IH]; [reflexivity|].
  cbn [PyStr.all_chars]. intros H. apply andb_true_iff in H as [Hc Hs].
  cbn [PyStr.contains String.prefix]. rewrite (IH Hs).
  assert (Hd : Ascii.eqb "." c = false).
  { destruct c as [[] [] [] [] [] [] [] []]; try discriminate Hc;
      reflexivity. }
  destruct (ascii_dec "." c) as [<- | Hne]; [discriminate Hd|].
  reflexivity.
Qed.

Lemma lower_digits (s : string) :
  PyStr.all_chars PyStr.is_digit s = true -> PyStr.lower s = s.
Proof.
  induction s as [|c s IH]; [reflexivity|].
  cbn [PyStr.all_chars]. intros H. apply andb_true_iff in H as [Hc Hs].
  unfold PyStr.lower in *. cbn [PyStr.map_chars]. rewrite (IH Hs).
  f_equal. destruct c as [[] [] [] [] [] [] [] []]; try discriminate Hc;
    reflexivity.
Qed.

(** A string that starts with a digit is none of the given words, when
    none of them starts with a digit. *)
Lemma digit_first_not_word (c : ascii) (r w : string) :
  PyStr.is_digit c = true ->
  match w with
  | EmptyString => True
  | String a _ => PyStr.is_digit a = false
  end ->
  String.eqb (String c r) w = false.
Proof.
  intros Hc Hw. destruct w as [|a w]; [reflexivity|].
  cbn [String.eqb]. destruct (Ascii.eqb c a) eqn:E; [|reflexivity].
  apply Ascii.eqb_eq in E. subst. congruence.
Qed.

(** X22.  A value made of digits only that [int()] reads is typed ['int']:
    the later test that types a run of digits as ['pin'] is not reached for
    it, so a bare pin number in a YAML example is recorded as an ['int']. *)
Theorem infer_type_of_digits (digits : string) (z : Z) :
  digits <> EmptyString ->
  PyStr.all_chars PyStr.is_digit digits = true ->
  int_of_str digits = Some z ->
  _infer_type_from_value digits = "int"
  /\ match_digits digits = true.
Proof.
  intros Hne Hd Hint. split.
  - unfold _infer_type_from_value.
    rewrite (strip_digits digits Hd), (strip_quotes_digits digits Hd).
    rewrite (lower_digits digits Hd), (digits_contain_no_dot digits Hd), Hint.
    destruct digits as [|c r]; [congruence|].
    cbn [PyStr.all_chars] in Hd. apply andb_true_iff in Hd as [Hc _].
    unfold PyStr.mem. cbn [existsb].
    rewrite !(digit_first_not_word c r) by (exact Hc || reflexivity).
    reflexivity.
  - unfold match_digits. rewrite (span_digits digits Hd).
    destruct digits; [congruence | reflexivity].
Qed.

End InferFromValue.

Lemma infer_type_of_digits_witness :
  @Scraper._infer_type_from_value Examples.digits_runtime "4" = "int".
Proof.
  apply (@infer_type_of_digits Examples.digits_runtime "4" 4);
    [discriminate | reflexivity | reflexivity].
Defined.

(* ===================================================================== *)
(** * Properties of link discovery and platform detection *)
(* ===================================================================== *)

Section LinkDiscovery.
Import Discovery.
Variable urljoin : string -> string.

(** The loop that removes duplicates, from any state whose [seen] holds the
    urls of [unique_links]. *)
Lemma keep_unseen_spec (links : list Crawl.link) :
  forall (seen : list string) (kept : list Crawl.link),
    (forall u, In u seen <-> In u (map snd kept)) ->
    let kept' := snd (fold_left keep_unseen links (seen, kept)) in
    map snd kept' = fold_left Spec.add_key (map snd links) (map snd kept)
    /\ (forall l, In l kept' ->
          In l kept
          \/ exists pre post, links = (pre ++ l :: post)%list
                              /\ ~ In (snd l) (map snd pre)
                              /\ ~ In (snd l) (map snd kept)).
Proof.
  induction links as [|[name url] rest IH]; intros seen kept Hseen;
    cbn [fold_left map snd].
  - split; [reflexivity | now left].
  - assert (Hmem : PyStr.mem url seen = PyStr.mem url (map snd kept)).
    { destruct (PyStr.mem url seen) eqn:E1;
        destruct (PyStr.mem url (map snd kept)) eqn:E2; try reflexivity.
      - apply mem_In, Hseen, mem_In in E1. congruence.
      - apply mem_In, Hseen, mem_In in E2. congruence. }
    change (keep_unseen (seen, kept) (name, url))
      with (if negb (PyStr.mem url seen)
            then (url :: seen, (kept ++ [(name, url)])%list)
            else (seen, kept)).
    change (Spec.add_key (map snd kept) url)
      with (if PyStr.mem url (map snd kept) then map snd kept
            else (map snd kept ++ [url])%list).
    rewrite <- Hmem.
    destruct (PyStr.mem url seen) eqn:E; cbn [negb].
    + destruct (IH seen kept Hseen) as [Hurls Hfrom].
      split; [exact Hurls|].
      intros l Hin.
      destruct (Hfrom l Hin) as [Hk | [pre [post [Heq [Hpre Hkept]]]]];
        [now left|].
      right. exists ((name, url) :: pre), post. split; [|split].
      * cbn [app]. now rewrite Heq.
      * cbn [map snd]. intros [Hh | Ht]; [|auto].
        apply Hkept. rewrite <- Hh. now apply Hseen, mem_In.
      * exact Hkept.
    + assert (Hnew : ~ In url (map snd kept)).
      { intros Hin. apply Hseen, mem_In in Hin. congruence. }
      assert (Hseen' : forall u, In u (url :: seen)
                       <-> In u (map snd (kept ++ [(name, url)]))).
      { intros u. rewrite map_app, in_app_iff. cbn [map snd In].
        rewrite (Hseen u). tauto. }
      destruct (IH (url :: seen) (kept ++ [(name, url)])%list Hseen')
        as [Hurls Hfrom].
      split; [now rewrite Hurls, map_app|].
      intros l Hin.
      destruct (Hfrom l Hin) as [Hk | [pre [post [Heq [Hpre Hkept]]]]].
      * apply in_app_or in Hk as [Hk | [<- | []]]; [now left|].
        right. exists [], rest. split; [reflexivity|]. split; [intros []|].
        exact Hnew.
      * rewrite map_app, in_app_iff in Hkept. cbn [map snd In] in Hkept.
        right. exists ((name, url) :: pre), post. split; [|split].
        -- cbn [app]. now rewrite Heq.
        -- cbn [map snd]. intros [Hh | Ht]; [|auto].
           apply Hkept. right. now left.
        -- intros Hk. apply Hkept. now left.
Qed.

Lemma collect_named (accept : string -> bool) (anchors : list anchor)
    (name url : string) :
  In (name, url) (collect urljoin accept anchors) ->
  exists href, In (href, name) anchors /\ accept href = true
               /\ url = urljoin href
               /\ name <> EmptyString /\ PyStr.startswith "#" name = false.
Proof.
  unfold collect. rewrite in_flat_map. intros [[href text] [Hin Hl]].
  exists href. destruct (accept href); [|destruct Hl].
  destruct text as [|c r]; [destruct Hl|].
  destruct (PyStr.startswith "#" (String c r)) eqn:E; cbn [negb] in Hl;
    [destruct Hl|].
  destruct Hl as [Heq | []]. inversion Heq; subst.
  repeat split; try assumption. discriminate.
Qed.

(** X23.  [_extract_component_links] keeps one link for each address found
    by its three passes, the first one found, in the order in which the
    addresses were first found; every link it returns has a name that is
    not empty and does not start with ['#']. *)
Theorem extract_component_links_first_of_each (page : listing_page) :
  let found := candidate_links urljoin page in
  let links := _extract_component_links urljoin page in
  NoDup (map snd links)
  /\ map snd links = fold_left Spec.add_key (map snd found) []
  /\ (forall url, In url (map snd links) <-> In url (map snd found))
  /\ (forall l, In l links ->
        exists pre post, found = (pre ++ l :: post)%list
                         /\ ~ In (snd l) (map snd pre))
  /\ (forall name url, In (name, url) links ->
        name <> EmptyString /\ PyStr.startswith "#" name = false)
  /\ (links = [] <-> found = []).
Proof.
  cbv zeta. unfold _extract_component_links, unique_links.
  destruct (keep_unseen_spec (candidate_links urljoin page) [] [])
    as [Hurls Hfrom]; [intros u; reflexivity|].
  cbn [map] in Hurls.
  set (links := snd (fold_left keep_unseen (candidate_links urljoin page)
                       ([], []))) in *.
  assert (Hfirst : forall l, In l links ->
            exists pre post,
              candidate_links urljoin page = (pre ++ l :: post)%list
              /\ ~ In (snd l) (map snd pre)).
  { intros l Hin. destruct (Hfrom l Hin) as [[] | [pre [post [Heq [Hpre _]]]]].
    now exists pre, post. }
  split; [rewrite Hurls; apply add_keys_NoDup; constructor|].
  split; [exact Hurls|]. split; [|split; [exact Hfirst|split]].
  - intros url. rewrite Hurls. split.
    + intros Hin. now destruct (add_keys_only _ _ _ Hin) as [[] | Hin'].
    + apply add_keys_adds.
  - intros name url Hin. destruct (Hfirst _ Hin) as [pre [post [Heq _]]].
    assert (Hc : In (name, url) (candidate_links urljoin page))
      by (rewrite Heq; apply in_or_app; right; now left).
    unfold candidate_links in Hc.
    assert (Hany : exists accept anchors,
              In (name, url) (collect urljoin accept anchors)).
    { apply in_app_or in Hc as [Hc | Hc];
        [|apply in_app_or in Hc as [Hc | Hc]].
      - destruct (content_area page) as [anchors|]; [|destruct Hc].
        exists in_content, anchors. exact Hc.
      - destruct (toctree page) as [anchors|]; [|destruct Hc].
        exists in_toctree, anchors. exact Hc.
      - apply in_flat_map in Hc as [menu [_ Hc]].
        exists in_menu, menu. exact Hc. }
    destruct Hany as [accept [anchors Hc']].
    destruct (collect_named _ _ _ _ Hc') as [href [_ [_ [_ Hname]]]].
    exact Hname.
  - split.
    + intros Hnil. destruct (candidate_links urljoin page) as [|[n u] t] eqn:E;
        [reflexivity|].
      assert (Hin : In u (map snd links)).
      { rewrite Hurls. apply add_keys_adds. now left. }
      rewrite Hnil in Hin. destruct Hin.
    + intros Hnil. destruct links as [|l t]; [reflexivity|].
      destruct (Hfirst l (or_introl eq_refl)) as [pre [post [Heq _]]].
      rewrite Hnil in Heq. now destruct pre.
Qed.

End LinkDiscovery.

Section Platforms.
Import Discovery.

Lemma prefix_app (p q s : string) :
  String.prefix (p ++ q) s = true -> String.prefix p s = true.
Proof.
  revert s. induction p as [|a p IH]; intros s; [now destruct s|].
  destruct s as [|b s]; cbn [append String.prefix]; [discriminate|].
  destruct (ascii_dec a b); [apply IH | discriminate].
Qed.

(** A text that holds a word holds every beginning of the word. *)
Lemma contains_app (p q s : string) :
  PyStr.contains (p ++ q) s = true -> PyStr.contains p s = true.
Proof.
  induction s as [|c s IH]; cbn [PyStr.contains]; intros H;
    apply orb_true_iff in H as [H | H].
  - apply prefix_app in H. now rewrite H.
  - discriminate.
  - apply prefix_app in H. now rewrite H.
  - rewrite (IH H). apply orb_true_r.
Qed.

Lemma upper_keywords :
  map PyStr.upper platform_keywords
  = ["ESP32"; "ESP8266"; "ESP32S2"; "ESP32S3"; "ESP32C3"; "RP2040"].
Proof. reflexivity. Qed.

Lemma mentions_keyword (text x : string) :
  Spec.mentions text x ->
  In x ["ESP32"; "ESP8266"; "ESP32S2"; "ESP32S3"; "ESP32C3"; "RP2040"].
Proof.
  intros [k [Hk [-> _]]]. rewrite <- upper_keywords. now apply in_map.
Qed.

(** A text that names one of the three ESP32 variants names the ESP32. *)
Lemma mentions_variant (text x : string) :
  In x ["ESP32S2"; "ESP32S3"; "ESP32C3"] ->
  Spec.mentions text x -> Spec.mentions text "ESP32".
Proof.
  intros Hx [k [Hk [Heq Hc]]].
  exists "esp32". split; [now left|]. split; [reflexivity|].
  unfold platform_keywords in Hk. cbn [In] in Hk.
  destruct Hk as [<- | [<- | [<- | [<- | [<- | [<- | []]]]]]];
    try exact Hc;
    try (subst x; vm_compute in Hx;
         destruct Hx as [Hx | [Hx | [Hx | []]]]; discriminate Hx).
  - now apply (contains_app "esp32" "s2").
  - now apply (contains_app "esp32" "s3").
  - now apply (contains_app "esp32" "c3").
Qed.

Lemma scan_text_NoDup (text : string) (keywords : list string) :
  NoDup (map PyStr.upper keywords) ->
  NoDup (flat_map (fun platform => if PyStr.contains platform text
                                   then [PyStr.upper platform] else [])
                  keywords).
Proof.
  induction keywords as [|k ks IH]; cbn [map flat_map]; intros Hnd;
    [constructor|].
  inversion Hnd as [|? ? Hnot Hrest]; subst.
  destruct (PyStr.contains k text); cbn [app]; [|now apply IH].
  constructor; [|now apply IH].
  intros Hin. apply in_flat_map in Hin as [k' [Hk' Hin]].
  destruct (PyStr.contains k' text); [|destruct Hin].
  destruct Hin as [Heq | []]. apply Hnot. rewrite <- Heq. now apply in_map.
Qed.

Lemma scan_text_spec (text : string) :
  NoDup (scan_text text)
  /\ forall x, In x (scan_text text) <-> Spec.mentions text x.
Proof.
  split.
  - apply scan_text_NoDup. rewrite upper_keywords.
    repeat (constructor; [cbn [In]; intuition discriminate|]). constructor.
  - intros x. unfold scan_text, Spec.mentions. rewrite in_flat_map.
    split; intros [k [Hk H]]; exists k; (split; [exact Hk|]).
    + destruct (PyStr.contains k text); [|destruct H].
      destruct H as [<- | []]. now split.
    + destruct H as [-> ->]. now left.
Qed.

Lemma scan_more_fold (text : string) (keywords : list string) :
  forall platforms,
    NoDup platforms ->
    let platforms' :=
      fold_left (fun platforms platform =>
                   if PyStr.contains platform text
                      && negb (PyStr.mem (PyStr.upper platform) platforms)
                   then (platforms ++ [PyStr.upper platform])%list
                   else platforms)
                keywords platforms in
    NoDup platforms'
    /\ forall x, In x platforms'
                 <-> In x platforms
                     \/ exists k, In k keywords /\ x = PyStr.upper k
                                  /\ PyStr.contains k text = true.
Proof.
  induction keywords as [|k ks IH]; intros platforms Hnd; cbn [fold_left].
  - split; [exact Hnd|]. intros x. split; [now left|].
    now intros [H | [k [[] _]]].
  - set (next := if PyStr.contains k text
                    && negb (PyStr.mem (PyStr.upper k) platforms)
                 then (platforms ++ [PyStr.upper k])%list else platforms).
    assert (Hnext : NoDup next
                    /\ forall x, In x next
                                 <-> In x platforms
                                     \/ (x = PyStr.upper k
                                         /\ PyStr.contains k text = true)).
    { unfold next. destruct (PyStr.contains k text) eqn:Ec; cbn [andb].
      - destruct (PyStr.mem (PyStr.upper k) platforms) eqn:Em; cbn [negb].
        + split; [exact Hnd|]. intros x. split; [now left|].
          intros [H | [-> _]]; [exact H | now apply mem_In].
        + split.
          * apply NoDup_app; [exact Hnd | repeat constructor; auto |].
            intros x Hin [<- | []]. apply mem_In in Hin. congruence.
          * intros x. rewrite in_app_iff. cbn [In]. split.
            -- intros [H | [<- | []]]; [now left | now right].
            -- intros [H | [-> _]]; [now left | right; now left].
      - split; [exact Hnd|]. intros x. split; [now left|].
        intros [H | [_ H]]; [exact H | discriminate H]. }
    destruct Hnext as [Hnd' Hin']. destruct (IH next Hnd') as [Hnd'' Hin''].
    split; [exact Hnd''|]. intros x. rewrite Hin'', Hin'. cbn [In]. split.
    + intros [[H | [Hx Hc]] | [k' [Hk' H]]].
      * now left.
      * right. exists k. split; [now left | now split].
      * right. exists k'. split; [now right | exact H].
    + intros [H | [k' [[<- | Hk'] H]]].
      * left. now left.
      * left. now right.
      * right. now exists k'.
Qed.

Lemma scan_more_spec (text : string) (platforms : list string) :
  NoDup platforms ->
  NoDup (scan_more platforms text)
  /\ forall x, In x (scan_more platforms text)
               <-> In x platforms \/ Spec.mentions text x.
Proof. intros Hnd. exact (scan_more_fold text platform_keywords _ Hnd). Qed.

Lemma scan_sections_spec (section_texts : list string) :
  forall platforms,
    NoDup platforms ->
    let platforms' :=
      fold_left (fun platforms parent_text =>
                   scan_more platforms (PyStr.lower parent_text))
                section_texts platforms in
    NoDup platforms'
    /\ forall x, In x platforms'
                 <-> In x platforms
                     \/ exists parent_text,
                          In parent_text section_texts
                          /\ Spec.mentions (PyStr.lower parent_text) x.
Proof.
  induction section_texts as [|t ts IH]; intros platforms Hnd;
    cbn [fold_left].
  - split; [exact Hnd|]. intros x. split; [now left|].
    now intros [H | [t [[] _]]].
  - destruct (scan_more_spec (PyStr.lower t) platforms Hnd) as [Hnd' Hin'].
    destruct (IH _ Hnd') as [Hnd'' Hin''].
    split; [exact Hnd''|]. intros x. rewrite Hin'', Hin'. cbn [In]. split.
    + intros [[H | H] | [t' [Ht' H]]].
      * now left.
      * right. exists t. split; [now left | exact H].
      * right. exists t'. split; [now right | exact H].
    + intros [H | [t' [[<- | Ht'] H]]].
      * left. now left.
      * left. now right.
      * right. now exists t'.
Qed.

(** X24.  [_extract_platforms] lists a platform exactly when its keyword
    occurs in the lower-cased page text, in the lower-cased clean content
    when there is some, or in the lower-cased text around a mention of
    platforms; it lists each platform once, in upper case.  Because the
    keyword [esp32] begins the keywords of its three variants, a page that
    names a variant is listed as supporting the ESP32 too. *)
Theorem extract_platforms_lists_keywords_found (soup_text : string)
    (clean_content : option string) (section_texts : list string) :
  let platforms := _extract_platforms soup_text clean_content section_texts in
  NoDup platforms
  /\ (forall x,
        In x platforms
        <-> Spec.mentions (PyStr.lower soup_text) x
            \/ (exists content, clean_content = Some content
                                /\ content <> EmptyString
                                /\ Spec.mentions (PyStr.lower content) x)
            \/ (exists parent_text,
                  In parent_text section_texts
                  /\ Spec.mentions (PyStr.lower parent_text) x))
  /\ (forall x, In x platforms ->
        In x ["ESP32"; "ESP8266"; "ESP32S2"; "ESP32S3"; "ESP32C3"; "RP2040"])
  /\ (forall x, In x ["ESP32S2"; "ESP32S3"; "ESP32C3"] ->
        In x platforms -> In "ESP32" platforms).
Proof.
  cbv zeta. unfold _extract_platforms.
  destruct (scan_text_spec (PyStr.lower soup_text)) as [Hnd0 Hin0].
  set (p0 := scan_text (PyStr.lower soup_text)) in *.
  set (p1 := match clean_content with
             | Some (String c r) => scan_more p0 (PyStr.lower (String c r))
             | _ => p0
             end).
  assert (H1 : NoDup p1
               /\ forall x, In x p1
                   <-> Spec.mentions (PyStr.lower soup_text) x
                       \/ (exists content, clean_content = Some content
                                           /\ content <> EmptyString
                                           /\ Spec.mentions
                                                (PyStr.lower content) x)).
  { unfold p1. destruct clean_content as [[|c r]|].
    - split; [exact Hnd0|]. intros x. rewrite Hin0. split; [now left|].
      intros [H | [content [Heq [Hne _]]]]; [exact H|]. congruence.
    - destruct (scan_more_spec (PyStr.lower (String c r)) p0 Hnd0)
        as [Hnd Hin].
      split; [exact Hnd|]. intros x. rewrite Hin, Hin0. split.
      + intros [H | H]; [now left|]. right. exists (String c r).
        split; [reflexivity|]. split; [discriminate | exact H].
      + intros [H | [content [Heq [_ H]]]]; [now left|]. right.
        now inversion Heq; subst.
    - split; [exact Hnd0|]. intros x. rewrite Hin0. split; [now left|].
      intros [H | [content [Heq _]]]; [exact H | discriminate Heq]. }
  destruct H1 as [Hnd1 Hin1].
  destruct (scan_sections_spec section_texts p1 Hnd1) as [Hnd2 Hin2].
  cbv zeta in Hnd2, Hin2.
  set (p2 := fold_left _ section_texts p1) in *.
  assert (Hall : forall x,
            In x p2
            <-> Spec.mentions (PyStr.lower soup_text) x
                \/ (exists content, clean_content = Some content
                                    /\ content <> EmptyString
                                    /\ Spec.mentions (PyStr.lower content) x)
                \/ (exists parent_text,
                      In parent_text section_texts
                      /\ Spec.mentions (PyStr.lower parent_text) x)).
  { intros x. rewrite Hin2, Hin1. tauto. }
  split; [exact Hnd2|]. split; [exact Hall|]. split.
  - intros x Hin. apply Hall in Hin.
    destruct Hin as [H | [[content [_ [_ H]]] | [t [_ H]]]];
      exact (mentions_keyword _ _ H).
  - intros x Hx Hin. apply Hall. apply Hall in Hin.
    destruct Hin as [H | [[content [Hc [Hne H]]] | [t [Ht H]]]].
    + left. exact (mentions_variant _ _ Hx H).
    + right. left. exists content. split; [exact Hc|]. split; [exact Hne|].
      exact (mentions_variant _ _ Hx H).
    + right. right. exists t. split; [exact Ht|].
      exact (mentions_variant _ _ Hx H).
Qed.

End Platforms.

(* ===================================================================== *)
(** * Further properties of the crawl *)
(* ===================================================================== *)

Section CrawlViews.
Import Crawl Spec.

Lemma record_view (e : event) (st : state) :
  view_of (record e st) = after_event e (view_of st).
Proof.
  unfold view_of, after_event, record.
  cbn [_is_canceled trace database scraped_count failed_count
       canceled pages found store slept scraped failed finished errored].
  unfold pages_scraped, reported, sleeps.
  rewrite !flat_map_app, !existsb_app, filter_app, length_app.
  cbn [existsb]. now rewrite !orb_false_r.
Qed.

(** An event that shows nothing of what a view keeps. *)
Lemma record_silent (e : event) (st : state) :
  match e with
  | Emit (log_message _) | Emit (status_update _)
  | Emit (progress_update _ _ _) | FetchListing => True
  | _ => False
  end ->
  view_of (record e st) = view_of st.
Proof.
  intros He. rewrite record_view. unfold after_event.
  destruct (view_of st) as [c p f s sl sc fa fi er].
  cbn [canceled pages found store slept scraped failed finished errored].
  destruct e as [[]| | |]; try destruct He;
    cbn [pages_scraped reported sleeps flat_map filter List.length
         is_finished is_error app];
    now rewrite !app_nil_r, !orb_false_r, Nat.add_0_r.
Qed.

Lemma set_canceled_view (b : bool) (st : state) :
  view_of (set_canceled b st) = with_flag b (view_of st).
Proof. reflexivity. Qed.

Lemma cancel_scraping_view (st : state) :
  view_of (cancel_scraping st) = with_flag true (view_of st).
Proof.
  unfold cancel_scraping, emit. rewrite record_silent by exact I.
  apply set_canceled_view.
Qed.

Lemma handle_page_view (name : string) (r : reply) (st : state) :
  view_of (handle_page name r st)
  = let v := view_of st in
    mk_view (canceled v) (pages v)
      (found v ++ match page r, saved r with
                  | inl c, true => [(name, c)]
                  | _, _ => []
                  end)
      (match page r, saved r with
       | inl c, true => save_component c (store v)
       | _, _ => store v
       end)
      (slept v)
      (scraped v + match page r, saved r with
                   | inl _, true => 1
                   | _, _ => 0
                   end)
      (failed v + match page r with inr _ => 1 | inl _ => 0 end)
      (finished v) (errored v).
Proof.
  unfold handle_page, view_of, emit, record. cbv zeta.
  destruct (page r) as [c | logged]; [destruct (saved r)|];
    cbn [_is_canceled trace database scraped_count failed_count
         canceled pages found store slept scraped failed finished errored];
    unfold pages_scraped, reported, sleeps;
    rewrite ?flat_map_app, ?existsb_app, ?filter_app, ?length_app;
    cbn [flat_map filter List.length existsb is_finished is_error app];
    rewrite ?app_nil_r, ?orb_false_r, ?Nat.add_0_r, ?Z.add_0_r;
    reflexivity.
Qed.

(** One turn of the loop, as an observer sees it. *)
Lemma iteration_view (r : reply) (total i : Z) (l : link) (st : state) :
  view_of (iteration r total i l st) = after_turn r total i l (view_of st).
Proof.
  destruct l as [name url]. unfold iteration, emit.
  generalize ("Scraping " ++ name ++ "...") as label.
  generalize ("Scraping component " ++ PyStr.of_Z (i + 1) ++ "/"
              ++ PyStr.of_Z total ++ ": " ++ name) as status.
  intros status label. cbv zeta.
  set (st1 := record (Emit (progress_update (i + 1) total label)) st).
  set (st2 := record (Emit (status_update status)) st1).
  set (st3 := record (ScrapePage url) st2).
  set (st4 := handle_page name r st3).
  set (st5 := if i <? total - 1 then record Sleep st4 else st4).
  assert (H1 : view_of st1 = view_of st) by (apply record_silent; exact I).
  assert (H2 : view_of st2 = view_of st)
    by (unfold st2; rewrite record_silent by exact I; exact H1).
  assert (H3 : view_of st3 = after_event (ScrapePage url) (view_of st))
    by (unfold st3; now rewrite record_view, H2).
  assert (H4 : view_of st4 = _) by (unfold st4; apply handle_page_view).
  rewrite H3 in H4.
  assert (H5 : view_of st5
               = if i <? total - 1 then after_event Sleep (view_of st4)
                 else view_of st4).
  { unfold st5. destruct (i <? total - 1); [apply record_view | reflexivity]. }
  rewrite H4 in H5.
  assert (H6 : view_of (if cancel_requested r then cancel_scraping st5
                        else st5)
               = if cancel_requested r then with_flag true (view_of st5)
                 else view_of st5).
  { destruct (cancel_requested r);
      [apply cancel_scraping_view | reflexivity]. }
  rewrite H6, H5. clear.
  destruct (view_of st) as [c p f s sl sc fa fi er].
  unfold after_turn, after_event, with_flag.
  cbn [canceled pages found store slept scraped failed finished errored
       fst snd pages_scraped reported sleeps flat_map filter List.length
       is_finished is_error app].
  rewrite !app_nil_r, !orb_false_r, Nat.add_0_r.
  destruct (cancel_requested r), (i <? total - 1);
    cbn [canceled pages found store slept scraped failed finished errored
         pages_scraped reported sleeps flat_map filter List.length
         is_finished is_error app];
    rewrite ?app_nil_r, ?orb_false_r, ?orb_true_r, ?Nat.add_0_r;
    reflexivity.
Qed.

(** Once the flag is set the loop shows nothing more. *)
Lemma scrape_loop_stopped (w : world) (total : Z) (i : nat)
    (links : list link) (st : state) :
  _is_canceled st = true ->
  view_of (scrape_loop w total i links st) = view_of st.
Proof.
  intros Hc. destruct links as [|l rest]; cbn [scrape_loop]; [reflexivity|].
  rewrite Hc. unfold emit. now apply record_silent.
Qed.

Lemma extracted_cons (w : world) (i : nat) (l : link) (rest : list link) :
  extracted w i (l :: rest)
  = (match page (replies w i), saved (replies w i) with
     | inl c, true => [(fst l, c)]
     | _, _ => []
     end ++ extracted w (S i) rest)%list.
Proof.
  destruct l as [name url]. cbn [extracted fst].
  destruct (page (replies w i)); destruct (saved (replies w i)); reflexivity.
Qed.

(** Whatever the world answers, the loop goes through the first links of
    its list, some number of them. *)
Lemma scrape_loop_prefix (w : world) (total : Z) (links : list link) :
  forall (i : nat) (st : state),
  let v := view_of st in
  let v' := view_of (scrape_loop w total i links st) in
  exists n, (n <= List.length links)%nat
    /\ pages v' = (pages v ++ map snd (firstn n links))%list
    /\ found v' = (found v ++ extracted w i (firstn n links))%list
    /\ store v' = save_all (extracted w i (firstn n links)) (store v)
    /\ scraped v'
       = scraped v + Z.of_nat (List.length (extracted w i (firstn n links)))
    /\ finished v' = finished v
    /\ errored v' = errored v
    /\ (canceled v' = false -> n = List.length links).
Proof.
  induction links as [|l rest IH]; intros i st; cbv zeta.
  - exists 0%nat. cbn [scrape_loop firstn map extracted List.length save_all
                      fold_left].
    rewrite !app_nil_r, Z.add_0_r. repeat split; reflexivity || lia.
  - destruct (_is_canceled st) eqn:Hc.
    + rewrite (scrape_loop_stopped w total i (l :: rest) st Hc).
      exists 0%nat. cbn [firstn map extracted List.length save_all fold_left].
      rewrite !app_nil_r, Z.add_0_r.
      repeat split; try reflexivity; try lia.
      change (canceled (view_of st)) with (_is_canceled st). congruence.
    + cbn [scrape_loop]. rewrite Hc.
      set (st1 := iteration (replies w i) total (Z.of_nat i) l st).
      assert (Hv : view_of st1
                   = after_turn (replies w i) total (Z.of_nat i) l
                                (view_of st)) by apply iteration_view.
      destruct (IH (S i) st1) as [n [Hn [Hp [Hf [Hs [Hsc [Hfi [He Hall]]]]]]]].
      exists (S n). cbn [firstn map List.length].
      rewrite Hp, Hf, Hs, Hsc, Hfi, He, Hv, extracted_cons.
      unfold after_turn.
      cbn [canceled pages found store slept scraped failed finished errored].
      rewrite <- !app_assoc, length_app, Nat2Z.inj_add.
      unfold save_all. rewrite fold_left_app.
      split; [lia|]. split; [reflexivity|]. split; [reflexivity|].
      split; [|split; [|split; [reflexivity|split; [reflexivity|]]]].
      * destruct (page (replies w i)); destruct (saved (replies w i));
          reflexivity.
      * destruct (page (replies w i)); destruct (saved (replies w i));
          cbn [List.length]; lia.
      * intros Hclear. now rewrite (Hall Hclear).
Qed.

(** The loop when nobody asks to cancel: it pauses between two pages and
    counts the pages it could not read. *)
Lemma scrape_loop_uncancelled (w : world) (total : Z) (links : list link) :
  forall (i : nat) (st : state),
  _is_canceled st = false ->
  (forall j, (j < List.length links)%nat ->
             cancel_requested (replies w (i + j)) = false) ->
  total = Z.of_nat (i + List.length links) ->
  let v := view_of st in
  let v' := view_of (scrape_loop w total i links st) in
  canceled v' = false
  /\ slept v' = (slept v + Nat.pred (List.length links))%nat
  /\ failed v' = failed v + Z.of_nat (failures w i links).
Proof.
  induction links as [|l rest IH]; intros i st Hc Hno Htotal; cbv zeta.
  - cbn [scrape_loop List.length failures Nat.pred].
    rewrite Nat.add_0_r, Z.add_0_r. repeat split. exact Hc.
  - cbn [scrape_loop]. rewrite Hc.
    set (st1 := iteration (replies w i) total (Z.of_nat i) l st).
    assert (Hv : view_of st1
                 = after_turn (replies w i) total (Z.of_nat i) l
                              (view_of st)) by apply iteration_view.
    assert (Hnot : cancel_requested (replies w i) = false).
    { specialize (Hno 0%nat). rewrite Nat.add_0_r in Hno. apply Hno.
      cbn [List.length]. lia. }
    assert (Hc1 : _is_canceled st1 = false).
    { change (canceled (view_of st1) = false). rewrite Hv. unfold after_turn.
      cbn [canceled]. change (canceled (view_of st)) with (_is_canceled st).
      now rewrite Hc, Hnot. }
    destruct (IH (S i) st1 Hc1) as [Hflag [Hsl Hfa]].
    + intros j Hj. replace (S i + j)%nat with (i + S j)%nat by lia.
      apply Hno. cbn [List.length]. lia.
    + rewrite Htotal. cbn [List.length]. f_equal. lia.
    + split; [exact Hflag|]. rewrite Hsl, Hfa, Hv. unfold after_turn.
      cbn [slept failed failures List.length Nat.pred].
      split.
      * destruct (Z.of_nat i <? total - 1) eqn:E.
        -- apply Z.ltb_lt in E. cbn [List.length] in Htotal.
           destruct rest; cbn [List.length] in *; lia.
        -- apply Z.ltb_ge in E. cbn [List.length] in Htotal.
           destruct rest; cbn [List.length Nat.pred] in *; lia.
      * destruct (page (replies w i)); lia.
Qed.

Lemma extracted_and_failures (w : world) (links : list link) :
  forall i, (List.length (extracted w i links) + failures w i links
             <= List.length links)%nat.
Proof.
  induction links as [|l rest IH]; intros i; [cbn; lia|].
  rewrite extracted_cons, length_app. cbn [failures List.length].
  specialize (IH (S i)).
  destruct (page (replies w i)); destruct (saved (replies w i));
    cbn [List.length]; lia.
Qed.

(** A run that finds links: the set-up shows nothing but the flag, and the
    end reports completion exactly when the flag is clear. *)
Lemma run_scraping_view (w : world) (max_components : Z) (st : state)
    (links : list link) :
  component_links w max_components = Some links ->
  exists st1,
    view_of st1 = with_flag (cancel_during_setup w) (view_of st)
    /\ let v2 := view_of (scrape_loop w (Z.of_nat (List.length links)) 0
                            links st1) in
       view_of (run_scraping w max_components st)
       = if canceled v2 then v2 else after_event (Emit scraping_finished) v2.
Proof.
  intros Hlinks. unfold run_scraping, component_links in *.
  destruct (listing w) as [[found_links fallback] | logged]; [|discriminate].
  destruct (match found_links with [] => fallback | _ :: _ => found_links end)
    as [|l0 chosen] eqn:Hchosen; [discriminate|].
  injection Hlinks as Hlinks. rewrite Hlinks. cbv zeta.
  generalize ("Found " ++ PyStr.of_Z (Z.of_nat (List.length links))
              ++ " components to scrape") as msg.
  intros msg. unfold emit.
  set (st0 := record (Emit (log_message msg)) _).
  assert (H0 : view_of st0 = with_flag false (view_of st)).
  { unfold st0. rewrite !record_silent by exact I. apply set_canceled_view. }
  exists (if cancel_during_setup w then cancel_scraping st0 else st0).
  split.
  - destruct (cancel_during_setup w);
      [rewrite cancel_scraping_view|]; rewrite H0; reflexivity.
  - set (st2 := scrape_loop w _ 0 links _).
    change (canceled (view_of st2)) with (_is_canceled st2).
    destruct (_is_canceled st2); cbn [negb]; [reflexivity|].
    generalize (PyStr.of_Z (scraped_count st2)) as a.
    generalize (PyStr.of_Z (failed_count st2)) as b. intros b a.
    rewrite record_view. now rewrite !record_silent by exact I.
Qed.

(** A run that finds no link to follow shows one error and nothing else. *)
Lemma run_scraping_no_links (w : world) (max_components : Z) (st : state) :
  component_links w max_components = None ->
  exists text,
    view_of (run_scraping w max_components st)
    = after_event (Emit (scraping_error text)) (with_flag false (view_of st)).
Proof.
  intros Hlinks. unfold run_scraping, component_links in *.
  destruct (listing w) as [[found_links fallback] | logged].
  - destruct (match found_links with [] => fallback | _ :: _ => found_links end)
      as [|l0 chosen] eqn:Hchosen; [|discriminate].
    eexists. cbv zeta. unfold emit. rewrite record_view.
    rewrite !record_silent by exact I. now rewrite set_canceled_view.
  - eexists. cbv zeta. unfold emit. rewrite record_view.
    rewrite !record_silent by exact I. now rewrite set_canceled_view.
Qed.

Lemma slice_to_length {A : Type} (n : Z) (l : list A) :
  0 <= n -> Z.of_nat (List.length (slice_to n l)) <= n.
Proof.
  intros Hn. unfold slice_to. destruct (n <? 0) eqn:E;
    [apply Z.ltb_lt in E; lia|].
  pose proof (firstn_le_length (Z.to_nat n) l). lia.
Qed.

Lemma component_links_length (w : world) (max_components : Z)
    (links : list link) :
  component_links w max_components = Some links ->
  0 <= max_components ->
  Z.of_nat (List.length links) <= max_components.
Proof.
  unfold component_links. intros Hlinks Hmax.
  destruct (listing w) as [[found_links fallback] | logged]; [|discriminate].
  destruct (match found_links with [] => fallback | _ :: _ => found_links end);
    [discriminate|].
  injection Hlinks as <-. now apply slice_to_length.
Qed.

(** X25.  Whatever the pages answer and whenever the user cancels, a run
    that found links scrapes the first links of its list, in order, and no
    other page; it reports exactly the components extracted and saved on
    those pages, which are the ones it put in the store and the ones it
    counted as scraped; it scrapes at most [max_components] pages when that
    number is not negative; and it ends either with the flag set and
    neither completion nor an error reported, or with completion reported
    after the whole list.  A cancellation requested before the run makes
    no difference. *)
Theorem every_run_scrapes_a_prefix (w : world) (max_components : Z)
    (db : list (string * Component.t)) (links : list link)
    (canceled_before : bool) :
  component_links w max_components = Some links ->
  let start := if canceled_before then cancel_scraping (init db)
               else init db in
  let final := run_scraping w max_components start in
  exists n, (n <= List.length links)%nat
    /\ pages_scraped (trace final) = map snd (firstn n links)
    /\ reported (trace final) = extracted w 0 (firstn n links)
    /\ database final = save_all (extracted w 0 (firstn n links)) db
    /\ scraped_count final
       = Z.of_nat (List.length (reported (trace final)))
    /\ (0 <= max_components ->
        Z.of_nat (List.length (pages_scraped (trace final)))
        <= max_components)
    /\ (if _is_canceled final
        then final_state (trace final) = Canceled
        else final_state (trace final) = Completed
             /\ n = List.length links).
Proof.
  intros Hlinks. cbv zeta.
  set (start := if canceled_before then cancel_scraping (init db)
                else init db).
  assert (Hstart : with_flag false (view_of start)
                   = view_of (init db)) by (now destruct canceled_before).
  destruct (run_scraping_view w max_components start links Hlinks)
    as [st1 [H1 Hrun]].
  cbv zeta in Hrun.
  destruct (scrape_loop_prefix w (Z.of_nat (List.length links)) links 0 st1)
    as [n [Hn [Hp [Hf [Hs [Hsc [Hfi [He Hall]]]]]]]].
  set (v2 := view_of (scrape_loop w (Z.of_nat (List.length links)) 0 links
                        st1)) in *.
  rewrite H1 in Hp, Hf, Hs, Hsc, Hfi, He.
  assert (Hempty : view_of (init db) = mk_view false [] [] db 0 0 0 false false)
    by reflexivity.
  assert (Hfields : pages (with_flag (cancel_during_setup w) (view_of start))
                    = []
                    /\ found (with_flag (cancel_during_setup w)
                                (view_of start)) = []
                    /\ store (with_flag (cancel_during_setup w)
                                (view_of start)) = db
                    /\ scraped (with_flag (cancel_during_setup w)
                                  (view_of start)) = 0
                    /\ finished (with_flag (cancel_during_setup w)
                                   (view_of start)) = false
                    /\ errored (with_flag (cancel_during_setup w)
                                  (view_of start)) = false)
    by (now destruct canceled_before).
  destruct Hfields as [Hp0 [Hf0 [Hs0 [Hsc0 [Hfi0 He0]]]]].
  rewrite Hp0 in Hp. rewrite Hf0 in Hf. rewrite Hs0 in Hs.
  rewrite Hsc0 in Hsc. rewrite Hfi0 in Hfi. rewrite He0 in He.
  cbn [app] in Hp, Hf. rewrite Z.add_0_l in Hsc.
  set (final := run_scraping w max_components start) in *.
  assert (Hview : canceled (view_of final) = canceled v2
                  /\ pages (view_of final) = pages v2
                  /\ found (view_of final) = found v2
                  /\ store (view_of final) = store v2
                  /\ scraped (view_of final) = scraped v2
                  /\ finished (view_of final) = negb (canceled v2)
                  /\ errored (view_of final) = false).
  { rewrite Hrun. destruct (canceled v2) eqn:Hc.
    - rewrite Hc, Hfi, He. repeat split.
    - unfold after_event.
      cbn [canceled pages found store scraped finished errored
           pages_scraped reported flat_map is_finished is_error app].
      rewrite !app_nil_r, Hfi, He, Hc. repeat split. }
  destruct Hview as [Vc [Vp [Vf [Vs [Vsc [Vfi Ve]]]]]].
  change (canceled (view_of final)) with (_is_canceled final) in Vc.
  change (pages (view_of final)) with (pages_scraped (trace final)) in Vp.
  change (found (view_of final)) with (reported (trace final)) in Vf.
  change (store (view_of final)) with (database final) in Vs.
  change (scraped (view_of final)) with (scraped_count final) in Vsc.
  change (finished (view_of final))
    with (existsb is_finished (trace final)) in Vfi.
  change (errored (view_of final))
    with (existsb is_error (trace final)) in Ve.
  exists n. split; [exact Hn|].
  split; [now rewrite Vp|]. split; [now rewrite Vf|].
  split; [now rewrite Vs|]. split; [now rewrite Vsc, Vf, Hf|].
  split.
  - intros Hmax. rewrite Vp, Hp, length_map.
    pose proof (component_links_length w max_components links Hlinks Hmax).
    rewrite length_firstn. lia.
  - rewrite Vc. unfold final_state. rewrite Vfi, Ve.
    destruct (canceled v2) eqn:Hc; cbn [negb]; [reflexivity|].
    split; [reflexivity | now apply Hall].
Qed.

(** X26.  When nobody asks to cancel during a run that found links, the
    run scrapes every link of its list in order, pauses once between two
    pages and not after the last, counts as scraped the components it
    extracted and saved and as failed the pages it could not read, so that
    a component extracted but not saved is in neither count, and reports
    completion.  A cancellation requested before the run is forgotten. *)
Theorem uncancelled_run_completes (w : world) (max_components : Z)
    (db : list (string * Component.t)) (links : list link)
    (canceled_before : bool) :
  component_links w max_components = Some links ->
  cancel_during_setup w = false ->
  (forall j, (j < List.length links)%nat ->
             cancel_requested (replies w j) = false) ->
  let start := if canceled_before then cancel_scraping (init db)
               else init db in
  let final := run_scraping w max_components start in
  final_state (trace final) = Completed
  /\ _is_canceled final = false
  /\ pages_scraped (trace final) = map snd links
  /\ reported (trace final) = extracted w 0 links
  /\ sleeps (trace final) = Nat.pred (List.length links)
  /\ scraped_count final = Z.of_nat (List.length (extracted w 0 links))
  /\ failed_count final = Z.of_nat (failures w 0 links)
  /\ scraped_count final + failed_count final
     <= Z.of_nat (List.length links).
Proof.
  intros Hlinks Hsetup Hno. cbv zeta.
  set (start := if canceled_before then cancel_scraping (init db)
                else init db).
  destruct (run_scraping_view w max_components start links Hlinks)
    as [st1 [H1 Hrun]].
  cbv zeta in Hrun. rewrite Hsetup in H1.
  assert (Hc1 : _is_canceled st1 = false).
  { change (canceled (view_of st1) = false). now rewrite H1. }
  destruct (scrape_loop_prefix w (Z.of_nat (List.length links)) links 0 st1)
    as [n [Hn [Hp [Hf [_ [Hsc [_ [_ Hall]]]]]]]].
  destruct (scrape_loop_uncancelled w (Z.of_nat (List.length links)) links
              0 st1 Hc1 Hno eq_refl) as [Hflag [Hsl Hfa]].
  set (v2 := view_of (scrape_loop w (Z.of_nat (List.length links)) 0 links
                        st1)) in *.
  rewrite (Hall Hflag), firstn_all in Hp, Hf, Hsc.
  rewrite H1 in Hp, Hf, Hsc, Hsl, Hfa.
  assert (Hfields : pages (with_flag false (view_of start)) = []
                    /\ found (with_flag false (view_of start)) = []
                    /\ slept (with_flag false (view_of start)) = 0%nat
                    /\ scraped (with_flag false (view_of start)) = 0
                    /\ failed (with_flag false (view_of start)) = 0)
    by (now destruct canceled_before).
  destruct Hfields as [Hp0 [Hf0 [Hsl0 [Hsc0 Hfa0]]]].
  rewrite Hp0 in Hp. rewrite Hf0 in Hf. rewrite Hsl0 in Hsl.
  rewrite Hsc0 in Hsc. rewrite Hfa0 in Hfa.
  cbn [app] in Hp, Hf. rewrite Z.add_0_l in Hsc, Hfa.
  rewrite Nat.add_0_l in Hsl.
  rewrite Hflag in Hrun.
  set (final := run_scraping w max_components start) in *.
  assert (Hview : canceled (view_of final) = false
                  /\ pages (view_of final) = pages v2
                  /\ found (view_of final) = found v2
                  /\ slept (view_of final) = slept v2
                  /\ scraped (view_of final) = scraped v2
                  /\ failed (view_of final) = failed v2
                  /\ finished (view_of final) = true).
  { rewrite Hrun. unfold after_event.
    cbn [canceled pages found store slept scraped failed finished errored
         pages_scraped reported sleeps flat_map filter List.length
         is_finished is_error app].
    now rewrite !app_nil_r, Nat.add_0_r, orb_true_r, Hflag. }
  destruct Hview as [Vc [Vp [Vf [Vsl [Vsc [Vfa Vfi]]]]]].
  change (canceled (view_of final)) with (_is_canceled final) in Vc.
  change (pages (view_of final)) with (pages_scraped (trace final)) in Vp.
  change (found (view_of final)) with (reported (trace final)) in Vf.
  change (slept (view_of final)) with (sleeps (trace final)) in Vsl.
  change (scraped (view_of final)) with (scraped_count final) in Vsc.
  change (failed (view_of final)) with (failed_count final) in Vfa.
  change (finished (view_of final))
    with (existsb is_finished (trace final)) in Vfi.
  split; [unfold final_state; now rewrite Vfi|].
  split; [exact Vc|]. split; [now rewrite Vp|]. split; [now rewrite Vf|].
  split; [now rewrite Vsl|]. split; [now rewrite Vsc|].
  split; [now rewrite Vfa|].
  rewrite Vsc, Vfa, Hsc, Hfa.
  pose proof (extracted_and_failures w links 0). lia.
Qed.

(** X27.  When the listing page cannot be fetched, or holds no component
    link, the run reports an error and ends: it scrapes no page, reports no
    component, leaves the store as it was and never pauses. *)
Theorem run_without_links_fails (w : world) (max_components : Z)
    (db : list (string * Component.t)) (canceled_before : bool) :
  component_links w max_components = None ->
  let start := if canceled_before then cancel_scraping (init db)
               else init db in
  let final := run_scraping w max_components start in
  final_state (trace final) = Failed
  /\ _is_canceled final = false
  /\ pages_scraped (trace final) = []
  /\ reported (trace final) = []
  /\ database final = db
  /\ sleeps (trace final) = 0%nat.
Proof.
  intros Hlinks. cbv zeta.
  set (start := if canceled_before then cancel_scraping (init db)
                else init db).
  destruct (run_scraping_no_links w max_components start Hlinks)
    as [text Hrun].
  set (final := run_scraping w max_components start) in *.
  assert (Hview : canceled (view_of final) = false
                  /\ pages (view_of final) = []
                  /\ found (view_of final) = []
                  /\ store (view_of final) = db
                  /\ slept (view_of final) = 0%nat
                  /\ finished (view_of final) = false
                  /\ errored (view_of final) = true).
  { rewrite Hrun. now destruct canceled_before. }
  destruct Hview as [Vc [Vp [Vf [Vs [Vsl [Vfi Ve]]]]]].
  change (canceled (view_of final)) with (_is_canceled final) in Vc.
  change (pages (view_of final)) with (pages_scraped (trace final)) in Vp.
  change (found (view_of final)) with (reported (trace final)) in Vf.
  change (store (view_of final)) with (database final) in Vs.
  change (slept (view_of final)) with (sleeps (trace final)) in Vsl.
  change (finished (view_of final))
    with (existsb is_finished (trace final)) in Vfi.
  change (errored (view_of final))
    with (existsb is_error (trace final)) in Ve.
  unfold final_state. rewrite Vfi, Ve. repeat split; assumption.
Qed.

End CrawlViews.

Lemma every_run_scrapes_a_prefix_witness :
  exists n, (n <= 5)%nat
    /\ Crawl.pages_scraped
         (Crawl.trace (Crawl.run_scraping Examples.cancel_after_second 3
                         (Crawl.init [])))
       = map snd (firstn n (firstn 3 Examples.five_links)).
Proof.
  destruct (every_run_scrapes_a_prefix Examples.cancel_after_second 3 []
              (firstn 3 Examples.five_links) false eq_refl)
    as [n [Hn [Hp _]]].
  exists n. split; [cbn [List.length firstn Examples.five_links] in Hn; lia|].
  exact Hp.
Defined.

Lemma uncancelled_run_completes_witness :
  let final := Crawl.run_scraping Examples.two_mishaps 100
                 (Crawl.cancel_scraping (Crawl.init [])) in
  Crawl.final_state (Crawl.trace final) = Crawl.Completed
  /\ Spec.sleeps (Crawl.trace final) = 4%nat
  /\ Crawl.scraped_count final = 3
  /\ Crawl.failed_count final = 1.
Proof.
  destruct (uncancelled_run_completes Examples.two_mishaps 100 []
              Examples.five_links true)
    as [Hstate [_ [_ [_ [Hsl [Hsc [Hfa _]]]]]]];
    [reflexivity | reflexivity | intros j Hj; reflexivity |].
  cbv zeta. split; [exact Hstate|]. split; [exact Hsl|].
  split; [exact Hsc | exact Hfa].
Defined.

Lemma run_without_links_fails_witness :
  Crawl.final_state
    (Crawl.trace (Crawl.run_scraping Examples.no_listing 100 (Crawl.init [])))
  = Crawl.Failed.
Proof.
  now destruct (run_without_links_fails Examples.no_listing 100 [] false
                  eq_refl) as [Hstate _].
Defined.

(* ===================================================================== *)
(** * Properties of the frequency and duration validators *)
(* ===================================================================== *)

Section ScaledValidators.
Context {B : Builtins}.
Import ConfigValidator.

(** A run of characters of one class that ends where the string ends is
    also the longest run of any class that holds them all and not the
    newline. *)
Lemma span_switch (p q : ascii -> bool) (s : string) :
  forall a b,
    span p s = (a, b) ->
    PyStr.all_chars q a = true ->
    at_end b = true ->
    q newline = false ->
    span q s = (a, b).
Proof.
  induction s as [|c r IH]; intros a b Hspan Ha Hb Hq; cbn [span] in *.
  - exact Hspan.
  - destruct (p c).
    + destruct (span p r) as [a' b'] eqn:Er. inversion Hspan; subst.
      cbn [PyStr.all_chars] in Ha. apply andb_true_iff in Ha as [Hc Ha'].
      now rewrite Hc, (IH a' b eq_refl Ha' Hb Hq).
    + inversion Hspan; subst. destruct r; cbn [at_end] in Hb;
        [|discriminate].
      apply Ascii.eqb_eq in Hb. subst c. now rewrite Hq.
Qed.

Lemma lower_letters_alpha (u : string) :
  PyStr.all_chars PyStr.is_lower (PyStr.lower u) = true ->
  PyStr.all_chars PyStr.is_alpha u = true.
Proof.
  unfold PyStr.lower. induction u as [|c u IH];
    cbn [PyStr.map_chars PyStr.all_chars]; [reflexivity|].
  intros H. apply andb_true_iff in H as [Hc Hu]. rewrite (IH Hu).
  unfold PyStr.lower_ascii in Hc. unfold PyStr.is_alpha.
  destruct (PyStr.is_upper c); [reflexivity|]. now rewrite Hc.
Qed.

Lemma dict_get_of_key {A : Type} (k : string) (d : list (string * A)) :
  PyStr.mem k (map fst d) = true -> exists m, Py.dict_get k d = Some m.
Proof.
  unfold PyStr.mem. induction d as [|[k' v] r IH];
    cbn [map fst existsb Py.dict_get]; [discriminate|].
  destruct (String.eqb k k'); [now exists v | exact IH].
Qed.

(** What the first pattern accepts, the second pattern splits, and the
    unit it finds is one of the table. *)
Lemma number_unit_splits (units : list string) (v : string) :
  (forall n, In n units ->
             n <> EmptyString /\ PyStr.all_chars PyStr.is_lower n = true) ->
  match_number_unit units v = true ->
  exists num letters,
    match_number_letters v = Some (num, letters)
    /\ PyStr.mem (PyStr.lower letters) units = true.
Proof.
  intros Hunits. unfold match_number_unit, match_number_letters, before_end.
  destruct (span_number v) as [[num rest]|]; [|discriminate].
  destruct (span (fun c => negb (Ascii.eqb c newline)) rest)
    as [u tail] eqn:Espan.
  destruct (at_end tail) eqn:Etail; [|discriminate].
  intros Hmem.
  destruct (Hunits (PyStr.lower u)) as [Hne Hlow]; [now apply mem_In|].
  rewrite (span_switch _ PyStr.is_alpha rest u tail Espan
             (lower_letters_alpha u Hlow) Etail eq_refl).
  rewrite Etail. exists num, u.
  destruct u; [now elim Hne | now split].
Qed.

(** The answers of the two validators, case by case. *)
Lemma validate_scaled_cases (units : list (string * Z)) (limit : Z)
    (bad_format not_positive too_large bad_unit v : string) :
  (forall n, In n (map fst units) ->
             n <> EmptyString /\ PyStr.all_chars PyStr.is_lower n = true) ->
  let answer := validate_scaled units limit bad_format not_positive
                                too_large bad_unit v in
  answer = Return (invalid bad_format)
  \/ answer = Raise ValueError
  \/ answer = Return (invalid not_positive)
  \/ answer = Return (invalid too_large)
  \/ (answer = Return valid
      /\ exists num letters multiplier num_part,
           match_number_letters v = Some (num, letters)
           /\ Py.dict_get (PyStr.lower letters) units = Some multiplier
           /\ float_of_str num = Some num_part
           /\ fle (fmul num_part (f64 multiplier)) (f64 0) = false
           /\ flt (f64 limit) (fmul num_part (f64 multiplier)) = false).
Proof.
  intros Hunits. cbv zeta. unfold validate_scaled.
  destruct (match_number_unit (map fst units) v) eqn:Ematch; cbn [negb];
    [|now left].
  destruct (number_unit_splits _ v Hunits Ematch)
    as [num [letters [Hsplit Hmem]]].
  destruct (dict_get_of_key _ units Hmem) as [multiplier Hget].
  rewrite Hsplit, Hget.
  destruct (float_of_str num) as [num_part|] eqn:Efloat;
    [|right; now left].
  destruct (fle (fmul num_part (f64 multiplier)) (f64 0)) eqn:Elow;
    [right; right; now left|].
  destruct (flt (f64 limit) (fmul num_part (f64 multiplier))) eqn:Ehigh;
    [right; right; right; now left|].
  right; right; right; right. split; [reflexivity|].
  now exists num, letters, multiplier, num_part.
Qed.

(** X28.  [validate_frequency] and [validate_time_duration] never answer
    that the unit is wrong: a value their first pattern accepts always
    splits into a number and one of the units of the table.  So a value they
    accept has been scaled by its unit and found above zero and not above
    the limit, one gigahertz or twenty-four hours. *)
Theorem scaled_validators_always_check_the_range (v : string) :
  validate_frequency v <> Return (invalid "Unit must be Hz, KHz, or MHz")
  /\ validate_time_duration v
     <> Return (invalid "Unit must be ms, s, min, or h")
  /\ (validate_frequency v = Return valid ->
      exists num letters multiplier num_part,
        match_number_letters v = Some (num, letters)
        /\ Py.dict_get (PyStr.lower letters)
             [("hz", 1); ("khz", 1000); ("mhz", 1000000)] = Some multiplier
        /\ float_of_str num = Some num_part
        /\ fle (fmul num_part (f64 multiplier)) (f64 0) = false
        /\ flt (f64 1000000000) (fmul num_part (f64 multiplier)) = false)
  /\ (validate_time_duration v = Return valid ->
      exists num letters multiplier num_part,
        match_number_letters v = Some (num, letters)
        /\ Py.dict_get (PyStr.lower letters)
             [("ms", 1); ("s", 1000); ("min", 60000); ("h", 3600000)]
           = Some multiplier
        /\ float_of_str num = Some num_part
        /\ fle (fmul num_part (f64 multiplier)) (f64 0) = false
        /\ flt (f64 86400000) (fmul num_part (f64 multiplier)) = false).
Proof.
  assert (Hf : forall n, In n (map fst [("hz", 1); ("khz", 1000);
                                        ("mhz", 1000000)]) ->
                 n <> EmptyString
                 /\ PyStr.all_chars PyStr.is_lower n = true).
  { cbn [map fst In]. intros n [<- | [<- | [<- | []]]];
      (split; [discriminate | reflexivity]). }
  assert (Ht : forall n, In n (map fst [("ms", 1); ("s", 1000);
                                        ("min", 60000); ("h", 3600000)]) ->
                 n <> EmptyString
                 /\ PyStr.all_chars PyStr.is_lower n = true).
  { cbn [map fst In]. intros n [<- | [<- | [<- | [<- | []]]]];
      (split; [discriminate | reflexivity]). }
  pose proof (validate_scaled_cases _ 1000000000
                "Frequency must include units (Hz, KHz, MHz)"
                "Frequency must be positive"
                "Frequency is too high (max 1 GHz)"
                "Unit must be Hz, KHz, or MHz" v Hf) as Cf.
  pose proof (validate_scaled_cases _ 86400000
                "Time duration must include units (ms, s, min, h)"
                "Duration must be positive"
                "Duration is too long (max 24 hours)"
                "Unit must be ms, s, min, or h" v Ht) as Ct.
  cbv zeta in Cf, Ct.
  fold validate_frequency in Cf. fold validate_time_duration in Ct.
  split; [|split; [|split]].
  - destruct Cf as [-> | [-> | [-> | [-> | [-> _]]]]]; discriminate.
  - destruct Ct as [-> | [-> | [-> | [-> | [-> _]]]]]; discriminate.
  - intros Hv. rewrite Hv in Cf.
    destruct Cf as [H | [H | [H | [H | [_ H]]]]]; try discriminate H.
    exact H.
  - intros Hv. rewrite Hv in Ct.
    destruct Ct as [H | [H | [H | [H | [_ H]]]]]; try discriminate H.
    exact H.
Qed.

End ScaledValidators.

(* ===================================================================== *)
(** * Properties of ESPHomeComponent.get_yaml_config *)
(* ===================================================================== *)

Section YamlText.
Context {B : Builtins}.
Import ComponentYaml.

Lemma add_var_line_spec (self : Component.t) (indent_str : string)
    (lines : list string) (has_config : bool) (var : ConfigVariable.t) :
  fst (add_var_line self indent_str (lines, has_config) var)
  = (lines
     ++ if Py.is_none (ConfigVariable.get_effective_value var) then []
        else [Spec.var_line self indent_str var])%list.
Proof.
  unfold add_var_line, Spec.var_line.
  assert (Hnone : Py.is_none (ConfigVariable.to_yaml_value var)
                  = Py.is_none (ConfigVariable.get_effective_value var)).
  { unfold ConfigVariable.to_yaml_value.
    destruct (ConfigVariable.get_effective_value var) as [| | | |s| |];
      try reflexivity.
    now destruct (String.eqb (ConfigVariable.data_type var) "string"
                  && ConfigVariable.needs_quoting s). }
  rewrite Hnone.
  destruct (Py.is_none (ConfigVariable.get_effective_value var));
    cbn [negb fst]; [now rewrite app_nil_r|].
  destruct has_config;
    destruct (String.eqb (Component.component_type self)
                         (Component.name self));
    reflexivity.
Qed.

Lemma add_var_lines_spec (self : Component.t) (indent_str : string)
    (vars : list ConfigVariable.t) :
  forall lines has_config,
    fst (fold_left (add_var_line self indent_str) vars (lines, has_config))
    = (lines
       ++ map (Spec.var_line self indent_str)
            (filter (fun var =>
                       negb (Py.is_none
                               (ConfigVariable.get_effective_value var)))
                    vars))%list.
Proof.
  induction vars as [|var vars IH]; intros lines has_config;
    cbn [fold_left filter map]; [now rewrite app_nil_r|].
  pose proof (add_var_line_spec self indent_str lines has_config var) as Hv.
  destruct (add_var_line self indent_str (lines, has_config) var)
    as [lines' has_config'].
  cbn [fst] in Hv. rewrite IH, Hv.
  destruct (Py.is_none (ConfigVariable.get_effective_value var));
    cbn [negb map]; now rewrite <- app_assoc.
Qed.

(** X29.  The text [get_yaml_config] returns is the header, one line for a
    component that is its own type and two for a component under a
    platform entry, followed by one line for each variable that has an
    effective value, in order, all at one depth: the [has_config] flag the
    method keeps never changes a line.  A variable without effective value
    adds nothing. *)
Theorem get_yaml_config_lines (self : Component.t) (indent : Z) :
  let indent_str := times "  " (Z.to_nat indent) in
  get_yaml_config self indent
  = join (String ConfigValidator.newline EmptyString)
      (header self indent_str
       ++ map (Spec.var_line self indent_str)
            (filter (fun var =>
                       negb (Py.is_none
                               (ConfigVariable.get_effective_value var)))
                    (Component.config_vars self)))%list.
Proof.
  cbv zeta. unfold get_yaml_config.
  pose proof (add_var_lines_spec self (times "  " (Z.to_nat indent))
                (Component.config_vars self)
                (header self (times "  " (Z.to_nat indent))) false) as H.
  destruct (fold_left _ (Component.config_vars self) _) as [lines flag].
  cbn [fst] in H. now rewrite H.
Qed.

End YamlText.
